(** * StudyByEnergy: the session/timer state machine, its local store
      and the cloud-sync client

    A shallow embedding of [src/App.tsx] (the component with the timer,
    the feedback prompt and the cloud sync; the earlier draft of the same
    component shares its load and save effects) and of
    [src/lib/supabase.ts].

    - React state is a record [AppState]; one [setX] per [useState] setter.
    - What the component touches outside its state is a record [Env]:
      [localStorage], the [timerRef] ref, the browser's table of active
      intervals, the console, and the [syncSession] calls started.
    - An event runs its handler and then the effects whose dependencies
      changed ([commit]), as one atomic step: execution is single-threaded.
    - Which event can happen in which state follows the JSX: a handler is
      reachable only through a button of the view that is rendered. A
      render that throws removes the component.
    - [JSON.parse], [JSON.stringify] and the Supabase client belong to the
      platform; the model is parametric in them. *)

From Stdlib Require Import ZArith Ascii String List Bool Lia.
From Stdlib Require Floats.
From stdpp Require Import base option strings gmap pretty.
Import ListNotations.

Set Warnings "-register-all".
Local Open Scope string_scope.
Local Open Scope Z_scope.

(** ** JavaScript values *)

(** A number is an IEEE 754 double. *)
Definition Number : Set := PrimFloat.float.

(** The number a whole-number literal denotes. *)
Definition num (n : Z) : Number :=
  FloatOps.SF2Prim (SpecFloat.binary_normalize FloatOps.prec FloatOps.emax n 0 false).

(** The values a JSON payload can put into the component's state. *)
Inductive JsValue : Type :=
| JUndefined
| JNull
| JBool (b : bool)
| JNum (x : Number)
| JStr (s : string)
| JArr (items : list JsValue)
| JObj (members : list (string * JsValue)).

(** [!!v] *)
Definition truthy (v : JsValue) : bool :=
  match v with
  | JUndefined | JNull => false
  | JBool b => b
  | JNum x => negb (PrimFloat.is_zero x || PrimFloat.is_nan x)
  | JStr s => negb (String.eqb s "")
  | JArr _ | JObj _ => true
  end.

(** [Object.is a b], the comparison React applies to a state update and to
    effect dependencies: [NaN] is itself, and [+0] is not [-0]. Objects
    and arrays are compared by content: the only object that can reach
    the state is the one value read at mount, which is afterwards compared
    with itself or with a string or null. *)
Fixpoint same_value (a b : JsValue) {struct a} : bool :=
  match a, b with
  | JUndefined, JUndefined => true
  | JNull, JNull => true
  | JBool x, JBool y => Bool.eqb x y
  | JNum x, JNum y => PrimFloat.Leibniz.eqb x y
  | JStr x, JStr y => String.eqb x y
  | JArr xs, JArr ys =>
      (fix items (xs ys : list JsValue) {struct xs} : bool :=
         match xs, ys with
         | [], [] => true
         | x :: xs', y :: ys' => same_value x y && items xs' ys'
         | _, _ => false
         end) xs ys
  | JObj xs, JObj ys =>
      (fix members (xs ys : list (string * JsValue)) {struct xs} : bool :=
         match xs, ys with
         | [], [] => true
         | (k, x) :: xs', (l, y) :: ys' =>
             String.eqb k l && same_value x y && members xs' ys'
         | _, _ => false
         end) xs ys
  | _, _ => false
  end.

(** [v !== 'lit'] against a string literal. *)
Definition differs_from_string (v : JsValue) (lit : string) : bool :=
  negb (same_value v (JStr lit)).

(** Reading a property: [None] is the [TypeError] that reading a property
    of [null] or [undefined] throws; a missing member reads as
    [undefined], as does any named member of a primitive or an array
    (no session field is called [length]). *)
Fixpoint lookup_member (k : string) (ms : list (string * JsValue)) : JsValue :=
  match ms with
  | [] => JUndefined
  | (k', v) :: ms' => if String.eqb k k' then v else lookup_member k ms'
  end.

Definition member (v : JsValue) (k : string) : JsValue :=
  match v with
  | JObj ms => lookup_member k ms
  | _ => JUndefined
  end.

Definition getProp (v : JsValue) (k : string) : option JsValue :=
  match v with
  | JUndefined | JNull => None
  | _ => Some (member v k)
  end.

(** ** The platform's JSON functions *)

(** [JSON_parse s = None] is the [SyntaxError] thrown on malformed text. *)
Class JSON := {
  JSON_parse : string -> option JsValue;
  JSON_stringify : JsValue -> string
}.

(** ** Types of [App.tsx] *)

(** [type EnergyLevel = 'low' | 'medium' | 'high' | null] *)
Inductive Energy := low | medium | high.
Definition EnergyLevel := option Energy.

(** [type Activity = 'study' | 'rest' | 'reflect' | null] *)
Inductive ActivityKind := study | rest | reflect.
Definition Activity := option ActivityKind.

Definition energy_string (e : Energy) : string :=
  match e with low => "low" | medium => "medium" | high => "high" end.

Definition activity_string (a : ActivityKind) : string :=
  match a with study => "study" | rest => "rest" | reflect => "reflect" end.

(** The run-time value of a typed argument. *)
Definition energy_value (l : EnergyLevel) : JsValue :=
  match l with Some e => JStr (energy_string e) | None => JNull end.

Definition activity_value (a : Activity) : JsValue :=
  match a with Some k => JStr (activity_string k) | None => JNull end.

(** The [useState] cells of [App]. [energyLevel] and [currentActivity] hold
    whatever the load effect read, hence [JsValue]; the timer numbers are
    whole minutes and seconds. *)
Record AppState := mkApp {
  energyLevel : JsValue;
  currentActivity : JsValue;
  showReflection : bool;
  showTimer : bool;
  timerDuration : Z;
  timeRemaining : Z;
  isTimerRunning : bool;
  pomodoroEnabled : bool;
  sessionComplete : bool;
  showFeedback : bool;
  isAuthenticated : bool
}.

(** The initial values passed to [useState]. *)
Definition initialState : AppState :=
  {| energyLevel := JNull; currentActivity := JNull;
     showReflection := false; showTimer := false;
     timerDuration := 25; timeRemaining := 0;
     isTimerRunning := false; pomodoroEnabled := false;
     sessionComplete := false; showFeedback := false;
     isAuthenticated := false |}.

Definition setEnergyLevel (v : JsValue) (s : AppState) : AppState :=
  mkApp v (currentActivity s) (showReflection s) (showTimer s)
    (timerDuration s) (timeRemaining s) (isTimerRunning s)
    (pomodoroEnabled s) (sessionComplete s) (showFeedback s)
    (isAuthenticated s).

Definition setCurrentActivity (v : JsValue) (s : AppState) : AppState :=
  mkApp (energyLevel s) v (showReflection s) (showTimer s)
    (timerDuration s) (timeRemaining s) (isTimerRunning s)
    (pomodoroEnabled s) (sessionComplete s) (showFeedback s)
    (isAuthenticated s).

Definition setShowReflection (b : bool) (s : AppState) : AppState :=
  mkApp (energyLevel s) (currentActivity s) b (showTimer s)
    (timerDuration s) (timeRemaining s) (isTimerRunning s)
    (pomodoroEnabled s) (sessionComplete s) (showFeedback s)
    (isAuthenticated s).

Definition setShowTimer (b : bool) (s : AppState) : AppState :=
  mkApp (energyLevel s) (currentActivity s) (showReflection s) b
    (timerDuration s) (timeRemaining s) (isTimerRunning s)
    (pomodoroEnabled s) (sessionComplete s) (showFeedback s)
    (isAuthenticated s).

Definition setTimerDuration (d : Z) (s : AppState) : AppState :=
  mkApp (energyLevel s) (currentActivity s) (showReflection s) (showTimer s)
    d (timeRemaining s) (isTimerRunning s)
    (pomodoroEnabled s) (sessionComplete s) (showFeedback s)
    (isAuthenticated s).

Definition setTimeRemaining (t : Z) (s : AppState) : AppState :=
  mkApp (energyLevel s) (currentActivity s) (showReflection s) (showTimer s)
    (timerDuration s) t (isTimerRunning s)
    (pomodoroEnabled s) (sessionComplete s) (showFeedback s)
    (isAuthenticated s).

Definition setIsTimerRunning (b : bool) (s : AppState) : AppState :=
  mkApp (energyLevel s) (currentActivity s) (showReflection s) (showTimer s)
    (timerDuration s) (timeRemaining s) b
    (pomodoroEnabled s) (sessionComplete s) (showFeedback s)
    (isAuthenticated s).

Definition setPomodoroEnabled (b : bool) (s : AppState) : AppState :=
  mkApp (energyLevel s) (currentActivity s) (showReflection s) (showTimer s)
    (timerDuration s) (timeRemaining s) (isTimerRunning s)
    b (sessionComplete s) (showFeedback s)
    (isAuthenticated s).

Definition setSessionComplete (b : bool) (s : AppState) : AppState :=
  mkApp (energyLevel s) (currentActivity s) (showReflection s) (showTimer s)
    (timerDuration s) (timeRemaining s) (isTimerRunning s)
    (pomodoroEnabled s) b (showFeedback s)
    (isAuthenticated s).

Definition setShowFeedback (b : bool) (s : AppState) : AppState :=
  mkApp (energyLevel s) (currentActivity s) (showReflection s) (showTimer s)
    (timerDuration s) (timeRemaining s) (isTimerRunning s)
    (pomodoroEnabled s) (sessionComplete s) b
    (isAuthenticated s).

Definition setIsAuthenticated (b : bool) (s : AppState) : AppState :=
  mkApp (energyLevel s) (currentActivity s) (showReflection s) (showTimer s)
    (timerDuration s) (timeRemaining s) (isTimerRunning s)
    (pomodoroEnabled s) (sessionComplete s) (showFeedback s)
    b.

(** ** [src/lib/supabase.ts]: data *)

(** [interface SessionRecord] ([record_id] is its [id]); an optional field
    that is absent is [None]. [energy_level] and [activity] carry what the
    component's state held. *)
Record SessionRecord := mkRecord {
  record_id : option string;
  user_id : option string;
  energy_level : JsValue;
  activity : JsValue;
  duration_minutes : option Z;
  feedback : option string;
  created_at : option string
}.

(** ** The component's surroundings *)

Inductive LogEntry :=
| ConsoleError (msg : string)
| ConsoleWarn (msg : string).

(** [timerRef] is the [useRef] cell; [intervals] are the handles the
    browser will still call back; [syncCalls] are the calls of
    [syncSession] made so far, oldest first. *)
Record Env := mkEnv {
  localStorage : gmap string string;
  timerRef : option nat;
  intervals : list nat;
  nextHandle : nat;
  console : list LogEntry;
  syncCalls : list SessionRecord
}.

Record World := mkWorld { app : AppState; env : Env }.

Definition setLocalStorage (m : gmap string string) (e : Env) : Env :=
  mkEnv m (timerRef e) (intervals e) (nextHandle e) (console e) (syncCalls e).

Definition setTimerRef (r : option nat) (e : Env) : Env :=
  mkEnv (localStorage e) r (intervals e) (nextHandle e) (console e) (syncCalls e).

Definition log (l : LogEntry) (e : Env) : Env :=
  mkEnv (localStorage e) (timerRef e) (intervals e) (nextHandle e)
    (console e ++ [l]) (syncCalls e).

Definition startSync (r : SessionRecord) (e : Env) : Env :=
  mkEnv (localStorage e) (timerRef e) (intervals e) (nextHandle e)
    (console e) (syncCalls e ++ [r]).

(** [window.setInterval]: a fresh handle, from then on active. *)
Definition setInterval (e : Env) : nat * Env :=
  (nextHandle e,
   mkEnv (localStorage e) (timerRef e) (intervals e ++ [nextHandle e])
     (S (nextHandle e)) (console e) (syncCalls e)).

(** [clearInterval(h)] *)
Definition clearInterval (h : nat) (e : Env) : Env :=
  mkEnv (localStorage e) (timerRef e)
    (List.filter (fun i => negb (Nat.eqb i h)) (intervals e))
    (nextHandle e) (console e) (syncCalls e).

(** [if (timerRef.current) { clearInterval(timerRef.current);
    timerRef.current = null }], the block the timer effect, its cleanup and
    [handleReset] share; [null] and the handle 0 are falsy. *)
Definition clearTimer (e : Env) : Env :=
  match timerRef e with
  | Some (S _ as h) => setTimerRef None (clearInterval h e)
  | _ => e
  end.

(** The one key the component uses. *)
Definition SESSION_KEY : string := "studyByEnergySession".

(** A browser tab that has run nothing yet, over the storage [ls] left by
    earlier visits. Interval handles start at 1. *)
Definition freshEnv (ls : gmap string string) : Env :=
  mkEnv ls None [] 1%nat [] [].

(** ** Handlers of [App] *)

Notation "s |> f" := (f s) (at level 61, left associativity, only parsing).

Definition handleEnergySelect (level : EnergyLevel) (s : AppState) : AppState :=
  s |> setEnergyLevel (energy_value level)
    |> setCurrentActivity JNull.

Definition handleActivitySelect (act : Activity) (s : AppState) : AppState :=
  let s := s |> setCurrentActivity (activity_value act)
             |> setShowTimer false
             |> setSessionComplete false
             |> setShowFeedback false in
  match act with
  | Some reflect => setShowReflection true s
  | _ => s
  end.

Definition handleReset (w : World) : World :=
  let s := app w |> setEnergyLevel JNull
                 |> setCurrentActivity JNull
                 |> setShowReflection false
                 |> setShowTimer false
                 |> setIsTimerRunning false
                 |> setTimeRemaining 0
                 |> setSessionComplete false
                 |> setShowFeedback false in
  let e := clearTimer (env w) in
  let e := setLocalStorage (delete SESSION_KEY (localStorage e)) e in
  mkWorld s e.

Definition handleStartTimer (s : AppState) : AppState :=
  s |> setShowTimer true
    |> setTimeRemaining (timerDuration s * 60)
    |> setSessionComplete false.

Definition handlePlayPause (s : AppState) : AppState :=
  setIsTimerRunning (negb (isTimerRunning s)) s.

Definition handleResetTimer (s : AppState) : AppState :=
  s |> setIsTimerRunning false
    |> setTimeRemaining (timerDuration s * 60)
    |> setSessionComplete false.

(** The record [handleCompleteFeedback] builds for [syncSession]. *)
Definition sessionRecord (s : AppState) (fb : option string) : SessionRecord :=
  {| record_id := None; user_id := None;
     energy_level := energyLevel s;
     activity := currentActivity s;
     duration_minutes := Some (timerDuration s);
     feedback := fb;
     created_at := None |}.

(** [syncSession(sessionRecord)] is called and its promise is left alone
    (only a [catch] is attached): the handler goes on at once. *)
Definition handleCompleteFeedback (fb : option string) (w : World) : World :=
  let s := app w in
  let e := if isAuthenticated s && truthy (energyLevel s)
              && truthy (currentActivity s)
           then startSync (sessionRecord s fb) (env w)
           else env w in
  handleReset (mkWorld (setShowFeedback false s) e).

(** The callback given to [setInterval]: the updater passed to
    [setTimeRemaining], with the two setters it calls. *)
Definition tick (s : AppState) : AppState :=
  if timeRemaining s <=? 1
  then s |> setIsTimerRunning false
         |> setSessionComplete true
         |> setTimeRemaining 0
  else setTimeRemaining (timeRemaining s - 1) s.

(** The [catch] attached to the promise of [syncSession]: a rejection is
    logged; a promise that resolves, or never settles, runs nothing. *)
Inductive Completion (A : Type) :=
| Returns (a : A)
| Throws (err : string)
| NeverSettles.
Arguments Returns {A} a.
Arguments Throws {A} err.
Arguments NeverSettles {A}.

Definition settleSync (c : Completion bool) (w : World) : World :=
  match c with
  | Throws err => mkWorld (app w) (log (ConsoleWarn ("Background sync failed: " ++ err)) (env w))
  | _ => w
  end.

(** ** Effects of [App] *)

(** The object the save effect serialises. *)
Definition sessionData (e a : JsValue) (timestamp : string) : JsValue :=
  JObj [("energyLevel", e); ("currentActivity", a); ("timestamp", JStr timestamp)].

(** The load effect ([useEffect(..., [])]). The setters it calls are queued,
    so what it returns is the state of the next render; a throw inside
    [try] -- from [JSON.parse] or from reading a property of the parsed
    value -- is logged, and the setters called before it stay queued. *)
Definition loadEffect `{J : JSON} (s : AppState) (e : Env) : AppState * Env :=
  match localStorage e !! SESSION_KEY with
  | Some savedSession =>
      if negb (String.eqb savedSession "") then
        match JSON_parse savedSession with
        | Some session =>
            match getProp session "energyLevel" with
            | Some level =>
                let s := setEnergyLevel level s in
                match getProp session "currentActivity" with
                | Some act => (setCurrentActivity act s, e)
                | None => (s, log (ConsoleError "Failed to load session") e)
                end
            | None => (s, log (ConsoleError "Failed to load session") e)
            end
        | None => (s, log (ConsoleError "Failed to load session") e)
        end
      else (s, e)
  | None => (s, e)
  end.

(** The save effect ([useEffect(..., [energyLevel, currentActivity])]);
    [now] is [new Date().toISOString()]. *)
Definition saveEffect `{J : JSON} (now : string) (s : AppState) (e : Env) : Env :=
  if truthy (energyLevel s) || truthy (currentActivity s)
  then setLocalStorage
         (<[SESSION_KEY := JSON_stringify
                             (sessionData (energyLevel s) (currentActivity s) now)]>
            (localStorage e)) e
  else e.

(** The timer effect ([useEffect(..., [isTimerRunning])]) and its cleanup. *)
Definition timerEffect (s : AppState) (e : Env) : Env :=
  if isTimerRunning s && (timeRemaining s >? 0)
  then let '(h, e) := setInterval e in setTimerRef (Some h) e
  else if negb (isTimerRunning s) then clearTimer e
  else e.

Definition timerCleanup (e : Env) : Env := clearTimer e.

(** After a handler, React renders the new state and runs the effects
    whose dependencies differ from the previous render: cleanups first,
    then the effects in the order they are declared. *)
Definition saveDepsSame (prev next : AppState) : bool :=
  same_value (energyLevel prev) (energyLevel next)
  && same_value (currentActivity prev) (currentActivity next).

Definition timerDepsSame (prev next : AppState) : bool :=
  Bool.eqb (isTimerRunning prev) (isTimerRunning next).

Definition commit `{J : JSON} (now : string) (prev next : AppState) (e : Env) : Env :=
  let e := if timerDepsSame prev next then e else timerCleanup e in
  let e := if saveDepsSame prev next then e else saveEffect now next e in
  if timerDepsSame prev next then e else timerEffect next e.

(** The two halves of [commit], each with the other effect set aside: what
    it does to the interval table, and what it does to the storage. *)
Definition commitTimer (prev next : AppState) (e : Env) : Env :=
  if timerDepsSame prev next then e else timerEffect next (timerCleanup e).

Definition commitSave `{J : JSON} (now : string) (prev next : AppState) (e : Env) : Env :=
  if saveDepsSame prev next then e else saveEffect now next e.

Definition render `{J : JSON} (now : string) (prev : World) (next : World) : World :=
  mkWorld (app next) (commit now (app prev) (app next) (env next)).

(** ** What is on screen *)

(** The conditional chain of the JSX, named after the states of the
    session cycle. *)
Inductive Phase :=
| Idle              (* energy buttons *)
| EnergyChosen      (* activity buttons *)
| TimerComplete     (* "Session complete!" *)
| FeedbackPrompt    (* "How did it feel?" *)
| ActivityChosen    (* the chosen activity, with the timer set-up *)
| TimerRunning.     (* the countdown with play/pause and reset *)

#[global] Instance Phase_eq_dec : EqDecision Phase.
Proof. solve_decision. Defined.

Definition phase (s : AppState) : Phase :=
  if negb (truthy (energyLevel s)) then Idle
  else if negb (truthy (currentActivity s)) then EnergyChosen
  else if sessionComplete s && negb (showFeedback s) then TimerComplete
  else if showFeedback s then FeedbackPrompt
  else if negb (showTimer s) then ActivityChosen
  else TimerRunning.

(** What React takes as a child: text for a string or a number, nothing
    for [null], [undefined] and the booleans, the items of an array one
    after the other; an object that is no element makes the render throw. *)
Fixpoint renderable (v : JsValue) : bool :=
  match v with
  | JObj _ => false
  | JArr items =>
      (fix all (xs : list JsValue) : bool :=
         match xs with
         | [] => true
         | x :: xs' => renderable x && all xs'
         end) items
  | _ => true
  end.

(** Whether the render of a state returns. One state value is put on
    screen as a child, [Energy level: {energyLevel}] above the activity
    buttons; everything else the JSX does with the two session fields is
    a test for truthiness or a comparison with [===], and
    [recommendation?.message] reads no property of [null]. *)
Definition renders (s : AppState) : bool :=
  match phase s with
  | EnergyChosen => renderable (energyLevel s)
  | _ => true
  end.

(** ** Mounting *)

(** The first render over the storage [ls], with the initial state, and
    its effects; then the render of the state the load effect queued,
    when that render returns. *)
Definition mounted `{J : JSON} (now : string) (ls : gmap string string) : World :=
  let '(loaded, e) := loadEffect initialState (freshEnv ls) in
  let e := saveEffect now initialState e in
  let e := timerEffect initialState e in
  render now (mkWorld initialState e) (mkWorld loaded e).

(** How mounting ends: the component is on screen, or a render threw and
    React removed it (there is no error boundary), running the cleanup of
    the timer effect. No effect of the render that threw has run. The
    console holds what the program itself writes, not React's report of
    the error. *)
Inductive Mount :=
| Shown (w : World)
| Unmounted (e : Env).

Definition mount `{J : JSON} (now : string) (ls : gmap string string) : Mount :=
  let '(loaded, e) := loadEffect initialState (freshEnv ls) in
  if renders loaded then Shown (mounted now ls)
  else Unmounted (timerCleanup
                    (timerEffect initialState (saveEffect now initialState e))).

(** What is left outside the component either way. *)
Definition mountEnv (m : Mount) : Env :=
  match m with
  | Shown w => env w
  | Unmounted e => e
  end.

(** ** What can be pressed *)

(** [{currentActivity !== 'reflect' && ...}]: the timer set-up box. *)
Definition timerSetupShown (s : AppState) : bool :=
  bool_decide (phase s = ActivityChosen)
  && differs_from_string (currentActivity s) "reflect".

Inductive FeedbackChoice := good | okay | could_be_better.

Definition feedback_string (f : FeedbackChoice) : string :=
  match f with
  | good => "good"
  | okay => "okay"
  | could_be_better => "could_be_better"
  end.

(** What can happen to a mounted component: a click on a rendered button,
    a callback of an active interval, or [CloudSync] reporting a change
    of the signed-in user. *)
Inductive Event :=
| SelectEnergy (e : Energy)
| SelectActivity (a : ActivityKind)
| NewCheckIn
| SetDuration (minutes : Z)
| SetPomodoro (on : bool)
| StartTimer
| PlayPause
| ResetTimer
| Tick
| RequestFeedback
| SubmitFeedback (f : option FeedbackChoice)
| AuthChange (signedIn : bool).

(** The three presets, or the slider ([min=5 max=90 step=5]). *)
Definition durationOffered (d : Z) : bool :=
  (d =? 10) || (d =? 25) || (d =? 45)
  || ((5 <=? d) && (d <=? 90) && (d mod 5 =? 0)).

Definition enabled (w : World) (ev : Event) : bool :=
  let s := app w in
  match ev with
  | SelectEnergy _ => bool_decide (phase s = Idle)
  | SelectActivity _ => bool_decide (phase s = EnergyChosen)
  | NewCheckIn =>
      bool_decide (phase s = EnergyChosen) || bool_decide (phase s = TimerComplete)
      || bool_decide (phase s = ActivityChosen) || bool_decide (phase s = TimerRunning)
  | SetDuration d => timerSetupShown s && durationOffered d
  | SetPomodoro _ => timerSetupShown s
  | StartTimer => timerSetupShown s
  | PlayPause => bool_decide (phase s = TimerRunning)
  | ResetTimer => bool_decide (phase s = TimerRunning)
  | Tick => match intervals (env w) with [] => false | _ => true end
  | RequestFeedback => bool_decide (phase s = TimerComplete)
  | SubmitFeedback _ => bool_decide (phase s = FeedbackPrompt)
  | AuthChange _ => true
  end.

(** The handler of an event, before the render that follows it. *)
Definition handle (ev : Event) (w : World) : World :=
  let s := app w in
  match ev with
  | SelectEnergy e => mkWorld (handleEnergySelect (Some e) s) (env w)
  | SelectActivity a => mkWorld (handleActivitySelect (Some a) s) (env w)
  | NewCheckIn => handleReset w
  | SetDuration d => mkWorld (setTimerDuration d s) (env w)
  | SetPomodoro b => mkWorld (setPomodoroEnabled b s) (env w)
  | StartTimer => mkWorld (handleStartTimer s) (env w)
  | PlayPause => mkWorld (handlePlayPause s) (env w)
  | ResetTimer => mkWorld (handleResetTimer s) (env w)
  | Tick => mkWorld (tick s) (env w)
  | RequestFeedback => mkWorld (setShowFeedback true s) (env w)
  | SubmitFeedback f => handleCompleteFeedback (feedback_string <$> f) w
  | AuthChange b => mkWorld (setIsAuthenticated b s) (env w)
  end.

(** An event and the render that follows it. That render returns
    whenever the one before did (lemma [renders_fire]): the one value
    shown as a child is then a string a handler has set, or the value
    that was on screen already. *)
Definition fire `{J : JSON} (now : string) (ev : Event) (w : World) : World :=
  render now w (handle ev w).

(** The worlds a user can bring about. *)
Inductive reachable `{J : JSON} : World -> Prop :=
| reach_mount now ls w : mount now ls = Shown w -> reachable w
| reach_fire now ev w :
    reachable w -> enabled w ev = true -> reachable (fire now ev w).

(** A run: events with the clock reading at each. *)
Fixpoint run `{J : JSON} (evs : list (string * Event)) (w : World) : World :=
  match evs with
  | [] => w
  | (now, ev) :: evs' => run evs' (fire now ev w)
  end.

(** ** [src/lib/supabase.ts]: the client and [syncSession] *)

Module Supabase.

(** [import.meta.env.VITE_SUPABASE_URL || ''] and the anon key. *)
Record Config := mkConfig { supabaseUrl : string; supabaseAnonKey : string }.

(** [Boolean(supabaseUrl && supabaseAnonKey)] *)
Definition isSupabaseConfigured (c : Config) : bool :=
  negb (String.eqb (supabaseUrl c) "") && negb (String.eqb (supabaseAnonKey c) "").

Record User := mkUser { uid : string; email : string }.

(** How an awaited call of the client ends. *)
Inductive Settled (A : Type) :=
| Resolved (a : A)
| Rejected (err : string)
| Pending.
Arguments Resolved {A} a.
Arguments Rejected {A} err.
Arguments Pending {A}.

(** The two calls [syncSession] makes on the client, as the service
    answers them: [auth.getUser()] resolves to [data.user] (or [null]),
    [from('sessions').insert(row)] to [error.message] (or no error). *)
Record Client := mkClient {
  auth_getUser : Settled (option User);
  sessions_insert : SessionRecord -> Settled (option string)
}.

(** [export const supabase = isSupabaseConfigured ? createClient(...) : null] *)
Definition supabase (c : Config) (createClient : Client) : option Client :=
  if isSupabaseConfigured c then Some createClient else None.

(** What a run of [syncSession] asked of the client. *)
Inductive ClientCall :=
| GetUser
| Insert (table : string) (row : SessionRecord).

Record Run := mkRun {
  completion : Completion bool;
  calls : list ClientCall;
  warnings : list string
}.

(** [{ ...session, user_id: user.id, created_at: new Date().toISOString() }] *)
Definition insertRow (session : SessionRecord) (user : User) (now : string)
  : SessionRecord :=
  {| record_id := record_id session;
     user_id := Some (uid user);
     energy_level := energy_level session;
     activity := activity session;
     duration_minutes := duration_minutes session;
     feedback := feedback session;
     created_at := Some now |}.

(** [syncSession]; [now] is the client's clock when the row is built. *)
Definition syncSession (client : option Client) (now : string)
    (session : SessionRecord) : Run :=
  match client with
  | None => mkRun (Returns false) [] []
  | Some sb =>
      match auth_getUser sb with
      | Resolved None => mkRun (Returns false) [GetUser] []
      | Resolved (Some user) =>
          let row := insertRow session user now in
          let asked := [GetUser; Insert "sessions" row] in
          match sessions_insert sb row with
          | Resolved (Some message) =>
              mkRun (Returns false) asked
                ["Cloud sync failed, continuing locally: " ++ message]
          | Resolved None => mkRun (Returns true) asked []
          | Rejected err =>
              mkRun (Returns false) asked
                ["Cloud sync error, continuing locally: " ++ err]
          | Pending => mkRun NeverSettles asked []
          end
      | Rejected err =>
          mkRun (Returns false) [GetUser]
            ["Cloud sync error, continuing locally: " ++ err]
      | Pending => mkRun NeverSettles [GetUser] []
      end
  end.

(** The rows a run tried to insert. *)
Definition insertedRows (r : Run) : list SessionRecord :=
  omap (fun c => match c with Insert _ row => Some row | GetUser => None end)
    (calls r).


End Supabase.

(** ** A reference JSON codec

    An instance of [JSON] to run the model on concrete payloads. It
    follows the JSON grammar: a number literal is read as the nearest
    double and a number is written as [Number::toString] writes it, with
    the fewest digits that read back. A character of a string is one
    byte: a [\u] escape is read when it denotes a single byte. *)

Module RefJSON.

Definition dquote : ascii := ascii_of_nat 34.
Definition backslash : ascii := ascii_of_nat 92.

Definition code (c : ascii) : Z := Z.of_nat (nat_of_ascii c).

Definition hexDigit (n : Z) : ascii :=
  ascii_of_nat (Z.to_nat (if n <? 10 then 48 + n else 87 + n)).

(** [JSON.stringify] of a string, without the quotes around it. *)
Fixpoint escape (s : string) : string :=
  match s with
  | EmptyString => EmptyString
  | String c r =>
      let n := code c in
      if Ascii.eqb c dquote then String backslash (String dquote (escape r))
      else if Ascii.eqb c backslash then String backslash (String backslash (escape r))
      else if n =? 8 then String backslash (String "b" (escape r))
      else if n =? 9 then String backslash (String "t" (escape r))
      else if n =? 10 then String backslash (String "n" (escape r))
      else if n =? 12 then String backslash (String "f" (escape r))
      else if n =? 13 then String backslash (String "r" (escape r))
      else if n <? 32 then
        String backslash
          (String "u" (String "0" (String "0"
             (String (hexDigit (n / 16)) (String (hexDigit (n mod 16)) (escape r))))))
      else String c (escape r)
  end.

Definition quote (s : string) : string :=
  String dquote (escape s ++ String dquote EmptyString)%string.

(** *** Numbers *)

(** Where [q + r/d] lies between [q] and [q + 1]. *)
Definition remainderLocation (r d : Z) : SpecFloat.location :=
  if r =? 0 then SpecFloat.loc_Exact else SpecFloat.loc_Inexact (2 * r ?= d).

(** The double nearest to [m * 10^e], ties to even. A negative exponent
    is a division: the quotient is taken with more bits than a double
    holds, and the remainder tells the rounding where the value lies. *)
Definition nearest (m : positive) (e : Z) : SpecFloat.spec_float :=
  if 0 <=? e
  then SpecFloat.binary_normalize FloatOps.prec FloatOps.emax (Zpos m * 10 ^ e) 0 false
  else
    let d := 10 ^ (- e) in
    let s := Z.max 0 (Z.log2 d + 66 - Z.log2 (Zpos m)) in
    let n := Z.shiftl (Zpos m) s in
    SpecFloat.binary_round_aux FloatOps.prec FloatOps.emax false (n / d) (- s)
      (remainderLocation (n mod d) d).

(** The same with the sign; exponents at which every mantissa overflows,
    or vanishes, are cut short. *)
Definition decimal (negative : bool) (m e : Z) : SpecFloat.spec_float :=
  match m with
  | Zpos p =>
      let x := if 400 <? e then SpecFloat.S754_infinity false
               else if e + Z.log2 m / 3 + 1 <? -400 then SpecFloat.S754_zero false
               else nearest p e in
      if negative then SpecFloat.SFopp x else x
  | _ => SpecFloat.S754_zero negative
  end.

(** [num / den >= 10^t] *)
Definition reaches (num den t : Z) : bool :=
  if 0 <=? t then den * 10 ^ t <=? num else den <=? num * 10 ^ (- t).

Fixpoint dropZeros (fuel : nat) (s e : Z) : Z * Z :=
  match fuel with
  | O => (s, e)
  | S fuel =>
      if (s mod 10 =? 0) && negb (s =? 0) then dropZeros fuel (s / 10) (e + 1)
      else (s, e)
  end.

(** The decimal [s * 10^e] with the fewest digits that reads back as [x],
    the closest to [x] if there are two, for a finite [x > 0] of value
    [num / den]; [n] is the number of digits of its integer part and [k]
    the number of digits tried. Seventeen digits always read back. *)
Fixpoint shortest (fuel : nat) (x : SpecFloat.spec_float) (num den n k : Z) : Z * Z :=
  let e := n - k in
  let N := if 0 <=? e then num else num * 10 ^ (- e) in
  let D := if 0 <=? e then den * 10 ^ e else den in
  let lo := N / D in
  let r := N mod D in
  let reads s := match s with
                 | Zpos p => SpecFloat.SFeqb (nearest p e) x
                 | _ => false
                 end in
  match fuel with
  | O => (lo, e)
  | S fuel =>
      if r =? 0 then (lo, e)
      else
        match reads lo, reads (lo + 1) with
        | true, true =>
            match 2 * r ?= D with
            | Lt => (lo, e)
            | Gt => (lo + 1, e)
            | Eq => if Z.even lo then (lo, e) else (lo + 1, e)
            end
        | true, false => (lo, e)
        | false, true => (lo + 1, e)
        | false, false => shortest fuel x num den n (k + 1)
        end
  end.

Definition digitsOf (x : SpecFloat.spec_float) : Z * Z :=
  match x with
  | SpecFloat.S754_finite _ m e =>
      let num := if 0 <=? e then Zpos m * 2 ^ e else Zpos m in
      let den := if 0 <=? e then 1 else 2 ^ (- e) in
      let t := (Z.log2 (Zpos m) + e) * 30103 / 100000 in
      let n := if reaches num den (t + 1) then t + 2
               else if reaches num den t then t + 1 else t in
      let '(s, e') := shortest 17 x num den n 1 in
      dropZeros 400 s e'
  | _ => (0, 0)
  end.

Definition zeros (n : Z) : string :=
  string_of_list_ascii (List.repeat "0"%char (Z.to_nat n)).

(** The text of [s * 10^e]: plain digits up to 21 of them before the
    point and up to six zeros after it, an exponent otherwise. *)
Definition layout (s e : Z) : string :=
  let ds := pretty s in
  let k := Z.of_nat (String.length ds) in
  let n := e + k in
  if (k <=? n) && (n <=? 21) then (ds ++ zeros (n - k))%string
  else if (0 <? n) && (n <=? 21) then
    (substring 0 (Z.to_nat n) ds ++ "."
     ++ substring (Z.to_nat n) (Z.to_nat (k - n)) ds)%string
  else if (-6 <? n) && (n <=? 0) then ("0." ++ zeros (- n) ++ ds)%string
  else
    let x := n - 1 in
    let sign := if 0 <=? x then "+" else "-" in
    let head := substring 0 1 ds in
    let tail := substring 1 (Z.to_nat (k - 1)) ds in
    ((if Z.eqb k 1 then head else head ++ "." ++ tail)
     ++ "e" ++ sign ++ pretty (Z.abs x))%string.

(** [String(x)] *)
Definition numberToString (x : Number) : string :=
  match FloatOps.Prim2SF x with
  | SpecFloat.S754_nan => "NaN"
  | SpecFloat.S754_infinity false => "Infinity"
  | SpecFloat.S754_infinity true => "-Infinity"
  | SpecFloat.S754_zero _ => "0"
  | SpecFloat.S754_finite sign m e =>
      let '(s, e') := digitsOf (SpecFloat.S754_finite false m e) in
      ((if sign then "-" else "") ++ layout s e')%string
  end.

(** *** Writing *)

Fixpoint join (sep : string) (parts : list string) : string :=
  match parts with
  | [] => EmptyString
  | [p] => p
  | p :: ps => (p ++ sep ++ join sep ps)%string
  end.

Definition isUndefined (v : JsValue) : bool :=
  match v with JUndefined => true | _ => false end.

(** [JSON.stringify]: a member whose value is [undefined] is left out,
    an [undefined] array item is written [null], and so is a number that
    is not finite. *)
Fixpoint stringify (v : JsValue) : string :=
  match v with
  | JUndefined | JNull => "null"
  | JBool true => "true"
  | JBool false => "false"
  | JNum x => if PrimFloat.is_finite x then numberToString x else "null"
  | JStr s => quote s
  | JArr items => ("[" ++ join "," (List.map stringify items) ++ "]")%string
  | JObj members =>
      ("{" ++ join ","
         ((fix written (ms : list (string * JsValue)) : list string :=
             match ms with
             | [] => []
             | (k, x) :: ms' =>
                 if isUndefined x then written ms'
                 else (quote k ++ ":" ++ stringify x)%string :: written ms'
             end) members)
       ++ "}")%string
  end.

Definition isSpace (c : ascii) : bool :=
  let n := code c in (n =? 32) || (n =? 9) || (n =? 10) || (n =? 13).

Fixpoint skipSpace (s : string) : string :=
  match s with
  | String c r => if isSpace c then skipSpace r else s
  | EmptyString => s
  end.

Definition digit (c : ascii) : option Z :=
  let n := code c in
  if (48 <=? n) && (n <=? 57) then Some (n - 48) else None.

Definition hexValue (c : ascii) : option Z :=
  let n := code c in
  if (48 <=? n) && (n <=? 57) then Some (n - 48)
  else if (97 <=? n) && (n <=? 102) then Some (n - 87)
  else if (65 <=? n) && (n <=? 70) then Some (n - 55)
  else None.

Fixpoint readDigits (acc : Z) (s : string) : Z * string :=
  match s with
  | String c r =>
      match digit c with
      | Some d => readDigits (acc * 10 + d) r
      | None => (acc, s)
      end
  | EmptyString => (acc, s)
  end.

(** The digits of a fraction or of an exponent: their value after [acc],
    and how many there were. *)
Fixpoint readMoreDigits (acc count : Z) (s : string) : Z * Z * string :=
  match s with
  | String c r =>
      match digit c with
      | Some d => readMoreDigits (acc * 10 + d) (count + 1) r
      | None => (acc, count, s)
      end
  | EmptyString => (acc, count, s)
  end.

(** The integer part: a single 0, or digits that do not start with 0. *)
Definition readNatural (s : string) : option (Z * string) :=
  match s with
  | String c r =>
      match digit c with
      | Some 0 =>
          match r with
          | String c' _ =>
              match digit c' with
              | Some _ => None
              | None => Some (0, r)
              end
          | EmptyString => Some (0, r)
          end
      | Some _ => Some (readDigits 0 s)
      | None => None
      end
  | EmptyString => None
  end.

(** [. digits], if any: the mantissa with the fraction's digits and their
    number. *)
Definition readFraction (int : Z) (s : string) : option (Z * Z * string) :=
  match s with
  | String c r =>
      if Ascii.eqb c "." then
        let '(m, count, r') := readMoreDigits int 0 r in
        if count =? 0 then None else Some (m, count, r')
      else Some (int, 0, s)
  | EmptyString => Some (int, 0, s)
  end.

(** [e] or [E], a sign and digits, if any. *)
Definition readExponent (s : string) : option (Z * string) :=
  match s with
  | String c r =>
      if Ascii.eqb c "e" || Ascii.eqb c "E" then
        let '(negative, r1) :=
          match r with
          | String c' r' =>
              if Ascii.eqb c' "-" then (true, r')
              else if Ascii.eqb c' "+" then (false, r')
              else (false, r)
          | EmptyString => (false, r)
          end in
        let '(x, count, r2) := readMoreDigits 0 0 r1 in
        if count =? 0 then None else Some (if negative then - x else x, r2)
      else Some (0, s)
  | EmptyString => Some (0, s)
  end.

(** A number literal and the double it denotes. *)
Definition readNumber (s : string) : option (Number * string) :=
  let '(negative, s1) :=
    match s with
    | String c r => if Ascii.eqb c "-" then (true, r) else (false, s)
    | EmptyString => (false, s)
    end in
  match readNatural s1 with
  | Some (int, s2) =>
      match readFraction int s2 with
      | Some (m, places, s3) =>
          match readExponent s3 with
          | Some (x, s4) =>
              Some (FloatOps.SF2Prim (decimal negative m (x - places)), s4)
          | None => None
          end
      | None => None
      end
  | None => None
  end.

Definition simpleEscape (c : ascii) : option ascii :=
  if Ascii.eqb c dquote then Some dquote
  else if Ascii.eqb c backslash then Some backslash
  else if Ascii.eqb c "/" then Some "/"%char
  else if Ascii.eqb c "n" then Some (ascii_of_nat 10)
  else if Ascii.eqb c "r" then Some (ascii_of_nat 13)
  else if Ascii.eqb c "t" then Some (ascii_of_nat 9)
  else if Ascii.eqb c "b" then Some (ascii_of_nat 8)
  else if Ascii.eqb c "f" then Some (ascii_of_nat 12)
  else None.

Definition prepend (c : ascii) (r : option (string * string)) : option (string * string) :=
  match r with
  | Some (s, tail) => Some (String c s, tail)
  | None => None
  end.

(** The text after an opening quote, up to the closing one. *)
Fixpoint readString (s : string) : option (string * string) :=
  match s with
  | EmptyString => None
  | String c r =>
      if Ascii.eqb c dquote then Some (EmptyString, r)
      else if Ascii.eqb c backslash then
        match r with
        | String e r' =>
            match simpleEscape e with
            | Some c' => prepend c' (readString r')
            | None =>
                if Ascii.eqb e "u" then
                  match r' with
                  | String h3 (String h2 (String h1 (String h0 r''))) =>
                      match hexValue h3, hexValue h2, hexValue h1, hexValue h0 with
                      | Some 0, Some 0, Some a, Some b =>
                          prepend (ascii_of_nat (Z.to_nat (a * 16 + b))) (readString r'')
                      | _, _, _, _ => None
                      end
                  | _ => None
                  end
                else None
            end
        | EmptyString => None
        end
      else if code c <? 32 then None
      else prepend c (readString r)
  end.

Fixpoint expect (lit : string) (s : string) : option string :=
  match lit, s with
  | EmptyString, _ => Some s
  | String a lit', String b s' => if Ascii.eqb a b then expect lit' s' else None
  | String _ _, EmptyString => None
  end.

(** The array index a key denotes, if any: digits with no leading zero,
    below 2^32 - 1. *)
Definition indexKey (k : string) : option Z :=
  match k with
  | EmptyString => None
  | String c r =>
      match digit c with
      | Some 0 => match r with EmptyString => Some 0 | String _ _ => None end
      | Some _ =>
          let '(n, tail) := readDigits 0 k in
          match tail with
          | EmptyString => if n <? 4294967295 then Some n else None
          | String _ _ => None
          end
      | None => None
      end
  end.

Fixpoint hasMember (k : string) (ms : list (string * JsValue)) : bool :=
  match ms with
  | [] => false
  | (k', _) :: ms' => String.eqb k k' || hasMember k ms'
  end.

(** A repeated key keeps its place and takes the last value. *)
Fixpoint setMember (k : string) (v : JsValue) (ms : list (string * JsValue))
  : list (string * JsValue) :=
  match ms with
  | [] => [(k, v)]
  | (k', v') :: ms' =>
      if String.eqb k k' then (k', v) :: ms' else (k', v') :: setMember k v ms'
  end.

(** A new index key goes among the index keys, which come first, in
    ascending order. *)
Fixpoint placeIndex (i : Z) (k : string) (v : JsValue) (ms : list (string * JsValue))
  : list (string * JsValue) :=
  match ms with
  | [] => [(k, v)]
  | (k', v') :: ms' =>
      match indexKey k' with
      | Some j => if i <? j then (k, v) :: ms else (k', v') :: placeIndex i k v ms'
      | None => (k, v) :: ms
      end
  end.

(** The own properties of an object in the order the engine keeps them:
    index keys in ascending order, then the other keys in the order they
    were first written. *)
Definition addMember (k : string) (v : JsValue) (ms : list (string * JsValue))
  : list (string * JsValue) :=
  if hasMember k ms then setMember k v ms
  else match indexKey k with
       | Some i => placeIndex i k v ms
       | None => (ms ++ [(k, v)])%list
       end.

Definition object (raw : list (string * JsValue)) : JsValue :=
  JObj (fold_left (fun acc m => addMember (fst m) (snd m) acc) raw []).

Fixpoint parseValue (fuel : nat) (s : string) : option (JsValue * string) :=
  match fuel with
  | O => None
  | S fuel =>
      match skipSpace s with
      | EmptyString => None
      | String c r =>
          if Ascii.eqb c "n" then (fun r' => (JNull, r')) <$> expect "ull" r
          else if Ascii.eqb c "t" then (fun r' => (JBool true, r')) <$> expect "rue" r
          else if Ascii.eqb c "f" then (fun r' => (JBool false, r')) <$> expect "alse" r
          else if Ascii.eqb c dquote then
            (fun p => (JStr (fst p), snd p)) <$> readString r
          else if Ascii.eqb c "[" then
            match skipSpace r with
            | String c' r' =>
                if Ascii.eqb c' "]" then Some (JArr [], r')
                else (fun p => (JArr (fst p), snd p)) <$> parseItems fuel r
            | EmptyString => None
            end
          else if Ascii.eqb c "{" then
            match skipSpace r with
            | String c' r' =>
                if Ascii.eqb c' "}" then Some (JObj [], r')
                else (fun p => (object (fst p), snd p)) <$> parseMembers fuel r
            | EmptyString => None
            end
          else (fun p => (JNum (fst p), snd p)) <$> readNumber (String c r)
      end
  end
with parseItems (fuel : nat) (s : string) : option (list JsValue * string) :=
  match fuel with
  | O => None
  | S fuel =>
      match parseValue fuel s with
      | Some (v, r) =>
          match skipSpace r with
          | String c r' =>
              if Ascii.eqb c "," then
                (fun p => (v :: fst p, snd p)) <$> parseItems fuel r'
              else if Ascii.eqb c "]" then Some ([v], r')
              else None
          | EmptyString => None
          end
      | None => None
      end
  end
with parseMembers (fuel : nat) (s : string)
  : option (list (string * JsValue) * string) :=
  match fuel with
  | O => None
  | S fuel =>
      match skipSpace s with
      | String c r =>
          if Ascii.eqb c dquote then
            match readString r with
            | Some (k, r1) =>
                match skipSpace r1 with
                | String c1 r2 =>
                    if Ascii.eqb c1 ":" then
                      match parseValue fuel r2 with
                      | Some (v, r3) =>
                          match skipSpace r3 with
                          | String c3 r4 =>
                              if Ascii.eqb c3 "," then
                                (fun p => ((k, v) :: fst p, snd p)) <$> parseMembers fuel r4
                              else if Ascii.eqb c3 "}" then Some ([(k, v)], r4)
                              else None
                          | EmptyString => None
                          end
                      | None => None
                      end
                    else None
                | EmptyString => None
                end
            | None => None
            end
          else None
      | EmptyString => None
      end
  end.

(** [JSON.parse]: one value, with nothing but blanks after it. *)
Definition parse (s : string) : option JsValue :=
  match parseValue (2 * String.length s + 2) s with
  | Some (v, r) =>
      match skipSpace r with
      | EmptyString => Some v
      | String _ _ => None
      end
  | None => None
  end.

Definition codec : JSON :=
  {| JSON_parse := parse; JSON_stringify := stringify |}.

End RefJSON.

(** ** The invariant of the timer

    What holds of every reachable world. [TimerOk]: the countdown stays
    inside its bounds and a timer that is not on screen is at rest.
    [IntervalOk]: the component has an interval, the one [timerRef] names,
    exactly while the timer runs. *)
Record TimerOk (s : AppState) : Prop := mkTimerOk {
  ok_duration : 5 <= timerDuration s <= 90;
  ok_remaining : 0 <= timeRemaining s <= timerDuration s * 60;
  ok_running : isTimerRunning s = true -> 0 < timeRemaining s;
  ok_hidden :
    showTimer s = false ->
    isTimerRunning s = false /\ timeRemaining s = 0
    /\ sessionComplete s = false /\ showFeedback s = false;
  ok_complete :
    sessionComplete s = true -> timeRemaining s = 0 /\ isTimerRunning s = false;
  ok_feedback : showFeedback s = true -> sessionComplete s = true;
  ok_armed : showTimer s = true -> sessionComplete s = false -> 0 < timeRemaining s;
  ok_early :
    truthy (energyLevel s) && truthy (currentActivity s) = false ->
    showTimer s = false
}.

Record IntervalOk (s : AppState) (e : Env) : Prop := mkIntervalOk {
  ok_interval :
    isTimerRunning s = true ->
    exists h, timerRef e = Some (S h) /\ intervals e = [S h];
  ok_no_interval :
    isTimerRunning s = false -> timerRef e = None /\ intervals e = [];
  ok_handle : (1 <= nextHandle e)%nat
}.

Definition Inv (w : World) : Prop :=
  TimerOk (app w) /\ IntervalOk (app w) (env w).

(** ** Sample runs *)

(** A first visit (nothing stored), then: high energy, study, the default
    25 minutes, start, play. *)
Definition firstVisit : World := mounted (J := RefJSON.codec) "08:59" ∅.

Definition atStudy : World :=
  run (J := RefJSON.codec)
    [("09:00", SelectEnergy high); ("09:01", SelectActivity study)] firstVisit.

Definition timerShown : World := fire (J := RefJSON.codec) "09:02" StartTimer atStudy.

Definition counting : World := fire (J := RefJSON.codec) "09:03" PlayPause timerShown.

(** A signed-in user who sets 45 minutes with Pomodoro, then lets a
    5-minute timer run out and asks for the feedback prompt. *)
Definition configured : World :=
  run (J := RefJSON.codec)
    [("09:02", SetDuration 45); ("09:02", SetPomodoro true)] atStudy.

Definition prompting : World :=
  run (J := RefJSON.codec)
    ([("09:02", AuthChange true); ("09:02", SetDuration 5);
      ("09:02", StartTimer); ("09:03", PlayPause)]
     ++ repeat ("09:03", Tick) 300 ++ [("09:08", RequestFeedback)])%list
    atStudy.

(** What an earlier visit, or anything else, may have left in the storage. *)
Definition oddRecord : JsValue :=
  JObj [("energyLevel", JStr "banana"); ("currentActivity", JNum (num 7))].

Definition oddStorage : gmap string string :=
  {[ SESSION_KEY := RefJSON.stringify oddRecord ]}.

Definition nullStorage : gmap string string := {[ SESSION_KEY := "null" ]}.

(** A record with a fraction for the energy level and an object for the
    activity. *)
Definition looseRecord : JsValue :=
  JObj [("energyLevel", JNum (PrimFloat.div (num 3) (num 2)));
        ("currentActivity", JObj [("kind", JStr "nap")])].

Definition looseStorage : gmap string string :=
  {[ SESSION_KEY := RefJSON.stringify looseRecord ]}.

(** A record whose energy level React cannot show, and no activity. *)
Definition brokenRecord : JsValue :=
  JObj [("energyLevel", JObj [("a", JNum (num 1))]); ("currentActivity", JNull)].

Definition brokenStorage : gmap string string :=
  {[ SESSION_KEY := RefJSON.stringify brokenRecord ]}.

(** A configured client, signed out and signed in. *)
Definition someConfig : Supabase.Config :=
  Supabase.mkConfig "https://project.supabase.co" "anon-key".


Definition signedIn : Supabase.Client :=
  Supabase.mkClient
    (Supabase.Resolved (Some (Supabase.mkUser "user-1" "student@example.org")))
    (fun _ => Supabase.Resolved None).

Definition studyRecord : SessionRecord :=
  {| record_id := None; user_id := None;
     energy_level := JStr "high"; activity := JStr "study";
     duration_minutes := Some 25; feedback := Some "good";
     created_at := None |}.

(** ** [App]: what the render computes from the state *)

(** [n.toString()] of a whole number. *)
Definition toString (n : Z) : string := pretty n.

(** [s.padStart(target, c)] with a one-character pad. *)
Definition padStart (target : nat) (c : ascii) (s : string) : string :=
  (string_of_list_ascii (List.repeat c (target - String.length s)) ++ s)%string.

(** [formatTime] of a whole number of seconds, as [timeRemaining] is:
    [Math.floor(seconds / 60)] and [seconds % 60] (the sign of the
    remainder follows the dividend), each padded to two digits. Whole
    numbers are exact in a double below 2^53, and so are these two
    operations on them. *)
Definition formatTime (seconds : Z) : string :=
  let mins := seconds / 60 in
  let secs := Z.rem seconds 60 in
  (padStart 2 "0" (toString mins) ++ ":" ++ padStart 2 "0" (toString secs))%string.

Record Recommendation := mkRecommendation {
  primary : string;
  message : string;
  options : list string
}.

(** [getRecommendation]; [None] is [null]. The [switch] compares with
    [===]. *)
Definition getRecommendation (s : AppState) : option Recommendation :=
  if negb (truthy (energyLevel s)) then None
  else match energyLevel s with
       | JStr level =>
           if String.eqb level "low" then
             Some (mkRecommendation "rest"
                     "Your energy is low. Rest is productive. Consider taking a break."
                     ["Rest"; "Light reading"; "Reflect"])
           else if String.eqb level "medium" then
             Some (mkRecommendation "balanced"
                     "Your energy is moderate. Balance study with breaks."
                     ["Study session"; "Rest"; "Reflect"])
           else if String.eqb level "high" then
             Some (mkRecommendation "study"
                     "Your energy is high. Great time for focused work."
                     ["Deep study"; "Rest (if needed)"; "Reflect"])
           else None
       | _ => None
       end.

(** Reading a clock text back: the digits before and after the colon. *)
Definition digitsValue (s : string) : option Z :=
  match s with
  | EmptyString => None
  | String _ _ =>
      let '(n, r) := RefJSON.readDigits 0 s in
      match r with EmptyString => Some n | String _ _ => None end
  end.

Definition clockSeconds (s : string) : option Z :=
  match s with
  | String m1 (String m0 (String c (String s1 (String s0 EmptyString)))) =>
      if Ascii.eqb c ":" then
        match digitsValue (String m1 (String m0 EmptyString)),
              digitsValue (String s1 (String s0 EmptyString)) with
        | Some m, Some sec => Some (m * 60 + sec)
        | _, _ => None
        end
      else None
  | _ => None
  end.

(** The check of one clock text: five characters that read back. *)
Definition clockChecked (n : nat) : bool :=
  let s := Z.of_nat n in
  Nat.eqb (String.length (formatTime s)) 5
  && match clockSeconds (formatTime s) with
     | Some v => v =? s
     | None => false
     end.

(** ** [src/lib/supabase.ts]: [getUserSessions] *)

Module SupabaseRead.
Import Supabase.

(** The request the chain
    [from('sessions').select('*').eq('user_id', id).order('created_at',
    { ascending: false }).limit(limit)] describes. *)
Record Query := mkQuery {
  table : string;
  columns : string;
  eqColumn : string;
  eqValue : string;
  orderColumn : string;
  ascending : bool;
  limit : Z
}.

(** The answer [{ data, error }] of the awaited query. *)
Record Answer := mkAnswer {
  data : option (list SessionRecord);
  error : option string
}.

(** The calls [getUserSessions] makes on the client, as the service
    answers them. *)
Record Reader := mkReader {
  read_getUser : Settled (option User);
  sessions_select : Query -> Settled Answer
}.

Inductive ReadCall :=
| ReadUser
| Select (q : Query).

Record ReadRun := mkReadRun {
  outcome : Completion (list SessionRecord);
  asked : list ReadCall;
  warned : list string
}.

(** [supabase], for the reading half of the client. *)
Definition reader (c : Config) (createClient : Reader) : option Reader :=
  if isSupabaseConfigured c then Some createClient else None.

Definition userQuery (user : User) (lim : Z) : Query :=
  mkQuery "sessions" "*" "user_id" (uid user) "created_at" false lim.

(** [getUserSessions(limit = 10)]; [None] is the omitted argument. *)
Definition getUserSessions (client : option Reader) (limitArg : option Z) : ReadRun :=
  let lim := default 10 limitArg in
  match client with
  | None => mkReadRun (Returns []) [] []
  | Some sb =>
      match read_getUser sb with
      | Resolved None => mkReadRun (Returns []) [ReadUser] []
      | Resolved (Some user) =>
          let q := userQuery user lim in
          match sessions_select sb q with
          | Resolved answer =>
              match error answer with
              | Some msg =>
                  mkReadRun (Returns []) [ReadUser; Select q]
                    ["Failed to load sessions: " ++ msg]%string
              | None =>
                  mkReadRun (Returns (default [] (data answer))) [ReadUser; Select q] []
              end
          | Rejected err =>
              mkReadRun (Returns []) [ReadUser; Select q]
                ["Error loading sessions: " ++ err]%string
          | Pending => mkReadRun NeverSettles [ReadUser; Select q] []
          end
      | Rejected err =>
          mkReadRun (Returns []) [ReadUser] ["Error loading sessions: " ++ err]%string
      | Pending => mkReadRun NeverSettles [ReadUser] []
      end
  end.

End SupabaseRead.

(** ** [src/components/PastSessions.tsx] *)

Module PastSessions.
Import Supabase SupabaseRead.

Record State := mkState { sessions : list SessionRecord; loading : bool }.

(** [useState([])] and [useState(true)]. *)
Definition initial : State := mkState [] true.

(** The effect [loadSessions]: the state once it has run, and the run of
    [getUserSessions(20)] if it made one. A call that never settles leaves
    the component loading. *)
Definition loadSessions (isAuthenticated : bool) (client : option Reader) (s : State)
  : State * option ReadRun :=
  if negb isAuthenticated then (mkState (sessions s) false, None)
  else
    let r := getUserSessions client (Some 20) in
    match outcome r with
    | Returns rows => (mkState rows false, Some r)
    | Throws _ => (s, Some r)
    | NeverSettles => (s, Some r)
    end.

Inductive View :=
| SignInPrompt     (* "Sign in to see your journey" *)
| Loading          (* "Loading your sessions..." *)
| NoSessions       (* "No sessions yet" *)
| Journal (rows : list SessionRecord).

(** The conditional chain of the content area. *)
Definition view (isAuthenticated : bool) (s : State) : View :=
  if negb isAuthenticated then SignInPrompt
  else if loading s then Loading
  else match sessions s with
       | [] => NoSessions
       | rows => Journal rows
       end.

(** [formatDate]. [created] is [date.getTime()] in milliseconds, [None]
    for an invalid date; [toLocale] is [date.toLocaleDateString(...)].
    The difference of two clock readings is a whole number well inside
    the range where the division is exact. *)
Definition formatDate (getTime : string -> option Z) (toLocale : string -> string)
    (now : Z) (dateString : option string) : string :=
  match dateString with
  | None => ""
  | Some ds =>
      if String.eqb ds "" then ""
      else match getTime ds with
           | None => toLocale ds
           | Some created =>
               let diffDays := (now - created) / (1000 * 60 * 60 * 24) in
               if diffDays =? 0 then "Today"
               else if diffDays =? 1 then "Yesterday"
               else if diffDays <? 7 then (toString diffDays ++ " days ago")%string
               else toLocale ds
           end
  end.

End PastSessions.

(** ** [src/components/CloudSync.tsx] *)

Module CloudSync.
Import Supabase.

Record State := mkState {
  user : option User;
  isOpen : bool;
  email : string;
  isLoading : bool;
  message : string
}.

Definition initial : State := mkState None false "" false "".

Definition setEmail (e : string) (s : State) : State :=
  mkState (user s) (isOpen s) e (isLoading s) (message s).
Definition setIsLoading (b : bool) (s : State) : State :=
  mkState (user s) (isOpen s) (email s) b (message s).
Definition setMessage (m : string) (s : State) : State :=
  mkState (user s) (isOpen s) (email s) (isLoading s) m.

(** The two calls of the auth client the handlers await.
    [signInWithOtp] and [signOut] resolve to [{ error }]: [None] is no
    error, [Some m] an error whose [message] is [m] (empty when it has
    none). A rejection carries the thrown error's message the same way. *)
Record Auth := mkAuth {
  signInWithOtp : string -> Settled (option string);
  signOut : Settled (option string)
}.

(** [supabase], for the auth half of the client. *)
Definition auth (c : Config) (createClient : Auth) : option Auth :=
  if isSupabaseConfigured c then Some createClient else None.

(** [m || fallback] *)
Definition orElse (m fallback : string) : string :=
  if String.eqb m "" then fallback else m.

Record Run := mkRun {
  final : State;
  otpRequests : list string;
  signOuts : nat;
  settled : bool
}.

(** [handleSignIn]: the state when the handler has run as far as it gets
    ([settled] is false when the awaited call never answers, and then
    [finally] has not run). *)
Definition handleSignIn (client : option Auth) (s : State) : Run :=
  match client with
  | None => mkRun s [] 0 true
  | Some sb =>
      if String.eqb (email s) "" then mkRun s [] 0 true
      else
        let s1 := s |> setIsLoading true |> setMessage "" in
        let asked := [email s] in
        match signInWithOtp sb (email s) with
        | Resolved None =>
            mkRun (s1 |> setMessage "Check your email for a sign-in link"
                      |> setEmail "" |> setIsLoading false) asked 0 true
        | Resolved (Some m) =>
            mkRun (s1 |> setMessage (orElse m "Something went wrong")
                      |> setIsLoading false) asked 0 true
        | Rejected m =>
            mkRun (s1 |> setMessage (orElse m "Something went wrong")
                      |> setIsLoading false) asked 0 true
        | Pending => mkRun s1 asked 0 false
        end
  end.

(** [handleSignOut]; the [{ error }] a resolved [signOut] carries is not
    looked at. The [setTimeout] of [finally] is [messageTimeout]. *)
Definition handleSignOut (client : option Auth) (s : State) : Run :=
  match client with
  | None => mkRun s [] 0 true
  | Some sb =>
      let s1 := setIsLoading true s in
      match signOut sb with
      | Resolved _ =>
          mkRun (s1 |> setMessage "Signed out" |> setIsLoading false) [] 1 true
      | Rejected m =>
          mkRun (s1 |> setMessage (orElse m "Error signing out")
                    |> setIsLoading false) [] 1 true
      | Pending => mkRun s1 [] 1 false
      end
  end.

(** [setTimeout(() => setMessage(''), 2000)] *)
Definition messageTimeout (s : State) : State := setMessage "" s.

(** [disabled={isLoading || !email}] of the send button. *)
Definition sendDisabled (s : State) : bool :=
  isLoading s || String.eqb (email s) "".

End CloudSync.

(** ** The earlier draft of [App] ([src/App.tsx] without the timer) *)

Module Draft.

Record State := mkState {
  energyLevel : JsValue;
  currentActivity : JsValue;
  showReflection : bool
}.

Definition initialState : State := mkState JNull JNull false.

Definition handleEnergySelect (level : EnergyLevel) (s : State) : State :=
  mkState (energy_value level) JNull (showReflection s).

Definition handleActivitySelect (act : Activity) (s : State) : State :=
  match act with
  | Some reflect => mkState (energyLevel s) (activity_value act) true
  | _ => mkState (energyLevel s) (activity_value act) (showReflection s)
  end.

(** [handleReset], with the storage it clears. *)
Definition handleReset (s : State) (ls : gmap string string)
  : State * gmap string string :=
  (mkState JNull JNull false, delete SESSION_KEY ls).

(** The save effect, as in the later version. *)
Definition saveEffect `{J : JSON} (now : string) (s : State) (ls : gmap string string)
  : gmap string string :=
  if truthy (energyLevel s) || truthy (currentActivity s)
  then <[SESSION_KEY := JSON_stringify
                          (sessionData (energyLevel s) (currentActivity s) now)]> ls
  else ls.

Definition depsSame (prev next : State) : bool :=
  same_value (energyLevel prev) (energyLevel next)
  && same_value (currentActivity prev) (currentActivity next).

(** The three buttons the draft has. *)
Inductive Button :=
| PickEnergy (e : Energy)
| PickActivity (a : ActivityKind)
| StartOver.

(** A click and the render that follows it. *)
Definition fire `{J : JSON} (now : string) (b : Button)
    (w : State * gmap string string) : State * gmap string string :=
  let '(s, ls) := w in
  let '(s', ls') :=
    match b with
    | PickEnergy e => (handleEnergySelect (Some e) s, ls)
    | PickActivity a => (handleActivitySelect (Some a) s, ls)
    | StartOver => handleReset s ls
    end in
  (s', if depsSame s s' then ls' else saveEffect now s' ls').

End Draft.

(** The later version's event for a button of the draft, and the draft's
    state inside the later version's. *)
Definition laterEvent (b : Draft.Button) : Event :=
  match b with
  | Draft.PickEnergy e => SelectEnergy e
  | Draft.PickActivity a => SelectActivity a
  | Draft.StartOver => NewCheckIn
  end.

Definition draftOf (w : World) : Draft.State * gmap string string :=
  (Draft.mkState (energyLevel (app w)) (currentActivity (app w))
     (showReflection (app w)),
   localStorage (env w)).


(** ** Further invariants of reachable worlds *)

(** The reflection placeholder belongs to the reflect activity, and the
    reflect activity has no timer. *)
Record ReflectOk (s : AppState) : Prop := mkReflectOk {
  ok_panel :
    showReflection s = true ->
    currentActivity s = JStr "reflect" /\ truthy (energyLevel s) = true;
  ok_reflect : currentActivity s = JStr "reflect" -> showTimer s = false
}.

(** What a record handed to [syncSession] looks like. *)
Definition syncable (r : SessionRecord) : Prop :=
  truthy (energy_level r) = true /\ truthy (activity r) = true
  /\ activity r <> JStr "reflect"
  /\ exists d, duration_minutes r = Some d /\ durationOffered d = true.

(** The calls of [syncSession] a step starts. *)
Definition syncStarted (ev : Event) (w : World) : list SessionRecord :=
  match ev with
  | SubmitFeedback f =>
      if isAuthenticated (app w) && truthy (energyLevel (app w))
         && truthy (currentActivity (app w))
      then [sessionRecord (app w) (feedback_string <$> f)]
      else []
  | _ => []
  end.

(** The phase a step leads to, from the phase [p] it starts in; [last]
    tells a tick whether one second was left. *)
Definition nextPhase (p : Phase) (ev : Event) (last : bool) : Phase :=
  match ev with
  | SelectEnergy _ => EnergyChosen
  | SelectActivity _ => ActivityChosen
  | NewCheckIn | SubmitFeedback _ => Idle
  | StartTimer => TimerRunning
  | Tick => if last then TimerComplete else TimerRunning
  | RequestFeedback => FeedbackPrompt
  | SetDuration _ | SetPomodoro _ | PlayPause | ResetTimer | AuthChange _ => p
  end.

(** The phase a step can start in. *)
Definition startsIn (ev : Event) (p : Phase) : Prop :=
  match ev with
  | SelectEnergy _ => p = Idle
  | SelectActivity _ => p = EnergyChosen
  | NewCheckIn => p <> Idle /\ p <> FeedbackPrompt
  | SetDuration _ | SetPomodoro _ | StartTimer => p = ActivityChosen
  | PlayPause | ResetTimer | Tick => p = TimerRunning
  | RequestFeedback => p = TimerComplete
  | SubmitFeedback _ => p = FeedbackPrompt
  | AuthChange _ => True
  end.

(** A storage with a key of some other script in it. *)
Definition sharedStorage : gmap string string :=
  <[ "theme" := "dark" ]> nullStorage.

Definition garbageStorage : gmap string string := {[ SESSION_KEY := "{energyLevel" ]}.

(** Whether each event of a run is offered when its turn comes. *)
Fixpoint runnable `{J : JSON} (evs : list (string * Event)) (w : World) : bool :=
  match evs with
  | [] => true
  | (now, ev) :: evs' => enabled w ev && runnable evs' (fire now ev w)
  end.

(** Low energy, then the reflection placeholder. *)
Definition reflecting : World :=
  run (J := RefJSON.codec)
    [("09:00", SelectEnergy low); ("09:01", SelectActivity reflect)] firstVisit.

(** The session of [prompting], rated. *)
Definition rated : World :=
  fire (J := RefJSON.codec) "09:09" (SubmitFeedback (Some good)) prompting.

(** * Properties *)

(** ** Values *)

(** [Object.is] holds of a value and itself; for a number this is the
    specification of the kernel's equality of doubles. *)
Lemma same_value_refl (v : JsValue) : same_value v v = true.
Proof.
  revert v. fix IH 1. intros [| | b | n | s | items | members]; simpl.
  - reflexivity.
  - reflexivity.
  - destruct b; reflexivity.
  - now apply FloatAxioms.Leibniz.eqb_spec.
  - apply String.eqb_refl.
  - induction items as [| x xs IHxs]; [reflexivity |].
    rewrite IH. exact IHxs.
  - induction members as [| [k x] xs IHxs]; [reflexivity |].
    rewrite String.eqb_refl, IH. exact IHxs.
Qed.

(** A falsy value is none of the strings the buttons pass. *)
Lemma falsy_not_string (v : JsValue) (s : string) :
  truthy v = false -> s <> "" -> same_value v (JStr s) = false.
Proof.
  intros Hv Hs. destruct v; simpl in *; try reflexivity.
  apply negb_false_iff, String.eqb_eq in Hv. subst.
  apply String.eqb_neq. congruence.
Qed.

Lemma energy_string_truthy (e : Energy) : truthy (JStr (energy_string e)) = true.
Proof. destruct e; reflexivity. Qed.

Lemma activity_string_truthy (a : ActivityKind) : truthy (JStr (activity_string a)) = true.
Proof. destruct a; reflexivity. Qed.

Lemma energy_string_nonempty (e : Energy) : energy_string e <> "".
Proof. destruct e; discriminate. Qed.

Lemma activity_string_nonempty (a : ActivityKind) : activity_string a <> "".
Proof. destruct a; discriminate. Qed.

(** ** Effects touch disjoint parts of the surroundings *)

Section Effects.
Context `{J : JSON}.

Lemma saveEffect_frame now s e :
  timerRef (saveEffect now s e) = timerRef e
  /\ intervals (saveEffect now s e) = intervals e
  /\ nextHandle (saveEffect now s e) = nextHandle e
  /\ console (saveEffect now s e) = console e
  /\ syncCalls (saveEffect now s e) = syncCalls e.
Proof. unfold saveEffect. destruct (_ || _); simpl; auto. Qed.

Lemma clearTimer_frame e :
  localStorage (clearTimer e) = localStorage e
  /\ nextHandle (clearTimer e) = nextHandle e
  /\ console (clearTimer e) = console e
  /\ syncCalls (clearTimer e) = syncCalls e.
Proof. unfold clearTimer. destruct (timerRef e) as [[| h] |]; simpl; auto. Qed.

Lemma timerEffect_frame s e :
  localStorage (timerEffect s e) = localStorage e
  /\ console (timerEffect s e) = console e
  /\ syncCalls (timerEffect s e) = syncCalls e.
Proof.
  unfold timerEffect.
  destruct (isTimerRunning s && (timeRemaining s >? 0)); simpl; auto.
  destruct (negb (isTimerRunning s)); auto.
  pose proof (clearTimer_frame e). tauto.
Qed.

(** The save effect and the timer effect commute. *)
Lemma saveEffect_timerEffect now s s' e :
  timerEffect s' (saveEffect now s e) = saveEffect now s (timerEffect s' e).
Proof.
  unfold saveEffect, timerEffect, clearTimer.
  destruct (truthy (energyLevel s) || truthy (currentActivity s));
    destruct (isTimerRunning s' && (timeRemaining s' >? 0));
    destruct (negb (isTimerRunning s'));
    try reflexivity;
    simpl; destruct (timerRef e) as [[| h] |]; reflexivity.
Qed.

Lemma commit_split now prev next e :
  commit now prev next e = commitSave now prev next (commitTimer prev next e).
Proof.
  unfold commit, commitSave, commitTimer.
  destruct (timerDepsSame prev next), (saveDepsSame prev next); try reflexivity.
  apply saveEffect_timerEffect.
Qed.

Lemma commit_timer now prev next e :
  timerRef (commit now prev next e) = timerRef (commitTimer prev next e)
  /\ intervals (commit now prev next e) = intervals (commitTimer prev next e)
  /\ nextHandle (commit now prev next e) = nextHandle (commitTimer prev next e).
Proof.
  rewrite commit_split. unfold commitSave.
  destruct (saveDepsSame prev next); [auto |].
  pose proof (saveEffect_frame now next (commitTimer prev next e)). tauto.
Qed.

Lemma commit_storage now prev next e :
  localStorage (commit now prev next e) = localStorage (commitSave now prev next e).
Proof.
  rewrite commit_split. unfold commitSave, commitTimer, timerCleanup.
  assert (Hl : localStorage (if timerDepsSame prev next then e
                             else timerEffect next (clearTimer e))
               = localStorage e).
  { destruct (timerDepsSame prev next); [reflexivity |].
    pose proof (timerEffect_frame next (clearTimer e)) as [-> _].
    apply clearTimer_frame. }
  destruct (saveDepsSame prev next); [exact Hl |].
  unfold saveEffect. destruct (_ || _); simpl; [| exact Hl].
  now rewrite Hl.
Qed.

Lemma commit_log now prev next e :
  console (commit now prev next e) = console e
  /\ syncCalls (commit now prev next e) = syncCalls e.
Proof.
  rewrite commit_split. unfold commitSave, commitTimer, timerCleanup.
  assert (H : console (if timerDepsSame prev next then e
                       else timerEffect next (clearTimer e)) = console e
              /\ syncCalls (if timerDepsSame prev next then e
                            else timerEffect next (clearTimer e)) = syncCalls e).
  { destruct (timerDepsSame prev next); [auto |].
    pose proof (timerEffect_frame next (clearTimer e)) as (_ & -> & ->).
    pose proof (clearTimer_frame e). tauto. }
  destruct (saveDepsSame prev next); [exact H |].
  pose proof (saveEffect_frame now next
                (if timerDepsSame prev next then e
                 else timerEffect next (clearTimer e))) as (_ & _ & _ & -> & ->).
  exact H.
Qed.

(** The state after an event is the state its handler computed. *)
Lemma app_fire now ev w : app (fire now ev w) = app (handle ev w).
Proof. reflexivity. Qed.

Lemma env_fire now ev w :
  env (fire now ev w) = commit now (app w) (app (handle ev w)) (env (handle ev w)).
Proof. reflexivity. Qed.

End Effects.
(** ** The invariant is kept by every step *)

Ltac use_inv :=
  repeat match goal with
  | H : ?b = ?b -> _ |- _ => specialize (H eq_refl)
  | H : true = false -> _ |- _ => clear H
  | H : false = true -> _ |- _ => clear H
  | H : _ /\ _ |- _ => destruct H
  | H : exists _, _ |- _ => destruct H
  end.

Ltac run_handlers :=
  cbn [handle app env handleReset handleCompleteFeedback
       handleEnergySelect handleActivitySelect handleStartTimer
       handlePlayPause handleResetTimer tick
       setEnergyLevel setCurrentActivity setShowReflection setShowTimer
       setTimerDuration setTimeRemaining setIsTimerRunning setPomodoroEnabled
       setSessionComplete setShowFeedback setIsAuthenticated
       energyLevel currentActivity showReflection showTimer timerDuration
       timeRemaining isTimerRunning pomodoroEnabled sessionComplete showFeedback
       isAuthenticated energy_value activity_value negb andb orb] in *.

Lemma durationOffered_range d : durationOffered d = true -> 5 <= d <= 90.
Proof. unfold durationOffered. intros H.
  apply orb_true_iff in H as [H | H]; [| lia].
  apply orb_true_iff in H as [H | H]; [| lia].
  apply orb_true_iff in H as [H | H]; lia.
Qed.

Ltac phase_cases el ca sc sf st Hen :=
  destruct (truthy el) eqn:?, (truthy ca) eqn:?, sc, sf, st;
  cbn in Hen; try discriminate Hen; cbn [andb negb orb] in *.

Ltac timer_ok :=
  use_inv; subst; try discriminate; try lia;
  constructor; run_handlers;
  repeat match goal with H : truthy _ = _ |- _ => rewrite H end;
  rewrite ?energy_string_truthy, ?activity_string_truthy;
  cbn [andb negb orb]; intros; use_inv; subst;
  try discriminate; try lia; auto.

Lemma TimerOk_handle ev w :
  TimerOk (app w) -> IntervalOk (app w) (env w) -> enabled w ev = true ->
  TimerOk (app (handle ev w)).
Proof.
  destruct w as [[el ca sr st td tr run pe sc sf ia] e].
  intros [Hd Hr Hrun Hhid Hcomp Hfb Harm Hearly] [Hiv Hno _] Hen.
  unfold enabled, timerSetupShown, phase in Hen.
  cbn [app env energyLevel currentActivity showReflection showTimer timerDuration
       timeRemaining isTimerRunning pomodoroEnabled sessionComplete showFeedback
       isAuthenticated] in *.
  destruct ev.
  - phase_cases el ca sc sf st Hen; timer_ok.
  - phase_cases el ca sc sf st Hen; destruct a; timer_ok.
  - timer_ok.
  - apply andb_true_iff in Hen as [Hen Hd'%durationOffered_range].
    apply andb_true_iff in Hen as [Hen _].
    phase_cases el ca sc sf st Hen; timer_ok.
  - apply andb_true_iff in Hen as [Hen _].
    phase_cases el ca sc sf st Hen; timer_ok.
  - apply andb_true_iff in Hen as [Hen _].
    phase_cases el ca sc sf st Hen; timer_ok.
  - phase_cases el ca sc sf st Hen; destruct run; timer_ok.
  - phase_cases el ca sc sf st Hen; destruct run; timer_ok.
  - destruct run; [| destruct (Hno eq_refl) as [_ Hiv']; rewrite Hiv' in Hen; discriminate].
    cbn [handle app]; unfold tick; cbn [timeRemaining].
    destruct (Z.leb_spec tr 1); destruct sc, sf, st; timer_ok.
  - phase_cases el ca sc sf st Hen; timer_ok.
  - timer_ok.
  - destruct run, sc, sf, st; timer_ok.
Qed.

Lemma clearTimer_stops s e :
  IntervalOk s e ->
  timerRef (clearTimer e) = None /\ intervals (clearTimer e) = []
  /\ nextHandle (clearTimer e) = nextHandle e.
Proof.
  intros [Hiv Hno _]. unfold clearTimer.
  destruct (isTimerRunning s).
  - destruct (Hiv eq_refl) as (h & -> & Hl).
    unfold setTimerRef, clearInterval. cbn. rewrite Hl. cbn.
    rewrite Nat.eqb_refl. cbn. repeat split.
  - destruct (Hno eq_refl) as [Hr Hl]. rewrite Hr. repeat split; assumption.
Qed.

Lemma commitTimer_idle prev next e :
  isTimerRunning next = false ->
  timerRef e = None -> intervals e = [] -> (1 <= nextHandle e)%nat ->
  IntervalOk next (commitTimer prev next e).
Proof.
  intros Hrun Href Hivs Hh.
  assert (Hsame : commitTimer prev next e = e).
  { unfold commitTimer, timerEffect, timerCleanup, clearTimer.
    destruct (timerDepsSame prev next); [reflexivity |].
    rewrite Hrun, Href. cbn. now rewrite Href. }
  rewrite Hsame. constructor; auto. congruence.
Qed.

Lemma commitTimer_link prev next e :
  IntervalOk prev e ->
  (isTimerRunning next = true -> 0 < timeRemaining next) ->
  IntervalOk next (commitTimer prev next e).
Proof.
  intros Hok Hpos.
  destruct (isTimerRunning next) eqn:Hnext.
  - destruct (isTimerRunning prev) eqn:Hprev.
    + unfold commitTimer, timerDepsSame. rewrite Hprev, Hnext. cbn.
      destruct Hok as [Hiv Hno Hh]. rewrite Hprev in *.
      constructor; auto. congruence.
    + unfold commitTimer, timerDepsSame, timerEffect, timerCleanup.
      rewrite Hprev, Hnext. cbn.
      destruct (clearTimer_stops _ _ Hok) as (Href & Hivs & Hnh).
      destruct Hok as [_ _ Hh].
      assert (Hgt : (timeRemaining next >? 0) = true) by (specialize (Hpos eq_refl); lia).
      rewrite Hgt. unfold setInterval. cbn. rewrite Hivs, Hnh.
      constructor; cbn; try congruence; try lia.
      intros _. destruct (nextHandle e) as [| h]; [lia |]. eauto.
  - destruct (clearTimer_stops _ _ Hok) as (Href & Hivs & Hnh).
    destruct (isTimerRunning prev) eqn:Hprev.
    + unfold commitTimer, timerDepsSame, timerEffect, timerCleanup.
      rewrite Hprev, Hnext. cbn.
      assert (Hcc : clearTimer (clearTimer e) = clearTimer e).
      { unfold clearTimer at 1. rewrite Href. reflexivity. }
      rewrite Hcc. destruct Hok as [_ _ Hh].
      constructor; try congruence; auto.
    + unfold commitTimer, timerDepsSame. rewrite Hprev, Hnext. cbn.
      destruct Hok as [Hiv Hno Hh]. rewrite Hprev in *.
      constructor; auto. congruence.
Qed.

Lemma env_handle_pure ev w :
  match ev with NewCheckIn | SubmitFeedback _ => False | _ => True end ->
  env (handle ev w) = env w.
Proof. destruct ev; cbn; tauto. Qed.

Lemma IntervalOk_handle ev w :
  TimerOk (app w) -> IntervalOk (app w) (env w) -> enabled w ev = true ->
  IntervalOk (app (handle ev w))
    (commitTimer (app w) (app (handle ev w)) (env (handle ev w))).
Proof.
  intros Ht Hi Hen.
  pose proof (TimerOk_handle ev w Ht Hi Hen) as Ht'.
  assert (Hreset : forall s0 e0,
            timerRef e0 = timerRef (env w) -> intervals e0 = intervals (env w) ->
            nextHandle e0 = nextHandle (env w) ->
            IntervalOk (app (handleReset (mkWorld s0 e0)))
              (commitTimer (app w) (app (handleReset (mkWorld s0 e0)))
                 (env (handleReset (mkWorld s0 e0))))).
  { intros s0 e0 Hr Hl Hn.
    assert (Hi0 : IntervalOk (app w) e0).
    { destruct Hi as [Hiv Hno Hh]. constructor; rewrite ?Hr, ?Hl, ?Hn; auto. }
    destruct (clearTimer_stops _ _ Hi0) as (Href & Hivs & Hnh).
    apply commitTimer_idle; cbn; auto.
    destruct Hi0 as [_ _ Hh]. lia. }
  destruct ev; try (rewrite env_handle_pure by exact I;
                    apply commitTimer_link; [exact Hi | apply Ht']).
  - destruct w as [s e]. apply (Hreset s e); reflexivity.
  - cbn [handle handleCompleteFeedback].
    apply Hreset; destruct (_ && _); reflexivity.
Qed.

Lemma Inv_ext w w' :
  app w = app w' -> timerRef (env w) = timerRef (env w') ->
  intervals (env w) = intervals (env w') ->
  nextHandle (env w) = nextHandle (env w') ->
  Inv w -> Inv w'.
Proof.
  intros Ha Hr Hl Hn [Ht [Hiv Hno Hh]]. split.
  - now rewrite <- Ha.
  - constructor; rewrite <- ?Ha, <- ?Hr, <- ?Hl, <- ?Hn; assumption.
Qed.

Section Reachability.
Context `{J : JSON}.

Lemma Inv_fire now ev w : Inv w -> enabled w ev = true -> Inv (fire now ev w).
Proof.
  intros [Ht Hi] Hen.
  apply (Inv_ext (mkWorld (app (handle ev w))
                    (commitTimer (app w) (app (handle ev w)) (env (handle ev w))))).
  - reflexivity.
  - symmetry. apply commit_timer.
  - symmetry. apply commit_timer.
  - symmetry. apply commit_timer.
  - split; [apply TimerOk_handle | apply IntervalOk_handle]; assumption.
Qed.


(** The load effect changes the two session fields and the console,
    nothing else. *)
Lemma loadEffect_frame s e :
  let r := loadEffect s e in
  (showTimer (fst r) = showTimer s /\ timerDuration (fst r) = timerDuration s
   /\ timeRemaining (fst r) = timeRemaining s
   /\ isTimerRunning (fst r) = isTimerRunning s
   /\ sessionComplete (fst r) = sessionComplete s
   /\ showFeedback (fst r) = showFeedback s)
  /\ (showReflection (fst r) = showReflection s
      /\ pomodoroEnabled (fst r) = pomodoroEnabled s
      /\ isAuthenticated (fst r) = isAuthenticated s)
  /\ (localStorage (snd r) = localStorage e /\ timerRef (snd r) = timerRef e
      /\ intervals (snd r) = intervals e /\ nextHandle (snd r) = nextHandle e
      /\ syncCalls (snd r) = syncCalls e).
Proof.
  unfold loadEffect. repeat case_match; cbn; tauto.
Qed.

Lemma Inv_mount now ls : Inv (mounted now ls).
Proof.
  unfold mounted.
  pose proof (loadEffect_frame initialState (freshEnv ls)) as Hload.
  destruct (loadEffect initialState (freshEnv ls)) as [loaded e].
  cbn [fst snd] in Hload.
  destruct Hload as ((Hst & Htd & Htr & Hrun & Hsc & Hsf) & _ & (_ & Href & Hivs & Hnh & _)).
  cbn in Hst, Htd, Htr, Hrun, Hsc, Hsf, Href, Hivs, Hnh.
  assert (He : timerEffect initialState (saveEffect now initialState e) = e).
  { unfold timerEffect, saveEffect, clearTimer. cbn. now rewrite Href. }
  rewrite He. unfold render. cbn [app env].
  apply (Inv_ext (mkWorld loaded (commitTimer initialState loaded e))).
  - reflexivity.
  - symmetry. apply commit_timer.
  - symmetry. apply commit_timer.
  - symmetry. apply commit_timer.
  - assert (Hc : commitTimer initialState loaded e = e).
    { unfold commitTimer, timerDepsSame. rewrite Hrun. reflexivity. }
    rewrite Hc. split; cbn [app env].
    + constructor; rewrite ?Hst, ?Htd, ?Htr, ?Hrun, ?Hsc, ?Hsf;
        intros; try discriminate; try lia; auto.
    + constructor; rewrite ?Hrun, ?Href, ?Hivs, ?Hnh;
        intros; try discriminate; try lia; auto.
Qed.

(** A component on screen is the one whose loaded state rendered. *)
Lemma mount_Shown now ls w :
  mount now ls = Shown w ->
  w = mounted now ls /\ renders (fst (loadEffect initialState (freshEnv ls))) = true.
Proof.
  unfold mount. destruct (loadEffect initialState (freshEnv ls)) as [loaded e].
  destruct (renders loaded) eqn:Hr; [| discriminate].
  intros [= <-]. split; [reflexivity | exact Hr].
Qed.

Lemma reachable_Inv w : reachable w -> Inv w.
Proof.
  induction 1 as [now ls w Hm | now ev w _ IH Hen].
  - apply mount_Shown in Hm as [-> _]. apply Inv_mount.
  - now apply Inv_fire.
Qed.

End Reachability.

(** ** The countdown *)

Lemma tick_spec (s : AppState) :
  0 < timeRemaining s ->
  timeRemaining (tick s) = timeRemaining s - 1
  /\ timerDuration (tick s) = timerDuration s
  /\ (timeRemaining s = 1 ->
      isTimerRunning (tick s) = false /\ sessionComplete (tick s) = true)
  /\ (1 < timeRemaining s ->
      isTimerRunning (tick s) = isTimerRunning s
      /\ sessionComplete (tick s) = sessionComplete s).
Proof.
  intros Hpos. unfold tick.
  destruct (Z.leb_spec (timeRemaining s) 1); cbn; repeat split; intros; try lia.
Qed.

Lemma tick_at_rest (s : AppState) :
  timeRemaining s = 0 -> isTimerRunning s = false -> sessionComplete s = true ->
  tick s = s.
Proof.
  destruct s; cbn. intros -> -> ->. reflexivity.
Qed.

Lemma interval_iff_running (w : World) :
  Inv w -> enabled w Tick = isTimerRunning (app w).
Proof.
  intros [_ [Hiv Hno _]]. cbn.
  destruct (isTimerRunning (app w)).
  - destruct (Hiv eq_refl) as (h & _ & ->). reflexivity.
  - destruct (Hno eq_refl) as [_ ->]. reflexivity.
Qed.

Section Countdown.
Context `{J : JSON}.

Lemma tick_step now w :
  reachable w -> enabled w Tick = true ->
  let w' := fire now Tick w in
  isTimerRunning (app w) = true /\ 0 < timeRemaining (app w)
  /\ sessionComplete (app w) = false
  /\ timeRemaining (app w') = timeRemaining (app w) - 1
  /\ timerDuration (app w') = timerDuration (app w)
  /\ (timeRemaining (app w') = 0 ->
      isTimerRunning (app w') = false /\ sessionComplete (app w') = true
      /\ enabled w' Tick = false /\ tick (app w') = app w')
  /\ (0 < timeRemaining (app w') ->
      isTimerRunning (app w') = true /\ sessionComplete (app w') = false
      /\ enabled w' Tick = true).
Proof.
  intros Hreach Hen w'.
  pose proof (reachable_Inv w Hreach) as Hinv.
  assert (Hinv' : Inv w') by (apply Inv_fire; assumption).
  pose proof (interval_iff_running w Hinv) as Hrun. rewrite Hen in Hrun.
  pose proof (interval_iff_running w' Hinv') as Hrun'.
  destruct Hinv as [Ht _].
  pose proof (ok_running _ Ht (eq_sym Hrun)) as Hpos.
  assert (Hsc : sessionComplete (app w) = false).
  { destruct (sessionComplete (app w)) eqn:E; [| reflexivity].
    destruct (ok_complete _ Ht E) as [_ Hr]. congruence. }
  destruct (tick_spec (app w) Hpos) as (Htr & Htd & Hlast & Hnext).
  change (app w') with (tick (app w)) in *.
  repeat split; auto.
  - apply Hlast. lia.
  - apply Hlast. lia.
  - rewrite Hrun'. apply Hlast. lia.
  - apply tick_at_rest; [assumption | apply Hlast; lia | apply Hlast; lia].
  - destruct Hnext as [-> _]; [lia | congruence].
  - destruct Hnext as [_ ->]; [lia | congruence].
  - rewrite Hrun'. destruct Hnext as [-> _]; [lia | congruence].
Qed.

(** [n] callbacks of the interval in a row. *)
Lemma countdown_completes now (n : nat) : forall w,
  reachable w -> enabled w Tick = true ->
  timeRemaining (app w) = Z.of_nat n ->
  let w' := run (repeat (now, Tick) n) w in
  reachable w' /\ timeRemaining (app w') = 0
  /\ isTimerRunning (app w') = false /\ sessionComplete (app w') = true
  /\ enabled w' Tick = false.
Proof.
  induction n as [| n IH]; intros w Hreach Hen Htr.
  - destruct (tick_step now w Hreach Hen) as (_ & Hpos & _). lia.
  - cbn [repeat run].
    destruct (tick_step now w Hreach Hen) as (_ & _ & _ & Hdec & _ & Hzero & Hmore).
    assert (Hreach' : reachable (fire now Tick w)) by (constructor; assumption).
    destruct n as [| n].
    + cbn [repeat run]. cbn zeta.
      assert (Hz : timeRemaining (app (fire now Tick w)) = 0) by lia.
      destruct (Hzero Hz) as (? & ? & ? & ?). auto.
    + apply IH; [assumption | apply Hmore; lia | lia].
Qed.

End Countdown.

(** ** Phases *)

Lemma phase_Idle s : phase s = Idle <-> truthy (energyLevel s) = false.
Proof.
  unfold phase.
  destruct (truthy (energyLevel s)), (truthy (currentActivity s)),
    (sessionComplete s), (showFeedback s), (showTimer s); cbn; split; congruence.
Qed.

Lemma phase_EnergyChosen s :
  phase s = EnergyChosen <->
  truthy (energyLevel s) = true /\ truthy (currentActivity s) = false.
Proof.
  unfold phase.
  destruct (truthy (energyLevel s)), (truthy (currentActivity s)),
    (sessionComplete s), (showFeedback s), (showTimer s); cbn;
    (split; [intros; split; congruence | intros [? ?]; congruence]).
Qed.

Lemma phase_FeedbackPrompt s :
  phase s = FeedbackPrompt ->
  truthy (energyLevel s) = true /\ truthy (currentActivity s) = true
  /\ showFeedback s = true.
Proof.
  unfold phase.
  destruct (truthy (energyLevel s)), (truthy (currentActivity s)),
    (sessionComplete s), (showFeedback s), (showTimer s); cbn; try congruence; auto.
Qed.

Lemma phase_ActivityChosen s :
  phase s = ActivityChosen ->
  truthy (energyLevel s) = true /\ truthy (currentActivity s) = true
  /\ showTimer s = false /\ showFeedback s = false.
Proof.
  unfold phase.
  destruct (truthy (energyLevel s)), (truthy (currentActivity s)),
    (sessionComplete s), (showFeedback s), (showTimer s); cbn; try congruence; auto.
Qed.

(** ** The local store *)

Section Store.
Context `{J : JSON}.

(** A step that changes [energyLevel] or [currentActivity] to a pair with
    a truthy component overwrites the record under [SESSION_KEY]. *)
Lemma storage_written now prev next e :
  saveDepsSame prev next = false ->
  truthy (energyLevel next) || truthy (currentActivity next) = true ->
  localStorage (commit now prev next e)
  = <[SESSION_KEY := JSON_stringify
                       (sessionData (energyLevel next) (currentActivity next) now)]>
      (localStorage e).
Proof.
  intros Hdiff Htruthy. rewrite commit_storage. unfold commitSave, saveEffect.
  rewrite Hdiff, Htruthy. reflexivity.
Qed.

(** A step that leaves both unset writes nothing. *)
Lemma storage_kept now prev next e :
  truthy (energyLevel next) || truthy (currentActivity next) = false ->
  localStorage (commit now prev next e) = localStorage e.
Proof.
  intros Hfalsy. rewrite commit_storage. unfold commitSave, saveEffect.
  rewrite Hfalsy. destruct (saveDepsSame prev next); reflexivity.
Qed.

Lemma storage_after_energy now e w :
  same_value (energyLevel (app w)) (JStr (energy_string e)) = false ->
  localStorage (env (fire now (SelectEnergy e) w))
  = <[SESSION_KEY := JSON_stringify (sessionData (JStr (energy_string e)) JNull now)]>
      (localStorage (env w)).
Proof.
  intros Hdiff. rewrite env_fire. cbn [handle app env].
  rewrite storage_written; [reflexivity | |].
  - unfold saveDepsSame. cbn. now rewrite Hdiff.
  - destruct e; reflexivity.
Qed.

Lemma handleActivitySelect_session a s :
  energyLevel (handleActivitySelect (Some a) s) = energyLevel s
  /\ currentActivity (handleActivitySelect (Some a) s) = JStr (activity_string a).
Proof. destruct a; split; reflexivity. Qed.

Lemma storage_after_activity now a w :
  same_value (currentActivity (app w)) (JStr (activity_string a)) = false ->
  truthy (energyLevel (app w)) || truthy (JStr (activity_string a)) = true ->
  localStorage (env (fire now (SelectActivity a) w))
  = <[SESSION_KEY := JSON_stringify
                       (sessionData (energyLevel (app w)) (JStr (activity_string a)) now)]>
      (localStorage (env w)).
Proof.
  intros Hdiff Htruthy. rewrite env_fire. cbn [handle app env].
  destruct (handleActivitySelect_session a (app w)) as [Hel Hca].
  rewrite storage_written.
  - now rewrite Hel, Hca.
  - unfold saveDepsSame. rewrite Hca, Hdiff. apply andb_false_r.
  - now rewrite Hel, Hca.
Qed.

(** ** Mounting *)

Lemma app_mount now ls :
  app (mounted now ls) = fst (loadEffect initialState (freshEnv ls)).
Proof.
  unfold mounted. destruct (loadEffect initialState (freshEnv ls)). reflexivity.
Qed.

Lemma console_mount now ls :
  console (env (mounted now ls)) = console (snd (loadEffect initialState (freshEnv ls))).
Proof.
  unfold mounted. destruct (loadEffect initialState (freshEnv ls)) as [loaded e].
  unfold render. cbn [app env snd].
  destruct (commit_log now initialState loaded
              (timerEffect initialState (saveEffect now initialState e))) as [-> _].
  destruct (timerEffect_frame initialState (saveEffect now initialState e))
    as (_ & -> & _).
  apply saveEffect_frame.
Qed.

(** No record under the key: the component starts from its initial state. *)
Lemma mount_without_record now ls :
  ls !! SESSION_KEY = None -> app (mounted now ls) = initialState.
Proof.
  intros Hnone. rewrite app_mount. unfold loadEffect. cbn [localStorage freshEnv].
  now rewrite Hnone.
Qed.

(** A record that parses to something other than [null]: both fields are
    read off it. *)
Lemma mount_with_record now ls payload v :
  ls !! SESSION_KEY = Some payload -> payload <> "" ->
  JSON_parse payload = Some v -> v <> JNull -> v <> JUndefined ->
  app (mounted now ls)
  = setCurrentActivity (member v "currentActivity")
      (setEnergyLevel (member v "energyLevel") initialState)
  /\ console (env (mounted now ls)) = [].
Proof.
  intros Hsome Hne Hparse Hnull Hundef.
  rewrite app_mount, console_mount. unfold loadEffect. cbn [localStorage freshEnv].
  rewrite Hsome. apply String.eqb_neq in Hne. rewrite Hne. cbn [negb].
  rewrite Hparse.
  destruct v; try congruence; cbn; auto.
Qed.

(** The effects of the first render leave a fresh environment as the load
    effect left it, and so does the cleanup of an unmount. *)
Lemma first_effects now e :
  timerRef e = None ->
  timerCleanup (timerEffect initialState (saveEffect now initialState e)) = e.
Proof.
  intros Href. unfold timerCleanup, timerEffect, saveEffect, clearTimer. cbn.
  rewrite !Href. reflexivity.
Qed.

Lemma mount_shown now ls :
  renders (fst (loadEffect initialState (freshEnv ls))) = true ->
  mount now ls = Shown (mounted now ls).
Proof.
  unfold mount. destruct (loadEffect initialState (freshEnv ls)) as [loaded e].
  cbn [fst]. now intros ->.
Qed.

Lemma mount_thrown now ls :
  renders (fst (loadEffect initialState (freshEnv ls))) = false ->
  mount now ls = Unmounted (snd (loadEffect initialState (freshEnv ls))).
Proof.
  unfold mount.
  pose proof (loadEffect_frame initialState (freshEnv ls)) as Hload.
  destruct (loadEffect initialState (freshEnv ls)) as [loaded e].
  cbn [fst snd] in *. intros ->. f_equal. apply first_effects.
  destruct Hload as (_ & _ & _ & -> & _). reflexivity.
Qed.

(** The render depends on the two session fields alone. *)
Lemma renders_spec s :
  renders s = if truthy (energyLevel s) && negb (truthy (currentActivity s))
              then renderable (energyLevel s) else true.
Proof.
  unfold renders, phase.
  destruct (truthy (energyLevel s)), (truthy (currentActivity s)),
    (sessionComplete s), (showFeedback s), (showTimer s); reflexivity.
Qed.

(** A state without a session, the one of a first visit among them,
    renders the energy buttons. *)
Lemma renders_idle s : truthy (energyLevel s) = false -> renders s = true.
Proof. intros Hel. rewrite renders_spec. now rewrite Hel. Qed.

Lemma mount_initial now ls :
  fst (loadEffect initialState (freshEnv ls)) = initialState ->
  mount now ls = Shown (mounted now ls) /\ app (mounted now ls) = initialState.
Proof.
  intros Hload. split; [| now rewrite app_mount].
  apply mount_shown. now rewrite Hload.
Qed.

(** A render that returned is followed by one that returns, whatever the
    event: the value shown as a child is the one that was on screen, or
    a string set by [handleEnergySelect]. *)
Lemma renders_handle ev w :
  renders (app w) = true -> renders (app (handle ev w)) = true.
Proof.
  intros Hr.
  assert (Hkeep : forall s',
            energyLevel s' = energyLevel (app w) ->
            currentActivity s' = currentActivity (app w) ->
            renders s' = true).
  { intros s' Hel Hca. rewrite renders_spec in *. now rewrite Hel, Hca. }
  destruct ev; cbn [handle app]; try (apply Hkeep; reflexivity).
  - rewrite renders_spec. cbn. destruct e; reflexivity.
  - rewrite renders_spec.
    destruct (handleActivitySelect_session a (app w)) as [-> ->].
    destruct a; cbn; now rewrite andb_false_r.
  - reflexivity.
  - unfold tick. destruct (timeRemaining (app w) <=? 1); apply Hkeep; reflexivity.
  - reflexivity.
Qed.

Lemma renders_fire now ev w :
  renders (app w) = true -> renders (app (fire now ev w)) = true.
Proof. rewrite app_fire. apply renders_handle. Qed.

Lemma reachable_renders w : reachable w -> renders (app w) = true.
Proof.
  induction 1 as [now ls w Hm | now ev w _ IH Hen].
  - apply mount_Shown in Hm as [-> Hr]. now rewrite app_mount.
  - now apply renders_fire.
Qed.

End Store.

(** ** The model on small inputs *)

Example codec_reads_back :
  RefJSON.parse (RefJSON.stringify oddRecord) = Some oddRecord.
Proof. vm_compute. reflexivity. Qed.

Example codec_drops_undefined :
  RefJSON.parse (RefJSON.stringify (JObj [("energyLevel", JUndefined); ("n", JNum (num (-3)))]))
  = Some (JObj [("n", JNum (num (-3)))]).
Proof. vm_compute. reflexivity. Qed.

Example codec_reads_numbers :
  RefJSON.parse "[1.5, 1E3, -0, 0.1, 25e-1, 1e400, 9007199254740993]"
  = Some (JArr [JNum (PrimFloat.div (num 3) (num 2)); JNum (num 1000);
                JNum PrimFloat.neg_zero; JNum (PrimFloat.div (num 1) (num 10));
                JNum (PrimFloat.div (num 5) (num 2)); JNum PrimFloat.infinity;
                JNum (num 9007199254740992)]).
Proof. vm_compute. reflexivity. Qed.

Example codec_writes_numbers :
  RefJSON.stringify
    (JArr [JNum (PrimFloat.div (num 3) (num 2)); JNum (num 1000);
           JNum PrimFloat.neg_zero; JNum (PrimFloat.div (num 1) (num 10));
           JNum (PrimFloat.add (PrimFloat.div (num 1) (num 10))
                   (PrimFloat.div (num 2) (num 10)));
           JNum (num (10 ^ 21)); JNum (PrimFloat.div (num 1) (num 10000000));
           JNum PrimFloat.infinity; JNum PrimFloat.nan])
  = "[1.5,1000,0,0.1,0.30000000000000004,1e+21,1e-7,null,null]".
Proof. vm_compute. reflexivity. Qed.

Example codec_refuses_bad_numbers :
  List.map RefJSON.parse ["01"; "1."; ".5"; "1e"; "+1"; "-"; "0x10"; "1e+"]
  = [None; None; None; None; None; None; None; None].
Proof. vm_compute. reflexivity. Qed.

Example codec_escapes_controls :
  RefJSON.stringify (JStr (String (ascii_of_nat 8) (String (ascii_of_nat 12)
                             (String (ascii_of_nat 1) EmptyString))))
  = String RefJSON.dquote
      (String RefJSON.backslash (String "b"
         (String RefJSON.backslash (String "f"
            (String RefJSON.backslash ("u0001" ++ String RefJSON.dquote EmptyString)))))).
Proof. vm_compute. reflexivity. Qed.

Example codec_orders_keys :
  RefJSON.stringify
    (default JNull
       (RefJSON.parse
          (RefJSON.stringify
             (JObj [("b", JNum (num 1)); ("10", JNum (num 2)); ("b", JNum (num 3));
                    ("9", JNum (num 4)); ("01", JNum (num 5))]))))
  = RefJSON.stringify
      (JObj [("9", JNum (num 4)); ("10", JNum (num 2)); ("b", JNum (num 3));
             ("01", JNum (num 5))]).
Proof. vm_compute. reflexivity. Qed.

Example codec_refuses_empty : RefJSON.parse "" = None.
Proof. reflexivity. Qed.

Example codec_refuses_garbage : RefJSON.parse "{energyLevel" = None.
Proof. vm_compute. reflexivity. Qed.

Example codec_reads_array :
  RefJSON.parse " [1, -20, true, null, {}, [] ] "
  = Some (JArr [JNum (num 1); JNum (num (-20)); JBool true; JNull; JObj []; JArr []]).
Proof. vm_compute. reflexivity. Qed.

Example firstVisit_is_initial : app firstVisit = initialState.
Proof. vm_compute. reflexivity. Qed.

Example atStudy_phase : phase (app atStudy) = ActivityChosen.
Proof. vm_compute. reflexivity. Qed.

Example counting_world :
  phase (app counting) = TimerRunning /\ timeRemaining (app counting) = 1500
  /\ timerRef (env counting) = Some 1%nat /\ intervals (env counting) = [1%nat].
Proof. vm_compute. repeat split. Qed.

Example prompting_world :
  phase (app prompting) = FeedbackPrompt /\ timeRemaining (app prompting) = 0
  /\ intervals (env prompting) = [] /\ isAuthenticated (app prompting) = true.
Proof. vm_compute. repeat split. Qed.

Example garbage_is_no_session :
  exists w,
    mount (J := RefJSON.codec) "09:30" {[ SESSION_KEY := "{energyLevel" ]} = Shown w
    /\ app w = initialState.
Proof. eexists. split; [reflexivity | vm_compute; reflexivity]. Qed.

(** ** More on reachable worlds *)

Lemma same_value_string (v : JsValue) (s : string) :
  same_value v (JStr s) = true <-> v = JStr s.
Proof.
  split.
  - destruct v; cbn; try discriminate. intros H. apply String.eqb_eq in H. now subst.
  - intros ->. apply String.eqb_refl.
Qed.


Lemma timerDuration_handle ev w :
  timerDuration (app (handle ev w))
  = match ev with SetDuration d => d | _ => timerDuration (app w) end.
Proof.
  destruct ev; try reflexivity; try (destruct a; reflexivity).
  cbn [handle app]. unfold tick. destruct (_ <=? _); reflexivity.
Qed.

Lemma session_fields_handle ev w :
  match ev with
  | SelectEnergy _ | SelectActivity _ | NewCheckIn | SubmitFeedback _ => True
  | _ => energyLevel (app (handle ev w)) = energyLevel (app w)
         /\ currentActivity (app (handle ev w)) = currentActivity (app w)
         /\ showReflection (app (handle ev w)) = showReflection (app w)
  end.
Proof.
  destruct ev; try exact I; try (repeat split; reflexivity).
  cbn [handle app]. unfold tick. destruct (_ <=? _); repeat split; reflexivity.
Qed.

Lemma showTimer_handle ev w :
  match ev with
  | SelectActivity _ | NewCheckIn | SubmitFeedback _ | StartTimer => True
  | _ => showTimer (app (handle ev w)) = showTimer (app w)
  end.
Proof.
  destruct ev; try exact I; try reflexivity.
  cbn [handle app]. unfold tick. destruct (_ <=? _); reflexivity.
Qed.

Lemma ReflectOk_handle ev w :
  ReflectOk (app w) -> enabled w ev = true -> ReflectOk (app (handle ev w)).
Proof.
  intros [Hpanel Hreflect] Hen.
  pose proof (session_fields_handle ev w) as Hsess.
  pose proof (showTimer_handle ev w) as Hshow.
  destruct ev;
    try (destruct Hsess as (Hel & Hca & Hsr); constructor;
         rewrite ?Hel, ?Hca, ?Hsr, ?Hshow; assumption).
  - (* SelectEnergy *)
    unfold enabled in Hen. apply bool_decide_eq_true, phase_Idle in Hen.
    constructor; cbn.
    + intros Hsr. destruct (Hpanel Hsr) as [_ Hel]. congruence.
    + discriminate.
  - (* SelectActivity *)
    unfold enabled in Hen. apply bool_decide_eq_true, phase_EnergyChosen in Hen.
    destruct Hen as [Hel Hca].
    assert (Hsr : showReflection (app w) = false).
    { destruct (showReflection (app w)) eqn:E; [| reflexivity].
      destruct (Hpanel eq_refl) as [Hr _]. rewrite Hr in Hca. discriminate. }
    destruct a; constructor; cbn; rewrite ?Hsr; try discriminate; auto.
  - (* NewCheckIn *)
    constructor; cbn; discriminate.
  - (* StartTimer *)
    unfold enabled, timerSetupShown in Hen. apply andb_true_iff in Hen as [_ Hdiff].
    unfold differs_from_string in Hdiff. apply negb_true_iff in Hdiff.
    assert (Hnot : currentActivity (app w) <> JStr "reflect").
    { intros Heq. apply same_value_string in Heq. congruence. }
    constructor; cbn.
    + intros Hsr. destruct (Hpanel Hsr) as [Hr _]. contradiction.
    + intros Heq. contradiction.
  - (* SubmitFeedback *)
    constructor; cbn; discriminate.
Qed.

Section Reachable1.
Context `{J : JSON}.

Lemma reachable_duration w : reachable w -> durationOffered (timerDuration (app w)) = true.
Proof.
  induction 1 as [now ls w Hm | now ev w _ IH Hen].
  - apply mount_Shown in Hm as [-> _]. rewrite app_mount.
    destruct (loadEffect_frame initialState (freshEnv ls)) as ((_ & -> & _) & _).
    reflexivity.
  - rewrite app_fire, timerDuration_handle.
    destruct ev; try exact IH.
    unfold enabled in Hen. now apply andb_true_iff in Hen as [_ Hd].
Qed.

Lemma reachable_ReflectOk w : reachable w -> ReflectOk (app w).
Proof.
  induction 1 as [now ls w Hm | now ev w _ IH Hen].
  - apply mount_Shown in Hm as [-> _]. rewrite app_mount.
    destruct (loadEffect_frame initialState (freshEnv ls))
      as ((Hst & _) & (Hsr & _) & _).
    constructor; rewrite ?Hst, ?Hsr; cbn; [discriminate | reflexivity].
  - rewrite app_fire. now apply ReflectOk_handle.
Qed.

End Reachable1.

(** ** Sample runs are reachable *)

Lemma reachable_firstVisit : reachable (J := RefJSON.codec) firstVisit.
Proof. apply (reach_mount "08:59" ∅). reflexivity. Defined.

Lemma reachable_atStudy : reachable (J := RefJSON.codec) atStudy.
Proof. do 2 (apply reach_fire; [| reflexivity]). exact reachable_firstVisit. Defined.

Lemma reachable_timerShown : reachable (J := RefJSON.codec) timerShown.
Proof. apply reach_fire; [exact reachable_atStudy | reflexivity]. Defined.

Lemma reachable_counting : reachable (J := RefJSON.codec) counting.
Proof. apply reach_fire; [exact reachable_timerShown | reflexivity]. Defined.

Lemma reachable_configured : reachable (J := RefJSON.codec) configured.
Proof. do 2 (apply reach_fire; [| reflexivity]). exact reachable_atStudy. Defined.

Section Claims.
Context `{J : JSON}.

(** C2. The countdown. In every reachable world the remaining seconds lie
    between 0 and the configured minutes times 60, and the interval
    callback can fire exactly when the timer is running. When it fires,
    more than 0 seconds remained and one second fewer remains afterwards.
    The session was not complete before; reaching 0 stops the timer,
    marks the session complete and cancels the interval, so that no
    further tick fires (and the callback, were it called again, would
    change nothing); above 0 the timer keeps running and the session stays
    incomplete. Letting every remaining second tick ends at 0, stopped
    and complete. *)
Theorem timer_tick_behaviour now w :
  reachable w ->
  0 <= timeRemaining (app w) <= timerDuration (app w) * 60
  /\ enabled w Tick = isTimerRunning (app w)
  /\ (enabled w Tick = true ->
      let w' := fire now Tick w in
      0 < timeRemaining (app w)
      /\ timeRemaining (app w') = timeRemaining (app w) - 1
      /\ 0 <= timeRemaining (app w') <= timerDuration (app w') * 60
      /\ sessionComplete (app w) = false
      /\ (timeRemaining (app w') = 0 ->
          isTimerRunning (app w') = false /\ sessionComplete (app w') = true
          /\ enabled w' Tick = false /\ tick (app w') = app w')
      /\ (0 < timeRemaining (app w') ->
          isTimerRunning (app w') = true /\ sessionComplete (app w') = false)
      /\ let done := run (repeat (now, Tick) (Z.to_nat (timeRemaining (app w)))) w in
         timeRemaining (app done) = 0 /\ isTimerRunning (app done) = false
         /\ sessionComplete (app done) = true /\ enabled done Tick = false).
Proof.
  intros Hreach.
  pose proof (reachable_Inv w Hreach) as Hinv.
  split; [apply Hinv |].
  split; [apply interval_iff_running; exact Hinv |].
  intros Hen w'.
  destruct (tick_step now w Hreach Hen) as (_ & Hpos & Hsc & Hdec & Htd & Hzero & Hmore).
  assert (Hreach' : reachable w') by (constructor; assumption).
  pose proof (reachable_Inv w' Hreach') as [Ht' _].
  pose proof (countdown_completes now (Z.to_nat (timeRemaining (app w))) w Hreach Hen
                ltac:(lia)) as (_ & Hdone).
  split; [exact Hpos |].
  split; [exact Hdec |].
  split; [apply Ht' |].
  split; [exact Hsc |].
  split; [exact Hzero |].
  split; [| exact Hdone].
  intros Hgt. destruct (Hmore Hgt) as (? & ? & _). auto.
Qed.

(** C6. Starting the timer. In a reachable world that shows the chosen
    activity and where the activity is study or rest, the Start Timer
    button is there; pressing it sets the remaining seconds to the
    configured minutes times 60, leaves the session incomplete, shows the
    countdown and does not count yet: the timer is not running and no
    interval is active. With 25 minutes that is 1500 seconds, and after
    play one tick leaves 1499. *)
Theorem startTimer_behaviour now w :
  reachable w -> phase (app w) = ActivityChosen ->
  currentActivity (app w) = JStr "study" \/ currentActivity (app w) = JStr "rest" ->
  enabled w StartTimer = true
  /\ let w' := fire now StartTimer w in
     timeRemaining (app w') = timerDuration (app w) * 60
     /\ sessionComplete (app w') = false
     /\ phase (app w') = TimerRunning
     /\ isTimerRunning (app w') = false
     /\ enabled w' Tick = false
     /\ (timerDuration (app w) = 25 ->
         timeRemaining (app w') = 1500
         /\ forall t1 t2,
              let playing := fire t1 PlayPause w' in
              enabled w' PlayPause = true
              /\ isTimerRunning (app playing) = true
              /\ enabled playing Tick = true
              /\ timeRemaining (app (fire t2 Tick playing)) = 1499).
Proof.
  intros Hreach Hphase Hact.
  pose proof (reachable_Inv w Hreach) as [Ht _].
  destruct (phase_ActivityChosen _ Hphase) as (Hel & Hca & Hst & Hsf).
  destruct (ok_hidden _ Ht Hst) as (Hrun & Htr & Hsc & _).
  assert (Hen : enabled w StartTimer = true).
  { cbn. unfold timerSetupShown. rewrite Hphase.
    destruct Hact as [-> | ->]; reflexivity. }
  split; [exact Hen |]. intros w'.
  assert (Hreach' : reachable w') by (constructor; assumption).
  pose proof (reachable_Inv w' Hreach') as Hinv'.
  assert (Happ : app w' = handleStartTimer (app w)) by reflexivity.
  assert (Hphase' : phase (app w') = TimerRunning).
  { rewrite Happ. unfold phase, handleStartTimer. cbn.
    rewrite Hel, Hca, Hsf. reflexivity. }
  assert (Hrun' : isTimerRunning (app w') = false) by (rewrite Happ; exact Hrun).
  assert (Htr' : timeRemaining (app w') = timerDuration (app w) * 60)
    by (rewrite Happ; reflexivity).
  split; [exact Htr' |].
  split; [rewrite Happ; reflexivity |].
  split; [exact Hphase' |].
  split; [exact Hrun' |].
  split; [rewrite (interval_iff_running w' Hinv'); exact Hrun' |].
  intros H25. split; [lia |]. intros t1 t2 playing.
  assert (Hplay : enabled w' PlayPause = true)
    by (unfold enabled; rewrite Hphase'; reflexivity).
  assert (Hreach2 : reachable playing) by (constructor; assumption).
  assert (Hrun2 : isTimerRunning (app playing) = true).
  { change (app playing) with (handlePlayPause (app w')).
    unfold handlePlayPause, setIsTimerRunning. cbn [isTimerRunning].
    now rewrite Hrun'. }
  assert (Hen2 : enabled playing Tick = true).
  { rewrite (interval_iff_running playing (reachable_Inv _ Hreach2)). exact Hrun2. }
  split; [exact Hplay |]. split; [exact Hrun2 |]. split; [exact Hen2 |].
  destruct (tick_step t2 playing Hreach2 Hen2) as (_ & _ & _ & Hdec & _).
  rewrite Hdec.
  change (timeRemaining (app playing)) with (timeRemaining (app w')). lia.
Qed.

(** C3, as the code has it. The energy buttons are rendered only in
    [Idle], so an energy level is selected there and nowhere else.
    Pressing one in a reachable world sets the energy level to the chosen
    one, clears the activity, shows the activity buttons, and overwrites
    the stored record. The timer is at rest afterwards (not shown, not
    running, 0 seconds, not complete, no prompt, no interval) because it
    already was: the handler itself leaves every field other than the
    energy level and the activity as it found it, so the configured
    duration, the Pomodoro switch and the signed-in flag are those the
    session before left, and the reflection panel stays closed. *)
Theorem selectEnergy_behaviour now e w :
  reachable w -> enabled w (SelectEnergy e) = true ->
  let w' := fire now (SelectEnergy e) w in
  phase (app w) = Idle
  /\ energyLevel (app w') = JStr (energy_string e)
  /\ currentActivity (app w') = JNull
  /\ phase (app w') = EnergyChosen
  /\ (showTimer (app w') = false /\ isTimerRunning (app w') = false
      /\ timeRemaining (app w') = 0 /\ sessionComplete (app w') = false
      /\ showFeedback (app w') = false)
  /\ (timerRef (env w') = None /\ intervals (env w') = [] /\ enabled w' Tick = false)
  /\ (timerDuration (app w') = timerDuration (app w)
      /\ pomodoroEnabled (app w') = pomodoroEnabled (app w)
      /\ isAuthenticated (app w') = isAuthenticated (app w)
      /\ showReflection (app w') = false)
  /\ localStorage (env w')
     = <[SESSION_KEY := JSON_stringify (sessionData (JStr (energy_string e)) JNull now)]>
         (localStorage (env w))
  /\ (forall v l, enabled v (SelectEnergy l) = true <-> phase (app v) = Idle)
  /\ (forall l s,
        showReflection (handleEnergySelect l s) = showReflection s
        /\ showTimer (handleEnergySelect l s) = showTimer s
        /\ timerDuration (handleEnergySelect l s) = timerDuration s
        /\ timeRemaining (handleEnergySelect l s) = timeRemaining s
        /\ isTimerRunning (handleEnergySelect l s) = isTimerRunning s
        /\ pomodoroEnabled (handleEnergySelect l s) = pomodoroEnabled s
        /\ sessionComplete (handleEnergySelect l s) = sessionComplete s
        /\ showFeedback (handleEnergySelect l s) = showFeedback s
        /\ isAuthenticated (handleEnergySelect l s) = isAuthenticated s).
Proof.
  intros Hreach Hen w'.
  assert (Hphase : phase (app w) = Idle)
    by (unfold enabled in Hen; now apply bool_decide_eq_true in Hen).
  pose proof (proj1 (phase_Idle _) Hphase) as Hel.
  pose proof (reachable_Inv w Hreach) as [Ht _].
  assert (Hst : showTimer (app w) = false) by (apply (ok_early _ Ht); now rewrite Hel).
  destruct (ok_hidden _ Ht Hst) as (Hrun & Htr & Hsc & Hsf).
  assert (Hreach' : reachable w') by (constructor; assumption).
  pose proof (reachable_Inv w' Hreach') as Hinv'.
  assert (Hrun' : isTimerRunning (app w') = false) by exact Hrun.
  assert (Hsr : showReflection (app w) = false).
  { destruct (showReflection (app w)) eqn:Hsr; [| reflexivity].
    destruct (ok_panel _ (reachable_ReflectOk w Hreach) Hsr) as [_ Hel'].
    congruence. }
  split; [exact Hphase |].
  split; [reflexivity |]. split; [reflexivity |].
  split.
  { apply phase_EnergyChosen. split; [apply energy_string_truthy | reflexivity]. }
  split; [repeat split; assumption |].
  split.
  { destruct Hinv' as [_ Hi']. destruct (ok_no_interval _ _ Hi' Hrun') as [Hr Hl].
    repeat split; try assumption.
    rewrite (interval_iff_running w'); [exact Hrun' | now apply reachable_Inv]. }
  split; [repeat split; exact Hsr |].
  split.
  { apply storage_after_energy. apply falsy_not_string;
      [exact Hel | apply energy_string_nonempty]. }
  split.
  { intros v l. unfold enabled. apply bool_decide_eq_true. }
  intros l s. repeat split.
Qed.

(** C4. Without an energy level no activity can be selected. The
    activity buttons, the only callers of [handleActivitySelect], are
    rendered only when an energy level is set and no activity is chosen.
    In a world with no energy level the energy buttons are on screen and
    the selection is not on offer, whichever the activity; whatever is on
    offer there leaves the activity as it is or clears it. Where the
    selection is on offer an energy level is set, and the step sets the
    activity and keeps the energy level. *)
Theorem selectActivity_needs_energy now w :
  truthy (energyLevel (app w)) = false ->
  phase (app w) = Idle
  /\ (forall a, enabled w (SelectActivity a) = false)
  /\ (forall ev, enabled w ev = true ->
        currentActivity (app (fire now ev w)) = currentActivity (app w)
        \/ currentActivity (app (fire now ev w)) = JNull)
  /\ (forall v a, enabled v (SelectActivity a) = true ->
        truthy (energyLevel (app v)) = true /\ truthy (currentActivity (app v)) = false
        /\ energyLevel (app (fire now (SelectActivity a) v)) = energyLevel (app v)
        /\ currentActivity (app (fire now (SelectActivity a) v))
           = JStr (activity_string a)).
Proof.
  intros Hel.
  assert (Hphase : phase (app w) = Idle) by now apply phase_Idle.
  assert (Hoff : forall a, enabled w (SelectActivity a) = false).
  { intros a. unfold enabled. apply bool_decide_eq_false. rewrite Hphase. discriminate. }
  split; [exact Hphase |]. split; [exact Hoff |]. split.
  - intros ev Hen. rewrite app_fire.
    destruct ev; try (left; reflexivity); try (right; reflexivity).
    + rewrite Hoff in Hen. discriminate.
    + left. cbn [handle app]. unfold tick.
      destruct (timeRemaining (app w) <=? 1); reflexivity.
  - intros v a Hen. unfold enabled in Hen. apply bool_decide_eq_true in Hen.
    apply phase_EnergyChosen in Hen as [Hel' Hca].
    rewrite app_fire. cbn [handle app].
    destruct (handleActivitySelect_session a (app v)) as [-> ->].
    repeat split; assumption.
Qed.

(** C5, as the code has it. [handleReset], from any world, clears the
    energy level, the activity and the timer sub-state, keeps the timer
    configuration (duration and Pomodoro switch) and the signed-in flag,
    shows the energy buttons again and removes the stored record, so that
    a fresh instance mounted over that storage comes on screen in the
    initial state. From a reachable world no interval is left behind. *)
Theorem reset_behaviour now w :
  let w' := fire now NewCheckIn w in
  (energyLevel (app w') = JNull /\ currentActivity (app w') = JNull
   /\ showReflection (app w') = false /\ showTimer (app w') = false
   /\ isTimerRunning (app w') = false /\ timeRemaining (app w') = 0
   /\ sessionComplete (app w') = false /\ showFeedback (app w') = false)
  /\ (timerDuration (app w') = timerDuration (app w)
      /\ pomodoroEnabled (app w') = pomodoroEnabled (app w)
      /\ isAuthenticated (app w') = isAuthenticated (app w))
  /\ phase (app w') = Idle
  /\ localStorage (env w') = delete SESSION_KEY (localStorage (env w))
  /\ (forall now',
        exists fresh,
          mount now' (localStorage (env w')) = Shown fresh /\ app fresh = initialState)
  /\ (reachable w ->
      timerRef (env w') = None /\ intervals (env w') = [] /\ enabled w' Tick = false).
Proof.
  intros w'.
  assert (Hstore : localStorage (env w') = delete SESSION_KEY (localStorage (env w))).
  { unfold w'. rewrite env_fire. rewrite storage_kept by reflexivity.
    cbn [handle handleReset env]. unfold setLocalStorage. cbn [localStorage].
    f_equal. apply clearTimer_frame. }
  split; [repeat split |]. split; [repeat split |]. split; [reflexivity |].
  split; [exact Hstore |]. split.
  - intros now'. exists (mounted now' (localStorage (env w'))).
    assert (Hnone : localStorage (env w') !! SESSION_KEY = None)
      by (rewrite Hstore; apply lookup_delete_eq).
    apply mount_initial. rewrite <- (app_mount now').
    now apply mount_without_record.
  - intros Hreach.
    pose proof (reachable_Inv w Hreach) as [_ Hi].
    destruct (clearTimer_stops _ _ Hi) as (Href & Hivs & Hnh).
    assert (Hidle : IntervalOk (app (handle NewCheckIn w))
              (commitTimer (app w) (app (handle NewCheckIn w))
                 (env (handle NewCheckIn w)))).
    { apply commitTimer_idle; cbn; auto. destruct Hi as [_ _ Hh]. lia. }
    destruct (ok_no_interval _ _ Hidle eq_refl) as [Hr Hl].
    destruct (commit_timer now (app w) (app (handle NewCheckIn w))
                (env (handle NewCheckIn w))) as (Hr' & Hl' & _).
    assert (Hivs' : intervals (env w') = [])
      by (unfold w'; rewrite env_fire, Hl'; exact Hl).
    split; [unfold w'; rewrite env_fire, Hr'; exact Hr |].
    split; [exact Hivs' |]. unfold enabled. now rewrite Hivs'.
Qed.

(** C1. Submitting feedback. From the feedback prompt, for every choice
    including Skip, the next state is [Idle] with the session cleared;
    it is computed from the world before alone, the outcome of the sync
    call is no input to it. Exactly one call of [syncSession] is started
    when the user is signed in (none otherwise), with the energy level,
    the activity, the configured minutes and the feedback. However that
    call ends -- it returns, it throws, it never settles -- the state
    stays as it is. *)
Theorem submitFeedback_behaviour now f w :
  phase (app w) = FeedbackPrompt ->
  let w' := fire now (SubmitFeedback f) w in
  let r := sessionRecord (app w) (feedback_string <$> f) in
  phase (app w') = Idle
  /\ (energyLevel (app w') = JNull /\ currentActivity (app w') = JNull
      /\ showFeedback (app w') = false /\ sessionComplete (app w') = false
      /\ showTimer (app w') = false /\ isTimerRunning (app w') = false
      /\ timeRemaining (app w') = 0)
  /\ syncCalls (env w')
     = (syncCalls (env w) ++ (if isAuthenticated (app w) then [r] else []))%list
  /\ (energy_level r = energyLevel (app w) /\ activity r = currentActivity (app w)
      /\ duration_minutes r = Some (timerDuration (app w))
      /\ feedback r = feedback_string <$> f)
  /\ (forall c : Completion bool,
        app (settleSync c w') = app w' /\ phase (app (settleSync c w')) = Idle)
  /\ (forall client t,
        app (settleSync (Supabase.completion (Supabase.syncSession client t r)) w')
        = app w').
Proof.
  intros Hphase w' r.
  destruct (phase_FeedbackPrompt _ Hphase) as (Hel & Hca & _).
  assert (Hsettle : forall c : Completion bool, app (settleSync c w') = app w').
  { intros [b | err |]; reflexivity. }
  split; [reflexivity |]. split; [repeat split |]. split.
  - unfold w'. rewrite env_fire.
    destruct (commit_log now (app w) (app (handle (SubmitFeedback f) w))
                (env (handle (SubmitFeedback f) w))) as [_ ->].
    cbn [handle handleCompleteFeedback handleReset env].
    unfold setLocalStorage. cbn [syncCalls].
    destruct (clearTimer_frame
                (if isAuthenticated (app w) && truthy (energyLevel (app w))
                    && truthy (currentActivity (app w))
                 then startSync (sessionRecord (app w) (feedback_string <$> f)) (env w)
                 else env w)) as (_ & _ & _ & ->).
    rewrite Hel, Hca, !andb_true_r.
    destruct (isAuthenticated (app w)); cbn; [reflexivity | now rewrite app_nil_r].
  - split; [repeat split |]. split.
    + intros c. rewrite Hsettle. split; reflexivity.
    + intros client t. apply Hsettle.
Qed.

(** C7. Persist and reload. On a platform whose [JSON.parse] reads back
    what [JSON.stringify] wrote for the record (and refuses the empty
    string), selecting high energy and then study, from any world,
    leaves under [SESSION_KEY] the serialised record, and a fresh
    instance mounted over that storage comes on screen with high and
    study. Every
    energy or activity selection the UI offers overwrites the entry under
    that one key with the new record, whatever was stored before. *)
Theorem persist_reload_roundtrip t1 t2 t3 w :
  let record := sessionData (JStr "high") (JStr "study") t2 in
  JSON_parse "" = None ->
  JSON_parse (JSON_stringify record) = Some record ->
  let w2 := fire t2 (SelectActivity study) (fire t1 (SelectEnergy high) w) in
  (energyLevel (app w2) = JStr "high" /\ currentActivity (app w2) = JStr "study")
  /\ localStorage (env w2) !! SESSION_KEY = Some (JSON_stringify record)
  /\ (exists w3,
        mount t3 (localStorage (env w2)) = Shown w3
        /\ energyLevel (app w3) = JStr "high"
        /\ currentActivity (app w3) = JStr "study")
  /\ (forall now e v,
        enabled v (SelectEnergy e) = true ->
        localStorage (env (fire now (SelectEnergy e) v))
        = <[SESSION_KEY := JSON_stringify
                             (sessionData (JStr (energy_string e)) JNull now)]>
            (localStorage (env v)))
  /\ (forall now a v,
        enabled v (SelectActivity a) = true ->
        localStorage (env (fire now (SelectActivity a) v))
        = <[SESSION_KEY := JSON_stringify
                             (sessionData (energyLevel (app v))
                                (JStr (activity_string a)) now)]>
            (localStorage (env v))).
Proof.
  intros record Hempty Hround w2.
  assert (Hstore : localStorage (env w2) !! SESSION_KEY = Some (JSON_stringify record)).
  { unfold w2. rewrite storage_after_activity; [| reflexivity | reflexivity].
    apply lookup_insert_eq. }
  split; [split; reflexivity |]. split; [exact Hstore |]. split; [| split].
  - assert (Hne : JSON_stringify record <> "").
    { intros Heq. rewrite Heq in Hround. congruence. }
    destruct (mount_with_record t3 _ _ record Hstore Hne Hround) as [Happ _];
      [discriminate | discriminate |].
    exists (mounted t3 (localStorage (env w2))). rewrite Happ.
    split; [| split; reflexivity].
    apply mount_shown. rewrite <- (app_mount t3), Happ. reflexivity.
  - intros now e v Hen. unfold enabled in Hen. apply bool_decide_eq_true in Hen.
    apply storage_after_energy, falsy_not_string;
      [now apply phase_Idle | apply energy_string_nonempty].
  - intros now a v Hen. unfold enabled in Hen. apply bool_decide_eq_true in Hen.
    apply phase_EnergyChosen in Hen as [Hel Hca].
    apply storage_after_activity.
    + apply falsy_not_string; [exact Hca | apply activity_string_nonempty].
    + now rewrite Hel.
Qed.

(** C10, as the code has it. The load effect checks nothing beyond the
    parse. For a stored text that parses to a value other than [null],
    it calls the two setters with whatever that value holds under
    [energyLevel] and [currentActivity] ([undefined] for a missing
    member), whether or not they belong to the enumerations, and logs
    nothing: these are the session fields of the next render. A text
    that parses to [null] makes the property read throw inside the same
    [try]: the error is logged and no setter has been called. *)
Theorem load_injects_parsed_fields s e payload v :
  localStorage e !! SESSION_KEY = Some payload -> payload <> "" ->
  JSON_parse payload = Some v ->
  (v <> JNull -> v <> JUndefined ->
   loadEffect s e
   = (setCurrentActivity (member v "currentActivity")
        (setEnergyLevel (member v "energyLevel") s), e)
   /\ energyLevel (fst (loadEffect s e)) = member v "energyLevel"
   /\ currentActivity (fst (loadEffect s e)) = member v "currentActivity")
  /\ (v = JNull \/ v = JUndefined ->
      loadEffect s e = (s, log (ConsoleError "Failed to load session") e)).
Proof.
  intros Hsome Hne Hparse.
  unfold loadEffect. rewrite Hsome. apply String.eqb_neq in Hne. rewrite Hne.
  cbn [negb]. rewrite Hparse. split.
  - intros Hnull Hundef. destruct v; try congruence; repeat split.
  - intros [-> | ->]; reflexivity.
Qed.

End Claims.

(** ** Cloud sync *)

Section Sync.
Import Supabase.


(** C9, as the code has it. Every row [syncSession] tries to insert
    carries in [created_at] the client's clock reading taken when the row
    was built, in place of whatever the session record held there; with
    a signed-in user there is exactly one such row, stamped with that
    user's id and otherwise equal to the session record. *)
Theorem inserted_row_carries_client_time client now session :
  let r := syncSession client now session in
  Forall (fun row => created_at row = Some now) (insertedRows r)
  /\ (forall sb user,
        client = Some sb -> auth_getUser sb = Resolved (Some user) ->
        insertedRows r = [insertRow session user now]
        /\ created_at (insertRow session user now) = Some now
        /\ user_id (insertRow session user now) = Some (uid user)
        /\ energy_level (insertRow session user now) = energy_level session
        /\ activity (insertRow session user now) = activity session
        /\ duration_minutes (insertRow session user now) = duration_minutes session
        /\ feedback (insertRow session user now) = feedback session).
Proof.
  intros r. unfold r, syncSession. split.
  - destruct client as [sb |]; [| constructor].
    destruct (auth_getUser sb) as [[user |] | e |]; try constructor.
    destruct (sessions_insert sb _) as [[m |] | e |]; repeat constructor.
  - intros sb user -> ->.
    split; [| repeat split].
    destruct (sessions_insert sb _) as [[m |] | e |]; reflexivity.
Qed.

End Sync.

(** ** The claims on concrete runs *)

(** The first tick of the 25-minute timer. *)
Lemma timer_tick_witness :
  timeRemaining (app counting) = 1500
  /\ timeRemaining (app (fire (J := RefJSON.codec) "09:04" Tick counting)) = 1499.
Proof.
  destruct (timer_tick_behaviour (J := RefJSON.codec) "09:04" counting reachable_counting)
    as (_ & _ & Htick).
  destruct (Htick eq_refl) as (_ & Hdec & _).
  split; [reflexivity | exact Hdec].
Defined.

(** Skipping the prompt while signed in. *)
Lemma submitFeedback_witness :
  phase (app prompting) = FeedbackPrompt
  /\ phase (app (fire (J := RefJSON.codec) "09:09" (SubmitFeedback None) prompting)) = Idle
  /\ length (syncCalls (env (fire (J := RefJSON.codec) "09:09" (SubmitFeedback None) prompting)))
     = 1%nat.
Proof.
  assert (Hphase : phase (app prompting) = FeedbackPrompt) by (vm_compute; reflexivity).
  destruct (submitFeedback_behaviour (J := RefJSON.codec) "09:09" None prompting Hphase)
    as (Hidle & _ & Hsync & _).
  split; [exact Hphase |]. split; [exact Hidle |].
  rewrite Hsync. vm_compute. reflexivity.
Defined.

(** The first energy selection of a first visit. *)
Lemma selectEnergy_witness :
  energyLevel (app (fire (J := RefJSON.codec) "09:00" (SelectEnergy high) firstVisit))
  = JStr "high"
  /\ currentActivity (app (fire (J := RefJSON.codec) "09:00" (SelectEnergy high) firstVisit))
     = JNull.
Proof.
  destruct (selectEnergy_behaviour (J := RefJSON.codec) "09:00" high firstVisit
              reachable_firstVisit eq_refl) as (_ & Hel & Hca & _).
  split; [exact Hel | exact Hca].
Defined.

(** Starting the default timer after choosing to study. *)
Lemma startTimer_witness :
  timeRemaining (app timerShown) = 1500
  /\ isTimerRunning (app timerShown) = false
  /\ timeRemaining (app (fire (J := RefJSON.codec) "09:04" Tick counting)) = 1499.
Proof.
  destruct (startTimer_behaviour (J := RefJSON.codec) "09:02" atStudy
              reachable_atStudy eq_refl (or_introl eq_refl))
    as (_ & _ & _ & _ & Hrun & _ & H25).
  destruct (H25 eq_refl) as (H1500 & Hplay).
  destruct (Hplay "09:03" "09:04") as (_ & _ & _ & H1499).
  split; [exact H1500 |]. split; [exact Hrun | exact H1499].
Defined.

(** High energy, study, reload, with the reference codec. *)
Lemma persist_reload_witness :
  let stored :=
    localStorage (env (fire (J := RefJSON.codec) "09:01" (SelectActivity study)
                         (fire (J := RefJSON.codec) "09:00" (SelectEnergy high)
                            firstVisit))) in
  exists w3,
    mount (J := RefJSON.codec) "09:30" stored = Shown w3
    /\ energyLevel (app w3) = JStr "high"
    /\ currentActivity (app w3) = JStr "study".
Proof.
  intros stored.
  destruct (persist_reload_roundtrip (J := RefJSON.codec) "09:00" "09:01" "09:30"
              firstVisit eq_refl eq_refl) as (_ & _ & Hreload & _).
  exact Hreload.
Defined.

(** A stored record with values outside the enumerations: a fraction
    and an object. *)
Lemma load_witness :
  JSON_parse (JSON := RefJSON.codec) (RefJSON.stringify looseRecord) = Some looseRecord
  /\ energyLevel (fst (loadEffect (J := RefJSON.codec) initialState (freshEnv looseStorage)))
     = JNum (PrimFloat.div (num 3) (num 2))
  /\ currentActivity
       (fst (loadEffect (J := RefJSON.codec) initialState (freshEnv looseStorage)))
     = JObj [("kind", JStr "nap")].
Proof.
  assert (Hparse : JSON_parse (JSON := RefJSON.codec) (RefJSON.stringify looseRecord)
                   = Some looseRecord) by (vm_compute; reflexivity).
  assert (Hne : RefJSON.stringify looseRecord <> "") by (vm_compute; discriminate).
  destruct (load_injects_parsed_fields (J := RefJSON.codec) initialState
              (freshEnv looseStorage) (RefJSON.stringify looseRecord) looseRecord
              eq_refl Hne Hparse) as [Hfields _].
  destruct Hfields as (_ & Hel & Hca); [discriminate | discriminate |].
  split; [exact Hparse |]. split; [exact Hel | exact Hca].
Defined.

(** C3 as stated fails twice over on a visit where 45 minutes and
    Pomodoro were set and a new check-in was asked for. While the first
    session's countdown runs no energy button is on screen. And the
    energy selection that follows the check-in keeps the configuration
    of the session before: the next timer starts at 2700 seconds, where
    a first session starts at 1500. *)
Lemma selectEnergy_carry_over_counterexample :
  let idle := fire (J := RefJSON.codec) "09:03" NewCheckIn configured in
  let w' := fire (J := RefJSON.codec) "09:04" (SelectEnergy low) idle in
  let next := [("09:05", SelectActivity study); ("09:06", StartTimer)] in
  reachable (J := RefJSON.codec) configured
  /\ enabled configured NewCheckIn = true
  /\ enabled idle (SelectEnergy low) = true
  /\ timerDuration (app w') = 45
  /\ pomodoroEnabled (app w') = true
  /\ timerDuration initialState = 25
  /\ pomodoroEnabled initialState = false
  /\ runnable (J := RefJSON.codec) next w' = true
  /\ timeRemaining (app (run (J := RefJSON.codec) next w')) = 2700
  /\ timeRemaining (app timerShown) = 1500
  /\ reachable (J := RefJSON.codec) counting
  /\ phase (app counting) = TimerRunning
  /\ enabled counting (SelectEnergy low) = false.
Proof.
  split; [exact reachable_configured |].
  do 9 (split; [vm_compute; reflexivity |]).
  split; [exact reachable_counting |].
  vm_compute. split; reflexivity.
Qed.

(** C4 on a first visit: no energy level, no activity button. *)
Lemma selectActivity_witness :
  truthy (energyLevel (app firstVisit)) = false
  /\ phase (app firstVisit) = Idle
  /\ enabled firstVisit (SelectActivity study) = false.
Proof.
  destruct (selectActivity_needs_energy (J := RefJSON.codec) "09:00" firstVisit eq_refl)
    as (Hphase & Hoff & _).
  split; [reflexivity |]. split; [exact Hphase | apply Hoff].
Defined.

(** C5 as stated fails after 45 minutes and Pomodoro were chosen: a
    reset keeps both, where the initial configuration is 25 and off. *)
Lemma reset_keeps_configuration_counterexample :
  let w' := fire (J := RefJSON.codec) "09:03" NewCheckIn configured in
  reachable (J := RefJSON.codec) configured
  /\ enabled configured NewCheckIn = true
  /\ timerDuration (app w') = 45
  /\ pomodoroEnabled (app w') = true
  /\ timerDuration initialState = 25
  /\ pomodoroEnabled initialState = false.
Proof. split; [exact reachable_configured |]. vm_compute. repeat split. Qed.


(** C9 as stated fails for a signed-in user: the record had no
    [created_at], the inserted row has the client's clock reading. *)
Lemma created_at_counterexample :
  let r := Supabase.syncSession (Supabase.supabase someConfig signedIn)
             "2026-01-05T09:09:00.000Z" studyRecord in
  Supabase.completion r = Returns true
  /\ created_at studyRecord = None
  /\ (exists row, Supabase.insertedRows r = [row]
                  /\ created_at row = Some "2026-01-05T09:09:00.000Z"
                  /\ created_at row <> None).
Proof. vm_compute. repeat split. eexists. repeat split. discriminate. Qed.

(** C10 as stated fails for the payload [null]: it parses, it has no
    [energyLevel], and the state keeps [null] where a missing field would
    read [undefined]. *)
Lemma load_null_payload_counterexample :
  JSON_parse (JSON := RefJSON.codec) "null" = Some JNull
  /\ member JNull "energyLevel" = JUndefined
  /\ loadEffect (J := RefJSON.codec) initialState (freshEnv nullStorage)
     = (initialState, log (ConsoleError "Failed to load session") (freshEnv nullStorage))
  /\ energyLevel initialState = JNull
  /\ currentActivity initialState = JNull
  /\ JNull <> JUndefined.
Proof. vm_compute. repeat split. discriminate. Qed.

(** * Further properties of the code *)

(** ** The clock text *)

Lemma clock_checked_all : forallb clockChecked (seq 0 (Z.to_nat 6000)) = true.
Proof. vm_compute. reflexivity. Qed.

Lemma formatTime_range (s : Z) :
  0 <= s < 6000 ->
  String.length (formatTime s) = 5%nat /\ clockSeconds (formatTime s) = Some s.
Proof.
  intros Hs.
  pose proof (proj1 (forallb_forall clockChecked (seq 0 (Z.to_nat 6000))) clock_checked_all
                (Z.to_nat s)) as Hcheck.
  assert (Hin : In (Z.to_nat s) (seq 0 (Z.to_nat 6000))) by (apply in_seq; lia).
  specialize (Hcheck Hin). unfold clockChecked in Hcheck.
  rewrite Z2Nat.id in Hcheck by lia.
  apply andb_true_iff in Hcheck as [Hlen Hread].
  apply Nat.eqb_eq in Hlen. split; [exact Hlen |].
  destruct (clockSeconds (formatTime s)) as [v |]; [| discriminate].
  apply Z.eqb_eq in Hread. now subst.
Qed.

(** X1. The clock text. For every number of seconds from 0 to 5999,
    [formatTime] gives a text of exactly five characters, minutes and
    seconds on two digits each around a colon, which reads back to the
    same number of seconds; so two different numbers of seconds in that
    range never show the same text. *)
Theorem formatTime_reads_back (a b : Z) :
  0 <= a < 6000 -> 0 <= b < 6000 ->
  String.length (formatTime a) = 5%nat
  /\ clockSeconds (formatTime a) = Some a
  /\ (formatTime a = formatTime b -> a = b).
Proof.
  intros Ha Hb.
  destruct (formatTime_range a Ha) as [Hlen Hread].
  destruct (formatTime_range b Hb) as [_ Hread'].
  split; [exact Hlen |]. split; [exact Hread |].
  intros Heq. rewrite Heq in Hread. congruence.
Qed.

Lemma formatTime_witness :
  String.length (formatTime 1499) = 5%nat
  /\ clockSeconds (formatTime 1499) = Some 1499
  /\ (formatTime 1499 = formatTime 1500 -> 1499 = 1500).
Proof. apply (formatTime_reads_back 1499 1500); lia. Defined.

Example formatTime_1499 : formatTime 1499 = "24:59".
Proof. vm_compute. reflexivity. Qed.

Example formatTime_zero : formatTime 0 = "00:00".
Proof. vm_compute. reflexivity. Qed.

Example formatTime_long : formatTime 6000 = "100:00".
Proof. vm_compute. reflexivity. Qed.

Example formatTime_negative : formatTime (-1) = "-1:-1".
Proof. vm_compute. reflexivity. Qed.

Section Display.
Context `{J : JSON}.

(** X2. The countdown on screen. In every reachable world the remaining
    time is shown as a five-character clock text that reads back to
    [timeRemaining]: the longest timer, 90 minutes, stays below the 100
    minutes at which the text would grow. *)
Theorem countdown_display w :
  reachable w ->
  String.length (formatTime (timeRemaining (app w))) = 5%nat
  /\ clockSeconds (formatTime (timeRemaining (app w))) = Some (timeRemaining (app w)).
Proof.
  intros Hreach. destruct (reachable_Inv w Hreach) as [Ht _].
  apply formatTime_range.
  pose proof (ok_duration _ Ht). pose proof (ok_remaining _ Ht). lia.
Qed.

End Display.

Lemma countdown_display_witness :
  String.length (formatTime (timeRemaining (app counting))) = 5%nat
  /\ clockSeconds (formatTime (timeRemaining (app counting)))
     = Some (timeRemaining (app counting)).
Proof. exact (countdown_display (J := RefJSON.codec) counting reachable_counting). Defined.

(** ** The recommendation *)

(** X3. The recommendation. [getRecommendation] returns a recommendation
    exactly when the energy level is one of the strings low, medium and
    high; each recommendation has three options, the last of which is
    Reflect, and a message. A truthy energy level other than these three
    (one restored from the storage) hides the energy buttons and has no
    recommendation. *)
Theorem getRecommendation_defined :
  (forall s, is_Some (getRecommendation s)
             <-> exists e, energyLevel s = JStr (energy_string e))
  /\ (forall s r, getRecommendation s = Some r ->
        length (options r) = 3%nat /\ last (options r) = Some "Reflect"
        /\ message r <> "")
  /\ (forall s, truthy (energyLevel s) = true ->
        (forall e, energyLevel s <> JStr (energy_string e)) ->
        phase s <> Idle /\ getRecommendation s = None).
Proof.
  split; [| split].
  - intros s. unfold getRecommendation. split.
    + intros [r Hr].
      destruct (truthy (energyLevel s)); [| discriminate]. cbn in Hr.
      destruct (energyLevel s) as [| | ? | ? | level | ? | ?]; try discriminate.
      destruct (String.eqb level "low") eqn:Elow;
        [apply String.eqb_eq in Elow; subst; now exists low |].
      destruct (String.eqb level "medium") eqn:Emed;
        [apply String.eqb_eq in Emed; subst; now exists medium |].
      destruct (String.eqb level "high") eqn:Ehigh;
        [apply String.eqb_eq in Ehigh; subst; now exists high |].
      discriminate.
    + intros [e ->]. destruct e; cbn; eauto.
  - intros s r. unfold getRecommendation.
    destruct (truthy (energyLevel s)); [| discriminate]. cbn.
    destruct (energyLevel s) as [| | ? | ? | level | ? | ?]; try discriminate.
    destruct (String.eqb level "low"); [intros [= <-]; cbn; repeat split; discriminate |].
    destruct (String.eqb level "medium"); [intros [= <-]; cbn; repeat split; discriminate |].
    destruct (String.eqb level "high"); [intros [= <-]; cbn; repeat split; discriminate |].
    discriminate.
  - intros s Hel Hodd. split.
    + intros Hidle. apply phase_Idle in Hidle. congruence.
    + unfold getRecommendation. rewrite Hel. cbn.
      destruct (energyLevel s) as [| | ? | ? | level | ? | ?]; try reflexivity.
      destruct (String.eqb level "low") eqn:Elow;
        [apply String.eqb_eq in Elow; subst; destruct (Hodd low); reflexivity |].
      destruct (String.eqb level "medium") eqn:Emed;
        [apply String.eqb_eq in Emed; subst; destruct (Hodd medium); reflexivity |].
      destruct (String.eqb level "high") eqn:Ehigh;
        [apply String.eqb_eq in Ehigh; subst; destruct (Hodd high); reflexivity |].
      reflexivity.
Qed.

Example odd_energy_has_no_recommendation :
  exists w,
    mount (J := RefJSON.codec) "09:30" oddStorage = Shown w
    /\ phase (app w) = ActivityChosen
    /\ getRecommendation (app w) = None.
Proof. eexists. split; [reflexivity | vm_compute; split; reflexivity]. Qed.

(** ** Reading the history *)

Section History.
Import Supabase SupabaseRead.

(** X4. [getUserSessions] never throws, and returns a list whenever the
    client's calls settle. Without a configured client it returns the
    empty list and calls nothing. With one: a signed-out user gives the
    empty list after the one [auth.getUser()]; a rejected [getUser] gives
    the empty list and a warning; for a signed-in user exactly one query
    follows, on the user's own id and with the limit given (10 when
    omitted), and a rejection or an error answer gives the empty list and
    a warning, missing data the empty list, data the rows as answered. *)
Theorem getUserSessions_never_raises cfg rd limitArg :
  let r := getUserSessions (reader cfg rd) limitArg in
  (forall err, outcome r <> Throws err)
  /\ (read_getUser rd <> Pending ->
      (forall q, sessions_select rd q <> Pending) ->
      exists rows, outcome r = Returns rows)
  /\ (isSupabaseConfigured cfg = false -> outcome r = Returns [] /\ asked r = [])
  /\ (isSupabaseConfigured cfg = true ->
      (read_getUser rd = Resolved None -> outcome r = Returns [] /\ asked r = [ReadUser])
      /\ (forall err, read_getUser rd = Rejected err ->
          outcome r = Returns [] /\ asked r = [ReadUser] /\ warned r <> [])
      /\ (forall user,
          read_getUser rd = Resolved (Some user) ->
          let q := userQuery user (default 10 limitArg) in
          asked r = [ReadUser; Select q]
          /\ eqValue q = uid user
          /\ (forall err, sessions_select rd q = Rejected err ->
              outcome r = Returns [] /\ warned r <> [])
          /\ (forall rows msg, sessions_select rd q = Resolved (mkAnswer rows (Some msg)) ->
              outcome r = Returns [] /\ warned r <> [])
          /\ (sessions_select rd q = Resolved (mkAnswer None None) ->
              outcome r = Returns [] /\ warned r = [])
          /\ (forall rows, sessions_select rd q = Resolved (mkAnswer (Some rows) None) ->
              outcome r = Returns rows /\ warned r = []))).
Proof.
  intros r. unfold r, getUserSessions, reader.
  split; [| split; [| split]].
  - intros err.
    destruct (isSupabaseConfigured cfg); [| discriminate].
    destruct (read_getUser rd) as [[user |] | e |]; try discriminate.
    destruct (sessions_select rd _) as [[d [m |]] | e |]; discriminate.
  - intros Hauth Hsel.
    destruct (isSupabaseConfigured cfg); [| eauto].
    destruct (read_getUser rd) as [[user |] | e |]; try (cbn; eauto); try congruence.
    specialize (Hsel (userQuery user (default 10 limitArg))).
    destruct (sessions_select rd _) as [[d [m |]] | e |]; cbn; eauto. congruence.
  - intros ->. split; reflexivity.
  - intros ->. split; [| split].
    + intros ->. split; reflexivity.
    + intros err ->. repeat split. discriminate.
    + intros user ->. split; [| split; [| split; [| split; [| split]]]].
      * destruct (sessions_select rd _) as [[d [m |]] | e |]; reflexivity.
      * reflexivity.
      * intros err ->. split; [reflexivity | discriminate].
      * intros rows msg ->. split; [reflexivity | discriminate].
      * intros ->. split; reflexivity.
      * intros rows ->. split; reflexivity.
Qed.

(** X5. Without configuration everything stays local. When the URL or the
    anon key is empty, [isSupabaseConfigured] is false and no function
    reaches the client, whatever it would answer: [syncSession] returns
    false and [getUserSessions] the empty list without a call, and the
    sign-in and sign-out handlers return at once with the state as it
    was. *)
Theorem unconfigured_is_local cfg sb rd au now session limitArg cs :
  supabaseUrl cfg = "" \/ supabaseAnonKey cfg = "" ->
  isSupabaseConfigured cfg = false
  /\ (completion (syncSession (supabase cfg sb) now session) = Returns false
      /\ calls (syncSession (supabase cfg sb) now session) = [])
  /\ (outcome (getUserSessions (reader cfg rd) limitArg) = Returns []
      /\ asked (getUserSessions (reader cfg rd) limitArg) = [])
  /\ (CloudSync.handleSignIn (CloudSync.auth cfg au) cs
      = CloudSync.mkRun cs [] 0 true
      /\ CloudSync.handleSignOut (CloudSync.auth cfg au) cs
         = CloudSync.mkRun cs [] 0 true).
Proof.
  intros Hempty.
  assert (Hcfg : isSupabaseConfigured cfg = false).
  { unfold isSupabaseConfigured. destruct Hempty as [-> | ->]; cbn;
      [reflexivity | apply andb_false_r]. }
  unfold supabase, reader, CloudSync.auth. rewrite Hcfg. repeat split.
Qed.

End History.

Lemma unconfigured_witness :
  Supabase.isSupabaseConfigured (Supabase.mkConfig "https://project.supabase.co" "") = false
  /\ Supabase.calls
       (Supabase.syncSession
          (Supabase.supabase (Supabase.mkConfig "https://project.supabase.co" "") signedIn)
          "2026-01-05T09:09:00.000Z" studyRecord) = [].
Proof.
  destruct (unconfigured_is_local (Supabase.mkConfig "https://project.supabase.co" "")
              signedIn
              (SupabaseRead.mkReader Supabase.Pending (fun _ => Supabase.Pending))
              (CloudSync.mkAuth (fun _ => Supabase.Pending) Supabase.Pending)
              "2026-01-05T09:09:00.000Z" studyRecord None CloudSync.initial
              (or_intror eq_refl)) as (Hcfg & [_ Hcalls] & _).
  split; [exact Hcfg | exact Hcalls].
Defined.

(** ** The journal *)

Section Journal.
Import Supabase SupabaseRead PastSessions.

(** X6. What the journal shows, each time its load effect runs (on mount
    and whenever the signed-in flag changes), from the state [s] the
    component is in. Signed out, it stops loading, keeps its sessions,
    shows the sign-in prompt and calls nothing. Signed in, it asks once
    for the last 20 sessions: the rows returned are listed, an empty
    answer shows that there are no sessions yet, and so does every
    failure of the client (no configuration, no user, a rejection, an
    error answer). While the call does not settle the state stays as it
    was, for the effect never sets the loading flag again: on the first
    run the loading text is shown, but after a signed-out run the
    component shows that there are no sessions yet while it is loading
    them. *)
Theorem pastSessions_views cfg rd s :
  let signedOutLoad := loadSessions false (reader cfg rd) s in
  let load := loadSessions true (reader cfg rd) s in
  let r := getUserSessions (reader cfg rd) (Some 20) in
  (fst signedOutLoad = PastSessions.mkState (sessions s) false
   /\ snd signedOutLoad = None
   /\ view false (fst signedOutLoad) = SignInPrompt)
  /\ snd load = Some r
  /\ (forall rows, outcome r = Returns rows ->
        fst load = PastSessions.mkState rows false
        /\ view true (fst load)
           = match rows with [] => NoSessions | _ => Journal rows end)
  /\ (outcome r = NeverSettles ->
      fst load = s
      /\ view true (fst load)
         = if loading s then Loading
           else match sessions s with [] => NoSessions | rows => Journal rows end)
  /\ (outcome r = NeverSettles ->
      view true (fst (loadSessions true (reader cfg rd) initial)) = Loading
      /\ view true
           (fst (loadSessions true (reader cfg rd)
                   (fst (loadSessions false (reader cfg rd) initial))))
         = NoSessions)
  /\ (isSupabaseConfigured cfg = false
      \/ read_getUser rd = Resolved None
      \/ (exists err, read_getUser rd = Rejected err)
      \/ (exists user,
            read_getUser rd = Resolved (Some user)
            /\ ((exists err, sessions_select rd (userQuery user 20) = Rejected err)
                \/ (exists rows msg,
                      sessions_select rd (userQuery user 20)
                      = Resolved (mkAnswer rows (Some msg))))) ->
      view true (fst load) = NoSessions).
Proof.
  intros signedOutLoad load r.
  split; [repeat split |].
  assert (Hload : forall s0 rows, outcome r = Returns rows ->
            fst (loadSessions true (reader cfg rd) s0) = PastSessions.mkState rows false).
  { intros s0 rows Hr. unfold loadSessions. cbn [negb]. fold r. now rewrite Hr. }
  assert (Hpending : forall s0, outcome r = NeverSettles ->
            fst (loadSessions true (reader cfg rd) s0) = s0).
  { intros s0 Hr. unfold loadSessions. cbn [negb]. fold r. now rewrite Hr. }
  split.
  { unfold load, loadSessions. cbn [negb]. fold r.
    destruct (outcome r); reflexivity. }
  split.
  { intros rows Hr. unfold load. rewrite (Hload s rows Hr).
    split; [reflexivity | destruct rows; reflexivity]. }
  split.
  { intros Hr. unfold load. rewrite (Hpending s Hr). split; [reflexivity |].
    unfold view. cbn [negb]. destruct (loading s); [reflexivity |].
    destruct (sessions s); reflexivity. }
  split.
  { intros Hr. rewrite !Hpending by exact Hr. split; reflexivity. }
  intros Hfail.
  assert (Hr : outcome r = Returns []).
  { unfold r, getUserSessions, reader.
    destruct Hfail as [-> | Hfail]; [reflexivity |].
    destruct (isSupabaseConfigured cfg); [| reflexivity].
    destruct Hfail as [-> | [[err ->] | (user & -> & Hsel)]]; try reflexivity.
    cbn. destruct Hsel as [[err ->] | (rows & msg & ->)]; reflexivity. }
  unfold load. now rewrite (Hload s [] Hr).
Qed.

(** X7. The date of a session, for a valid date: less than a day ago reads
    Today, one day ago Yesterday, two to six days ago that number of
    days, a week or more the locale's date; a date in the future reads
    as a negative number of days ago. *)
Theorem formatDate_buckets getTime toLocale now ds created :
  ds <> "" -> getTime ds = Some created ->
  let day := 86400000 in
  let shown := formatDate getTime toLocale now (Some ds) in
  (0 <= now - created < day -> shown = "Today")
  /\ (day <= now - created < 2 * day -> shown = "Yesterday")
  /\ (2 * day <= now - created < 7 * day ->
      shown = (toString ((now - created) / day) ++ " days ago")%string
      /\ 2 <= (now - created) / day <= 6)
  /\ (7 * day <= now - created -> shown = toLocale ds)
  /\ (now - created < 0 ->
      shown = (toString ((now - created) / day) ++ " days ago")%string
      /\ (now - created) / day < 0).
Proof.
  intros Hne Htime day shown.
  unfold shown, formatDate. apply String.eqb_neq in Hne. rewrite Hne, Htime.
  change (1000 * 60 * 60 * 24) with day.
  assert (Hday : day = 86400000) by reflexivity.
  set (d := (now - created) / day).
  split; [| split; [| split; [| split]]].
  - intros H. assert (d = 0) as -> by (apply Z.div_small; lia). reflexivity.
  - intros H.
    assert (d = 1) as ->.
    { symmetry. apply (Z.div_unique _ _ 1 (now - created - day)); lia. }
    reflexivity.
  - intros H.
    assert (Hd : 2 <= d <= 6).
    { split; [apply Z.div_le_lower_bound; lia |].
      assert (d < 7) by (apply Z.div_lt_upper_bound; lia). lia. }
    split; [| exact Hd].
    destruct (Z.eqb_spec d 0); [lia |]. destruct (Z.eqb_spec d 1); [lia |].
    destruct (Z.ltb_spec d 7); [reflexivity | lia].
  - intros H.
    assert (Hd : 7 <= d) by (apply Z.div_le_lower_bound; lia).
    destruct (Z.eqb_spec d 0); [lia |]. destruct (Z.eqb_spec d 1); [lia |].
    destruct (Z.ltb_spec d 7); [lia | reflexivity].
  - intros H.
    assert (Hd : d < 0) by (apply Z.div_lt_upper_bound; lia).
    split; [| exact Hd].
    destruct (Z.eqb_spec d 0); [lia |]. destruct (Z.eqb_spec d 1); [lia |].
    destruct (Z.ltb_spec d 7); [reflexivity | lia].
Qed.

End Journal.

Lemma formatDate_witness :
  PastSessions.formatDate (fun _ => Some 1000) (fun s => s) 90000000 (Some "2026-01-04")
  = "Yesterday".
Proof.
  destruct (formatDate_buckets (fun _ => Some 1000) (fun s => s) 90000000
              "2026-01-04" 1000 ltac:(discriminate) eq_refl) as (_ & Hy & _).
  apply Hy. lia.
Defined.

Example formatDate_future :
  PastSessions.formatDate (fun _ => Some 3601000) (fun s => s) 1000 (Some "2026-01-06")
  = "-1 days ago".
Proof. vm_compute. reflexivity. Qed.

Example formatDate_absent :
  PastSessions.formatDate (fun _ => Some 0) (fun s => s) 1000 None = "".
Proof. reflexivity. Qed.

(** ** Signing in and out *)

Section SignIn.
Import Supabase CloudSync.

(** X8. [handleSignIn] with a client. With no email typed it does nothing.
    Otherwise it asks for one magic link, to the email typed, and never
    changes the user or the panel: on success the message tells to check
    the email and the field is cleared; on an error answer or a rejection
    the message is the error's, or a fixed text when that is empty, the
    email stays and the button is usable again; while the call is pending
    the button stays disabled. *)
Theorem handleSignIn_behaviour sb s :
  let r := handleSignIn (Some sb) s in
  (email s = "" -> r = mkRun s [] 0 true)
  /\ (email s <> "" ->
      otpRequests r = [email s]
      /\ user (final r) = user s /\ isOpen (final r) = isOpen s
      /\ (signInWithOtp sb (email s) = Resolved None ->
          settled r = true /\ isLoading (final r) = false
          /\ message (final r) = "Check your email for a sign-in link"
          /\ email (final r) = "")
      /\ (forall m,
          signInWithOtp sb (email s) = Resolved (Some m)
          \/ signInWithOtp sb (email s) = Rejected m ->
          settled r = true /\ isLoading (final r) = false
          /\ message (final r) = orElse m "Something went wrong"
          /\ message (final r) <> ""
          /\ email (final r) = email s
          /\ sendDisabled (final r) = false)
      /\ (signInWithOtp sb (email s) = Pending ->
          settled r = false /\ isLoading (final r) = true
          /\ sendDisabled (final r) = true)).
Proof.
  intros r. unfold r, handleSignIn. split.
  - intros ->. reflexivity.
  - intros Hne. pose proof Hne as Hneb. apply String.eqb_neq in Hneb. rewrite Hneb.
    split; [destruct (signInWithOtp sb (email s)) as [[m |] | m |]; reflexivity |].
    split; [destruct (signInWithOtp sb (email s)) as [[m |] | m |]; reflexivity |].
    split; [destruct (signInWithOtp sb (email s)) as [[m |] | m |]; reflexivity |].
    split; [| split].
    + intros ->. repeat split.
    + intros m Hm.
      assert (Hmsg : orElse m "Something went wrong" <> "").
      { unfold orElse. destruct (String.eqb_spec m ""); [discriminate | assumption]. }
      destruct Hm as [-> | ->]; cbn; rewrite Hneb; repeat split; assumption.
    + intros ->. repeat split.
Qed.

(** X9. [handleSignOut] with a client makes one [signOut] call and never
    changes the user, the email or the panel itself. When the call
    resolves the message reads Signed out, whatever error the answer
    carries; when it is rejected the message is the error's, or a fixed
    text; while the call is pending the component stays loading. The
    timeout that follows clears the message. *)
Theorem handleSignOut_behaviour sb s :
  let r := handleSignOut (Some sb) s in
  (user (final r) = user s /\ email (final r) = email s /\ isOpen (final r) = isOpen s)
  /\ signOuts r = 1%nat
  /\ (forall answer, signOut sb = Resolved answer ->
        settled r = true /\ isLoading (final r) = false
        /\ message (final r) = "Signed out")
  /\ (forall m, signOut sb = Rejected m ->
        settled r = true /\ isLoading (final r) = false
        /\ message (final r) = orElse m "Error signing out")
  /\ (signOut sb = Pending -> settled r = false /\ isLoading (final r) = true)
  /\ message (messageTimeout (final r)) = "".
Proof.
  intros r. unfold r, handleSignOut.
  split; [destruct (signOut sb) as [a | m |]; repeat split |].
  split; [destruct (signOut sb) as [a | m |]; reflexivity |].
  split; [intros a ->; repeat split |].
  split; [intros m ->; repeat split |].
  split; [intros ->; repeat split |].
  reflexivity.
Qed.

End SignIn.

(** ** The draft inside the later version *)

Section Versions.
Context `{J : JSON}.

Lemma commitSave_storage now prev next e :
  localStorage (commitSave now prev next e)
  = if saveDepsSame prev next then localStorage e
    else if truthy (energyLevel next) || truthy (currentActivity next)
         then <[SESSION_KEY := JSON_stringify
                                 (sessionData (energyLevel next) (currentActivity next) now)]>
                (localStorage e)
         else localStorage e.
Proof.
  unfold commitSave, saveEffect.
  destruct (saveDepsSame prev next); [reflexivity |].
  destruct (_ || _); reflexivity.
Qed.

(** X10. The version with the timer extends the earlier draft. A click on
    one of the draft's three buttons changes the energy level, the
    activity, the reflection flag and the storage of the later version
    exactly as it changes those of the draft, from every world. *)
Theorem later_version_extends_draft now b w :
  Draft.fire now b (draftOf w) = draftOf (fire now (laterEvent b) w).
Proof.
  unfold draftOf at 2. rewrite env_fire, commit_storage, commitSave_storage.
  destruct b as [e | a |]; cbn [laterEvent].
  - reflexivity.
  - destruct a; reflexivity.
  - cbn [handle]. unfold Draft.fire, draftOf, Draft.handleReset.
    cbn [handleReset app env]. unfold setLocalStorage. cbn [localStorage].
    destruct (clearTimer_frame (env w)) as (-> & _).
    reflexivity.
Qed.

End Versions.

(** ** Sync calls and the storage along a step *)

Section Reachable2.
Context `{J : JSON}.

Lemma syncCalls_fire now ev w :
  syncCalls (env (fire now ev w)) = (syncCalls (env w) ++ syncStarted ev w)%list.
Proof.
  rewrite env_fire.
  destruct (commit_log now (app w) (app (handle ev w)) (env (handle ev w))) as [_ ->].
  destruct ev; try (cbn; now rewrite app_nil_r).
  - cbn [handle handleReset env]. unfold setLocalStorage. cbn [syncCalls].
    destruct (clearTimer_frame (env w)) as (_ & _ & _ & ->). cbn. now rewrite app_nil_r.
  - cbn [handle handleCompleteFeedback handleReset env syncStarted].
    unfold setLocalStorage. cbn [syncCalls].
    match goal with |- syncCalls (clearTimer ?e) = _ =>
      destruct (clearTimer_frame e) as (_ & _ & _ & ->) end.
    destruct (_ && _); cbn; [reflexivity | now rewrite app_nil_r].
Qed.

Lemma storage_fire_other now ev w k :
  k <> SESSION_KEY ->
  localStorage (env (fire now ev w)) !! k = localStorage (env w) !! k.
Proof.
  intros Hk. rewrite env_fire, commit_storage, commitSave_storage.
  assert (Hhandle : localStorage (env (handle ev w)) !! k = localStorage (env w) !! k).
  { destruct ev; try reflexivity.
    - cbn [handle handleReset env]. unfold setLocalStorage. cbn [localStorage].
      destruct (clearTimer_frame (env w)) as (-> & _).
      now apply lookup_delete_ne.
    - cbn [handle handleCompleteFeedback handleReset env].
      unfold setLocalStorage. cbn [localStorage].
      match goal with |- delete _ (localStorage (clearTimer ?e)) !! _ = _ =>
        destruct (clearTimer_frame e) as (-> & _) end.
      rewrite lookup_delete_ne by congruence.
      destruct (_ && _); reflexivity. }
  destruct (saveDepsSame _ _); [exact Hhandle |].
  destruct (_ || _); [| exact Hhandle].
  rewrite lookup_insert_ne by congruence. exact Hhandle.
Qed.

Lemma storage_mount now ls :
  localStorage (env (mounted now ls))
  = let loaded := fst (loadEffect initialState (freshEnv ls)) in
    if saveDepsSame initialState loaded then ls
    else if truthy (energyLevel loaded) || truthy (currentActivity loaded)
         then <[SESSION_KEY := JSON_stringify
                                 (sessionData (energyLevel loaded)
                                    (currentActivity loaded) now)]> ls
         else ls.
Proof.
  unfold mounted.
  pose proof (loadEffect_frame initialState (freshEnv ls)) as Hload.
  destruct (loadEffect initialState (freshEnv ls)) as [loaded e].
  cbn [fst snd] in *. destruct Hload as (_ & _ & (Hls & _)). cbn in Hls.
  change (saveEffect now initialState e) with e.
  unfold render. cbn [app env]. rewrite commit_storage, commitSave_storage.
  destruct (timerEffect_frame initialState e) as (-> & _).
  now rewrite Hls.
Qed.

End Reachable2.

(** ** Phases along a step *)

Lemma phase_step ev w :
  TimerOk (app w) -> IntervalOk (app w) (env w) -> enabled w ev = true ->
  startsIn ev (phase (app w))
  /\ phase (app (handle ev w))
     = nextPhase (phase (app w)) ev (timeRemaining (app w) =? 1).
Proof.
  destruct w as [[el ca sr st td tr run pe sc sf ia] e].
  intros [Hd Hr Hrun Hhid Hcomp Hfb Harm Hearly] [Hiv Hno _] Hen.
  unfold enabled, timerSetupShown in Hen.
  cbn [app env energyLevel currentActivity showReflection showTimer timerDuration
       timeRemaining isTimerRunning pomodoroEnabled sessionComplete showFeedback
       isAuthenticated] in *.
  destruct ev; cbn [startsIn nextPhase].
  - apply bool_decide_eq_true in Hen. split; [exact Hen |].
    apply phase_EnergyChosen. split; [apply energy_string_truthy | reflexivity].
  - apply bool_decide_eq_true in Hen. split; [exact Hen |].
    apply phase_EnergyChosen in Hen as [Hel _]. cbn in Hel.
    destruct a; unfold phase; cbn; rewrite Hel; reflexivity.
  - split; [| reflexivity].
    unfold phase in *. cbn in *.
    destruct (truthy el), (truthy ca), sc, sf, st; cbn in *;
      try discriminate Hen; split; discriminate.
  - apply andb_true_iff in Hen as [Hen _]. apply andb_true_iff in Hen as [Hen _].
    apply bool_decide_eq_true in Hen. split; [exact Hen | reflexivity].
  - apply andb_true_iff in Hen as [Hen _].
    apply bool_decide_eq_true in Hen. split; [exact Hen | reflexivity].
  - apply andb_true_iff in Hen as [Hen _].
    apply bool_decide_eq_true in Hen. split; [exact Hen |].
    destruct (phase_ActivityChosen _ Hen) as (Hel & Hca & Hst & Hsf). cbn in *.
    unfold phase. cbn. rewrite Hel, Hca, Hsf. reflexivity.
  - apply bool_decide_eq_true in Hen. split; [exact Hen | reflexivity].
  - apply bool_decide_eq_true in Hen. split; [exact Hen |].
    unfold phase in *. cbn in *.
    destruct (truthy el), (truthy ca), sc, sf, st; cbn in *; congruence.
  - destruct run; [| destruct (Hno eq_refl) as [_ Hiv']; rewrite Hiv' in Hen; discriminate].
    specialize (Hrun eq_refl).
    assert (Hst : st = true).
    { destruct st; [reflexivity |]. destruct (Hhid eq_refl). discriminate. }
    assert (Hsc : sc = false).
    { destruct sc; [| reflexivity]. destruct (Hcomp eq_refl). discriminate. }
    assert (Hsf : sf = false).
    { destruct sf; [| reflexivity]. specialize (Hfb eq_refl). congruence. }
    subst.
    assert (Hboth : truthy el && truthy ca = true).
    { destruct (truthy el && truthy ca); [reflexivity |].
      specialize (Hearly eq_refl). discriminate. }
    apply andb_true_iff in Hboth as [Hel Hca].
    assert (Hphase : phase (mkApp el ca sr true td tr true pe false false ia)
                     = TimerRunning).
    { unfold phase. cbn. rewrite Hel, Hca. reflexivity. }
    split; [exact Hphase |].
    cbn [handle app]. unfold tick, phase. cbn.
    destruct (Z.leb_spec tr 1), (Z.eqb_spec tr 1); try lia;
      cbn; rewrite Hel, Hca; reflexivity.
  - apply bool_decide_eq_true in Hen. split; [exact Hen |].
    unfold phase in *. cbn in *.
    destruct (truthy el), (truthy ca), sc, sf, st; cbn in *; congruence.
  - apply bool_decide_eq_true in Hen. split; [exact Hen | reflexivity].
  - split; [exact I | reflexivity].
Qed.

Lemma phase_handlePlayPause s : phase (handlePlayPause s) = phase s.
Proof. reflexivity. Qed.

Lemma handlePlayPause_twice s : handlePlayPause (handlePlayPause s) = s.
Proof. destruct s as [? ? ? ? ? ? [|] ? ? ? ?]; reflexivity. Qed.

Lemma durationOffered_multiple d :
  durationOffered d = true -> 5 <= d <= 90 /\ d mod 5 = 0.
Proof.
  intros H. split; [now apply durationOffered_range |].
  unfold durationOffered in H.
  apply orb_true_iff in H as [H | H]; [| lia].
  apply orb_true_iff in H as [H | H].
  - apply orb_true_iff in H as [H | H]; apply Z.eqb_eq in H; subst; reflexivity.
  - apply Z.eqb_eq in H; subst; reflexivity.
Qed.

Lemma truthy_not_null (v : JsValue) : truthy v = true -> same_value JNull v = false.
Proof. destruct v; cbn; congruence. Qed.

Section MoreClaims.
Context `{J : JSON}.

(** X11. One interval at most. In every reachable world at most one
    interval is active: while the timer runs there is exactly one, the
    one [timerRef] holds; while it does not run there is none and the ref
    is empty. *)
Theorem single_interval w :
  reachable w ->
  (length (intervals (env w)) <= 1)%nat
  /\ (isTimerRunning (app w) = true ->
      exists h, timerRef (env w) = Some (S h) /\ intervals (env w) = [S h])
  /\ (isTimerRunning (app w) = false ->
      timerRef (env w) = None /\ intervals (env w) = []).
Proof.
  intros Hreach. destruct (reachable_Inv w Hreach) as [_ [Hiv Hno _]].
  split; [| split; assumption].
  destruct (isTimerRunning (app w)).
  - destruct (Hiv eq_refl) as (h & _ & ->). cbn. lia.
  - destruct (Hno eq_refl) as [_ ->]. cbn. lia.
Qed.

(** X12. Pause and resume. Pausing a running countdown stops it where it
    is: the remaining seconds are kept, the interval is cancelled, no
    tick can fire and the countdown stays on screen. Pressing the button
    again gives back the state before the pause, with one new interval
    ticking. *)
Theorem pause_resume t1 t2 w :
  reachable w -> enabled w PlayPause = true -> isTimerRunning (app w) = true ->
  let paused := fire t1 PlayPause w in
  let resumed := fire t2 PlayPause paused in
  (isTimerRunning (app paused) = false
   /\ timeRemaining (app paused) = timeRemaining (app w)
   /\ timerRef (env paused) = None /\ intervals (env paused) = []
   /\ enabled paused Tick = false
   /\ phase (app paused) = TimerRunning)
  /\ (app resumed = app w
      /\ (exists h, timerRef (env resumed) = Some (S h) /\ intervals (env resumed) = [S h])
      /\ enabled resumed Tick = true).
Proof.
  intros Hreach Hen Hrun paused resumed.
  assert (Hphase : phase (app w) = TimerRunning)
    by (unfold enabled in Hen; now apply bool_decide_eq_true in Hen).
  assert (Hreach1 : reachable paused) by (constructor; assumption).
  assert (Hrun1 : isTimerRunning (app paused) = false).
  { change (app paused) with (handlePlayPause (app w)).
    unfold handlePlayPause, setIsTimerRunning. cbn [isTimerRunning]. now rewrite Hrun. }
  assert (Hphase1 : phase (app paused) = TimerRunning) by exact Hphase.
  assert (Hen1 : enabled paused PlayPause = true)
    by (unfold enabled; rewrite Hphase1; reflexivity).
  assert (Hreach2 : reachable resumed) by (constructor; assumption).
  assert (Happ2 : app resumed = app w) by apply handlePlayPause_twice.
  pose proof (reachable_Inv _ Hreach1) as Hinv1.
  pose proof (reachable_Inv _ Hreach2) as Hinv2.
  split.
  - destruct (ok_no_interval _ _ (proj2 Hinv1) Hrun1) as [Hr Hl].
    repeat split; try assumption.
    now rewrite (interval_iff_running paused Hinv1).
  - split; [exact Happ2 |]. split.
    + apply (ok_interval _ _ (proj2 Hinv2)). now rewrite Happ2.
    + rewrite (interval_iff_running resumed Hinv2). now rewrite Happ2.
Qed.

(** X13. [handleResetTimer], from the countdown of a reachable world: the
    remaining time is the configured minutes times 60 again, between 300
    and 5400 seconds; the timer is stopped and not complete, its interval
    is cancelled and no tick can fire; the countdown stays on screen and
    the configured duration is kept. *)
Theorem resetTimer_behaviour now w :
  reachable w -> enabled w ResetTimer = true ->
  let w' := fire now ResetTimer w in
  timeRemaining (app w') = timerDuration (app w) * 60
  /\ 300 <= timeRemaining (app w') <= 5400
  /\ timerDuration (app w') = timerDuration (app w)
  /\ isTimerRunning (app w') = false /\ sessionComplete (app w') = false
  /\ phase (app w') = TimerRunning
  /\ timerRef (env w') = None /\ intervals (env w') = []
  /\ enabled w' Tick = false.
Proof.
  intros Hreach Hen w'.
  pose proof (reachable_Inv w Hreach) as [Ht Hi].
  assert (Hreach' : reachable w') by (constructor; assumption).
  pose proof (reachable_Inv w' Hreach') as Hinv'.
  assert (Hrun' : isTimerRunning (app w') = false) by reflexivity.
  destruct (ok_no_interval _ _ (proj2 Hinv') Hrun') as [Hr Hl].
  destruct (phase_step ResetTimer w Ht Hi Hen) as [Hstart Hnext].
  cbn [startsIn nextPhase] in Hstart, Hnext.
  pose proof (ok_duration _ Ht) as Hd.
  split; [reflexivity |].
  split; [change (timeRemaining (app w')) with (timerDuration (app w) * 60); lia |].
  split; [reflexivity |]. split; [reflexivity |]. split; [reflexivity |].
  split; [change (app w') with (app (handle ResetTimer w)); congruence |].
  split; [exact Hr |]. split; [exact Hl |].
  now rewrite (interval_iff_running w' Hinv').
Qed.

(** X14. The configured duration. In every reachable world
    [timerDuration] is one of the values the set-up offers: a multiple of
    5 between 5 and 90 minutes. The next minute after it is never on
    offer. *)
Theorem duration_is_offered w :
  reachable w ->
  durationOffered (timerDuration (app w)) = true
  /\ 5 <= timerDuration (app w) <= 90
  /\ timerDuration (app w) mod 5 = 0
  /\ (enabled w (SetDuration (timerDuration (app w) + 1)) = false).
Proof.
  intros Hreach. pose proof (reachable_duration w Hreach) as Hd.
  destruct (durationOffered_multiple _ Hd) as [Hrange Hmod].
  split; [exact Hd |]. split; [exact Hrange |]. split; [exact Hmod |].
  unfold enabled. apply andb_false_iff. right.
  destruct (durationOffered (timerDuration (app w) + 1)) eqn:E; [| reflexivity].
  destruct (durationOffered_multiple _ E) as [_ Hmod'].
  rewrite Z.add_mod in Hmod' by lia. rewrite Hmod in Hmod'. discriminate.
Qed.

(** X15. Other keys of the storage. Neither the mount, whether the
    component comes on screen or its render throws, nor any step, nor
    any run of steps reads or changes what the storage holds under a key
    other than the session's. *)
Theorem other_keys_untouched k :
  k <> SESSION_KEY ->
  (forall now ls, localStorage (mountEnv (mount now ls)) !! k = ls !! k)
  /\ (forall now ev w,
        localStorage (env (fire now ev w)) !! k = localStorage (env w) !! k)
  /\ (forall evs w, localStorage (env (run evs w)) !! k = localStorage (env w) !! k).
Proof.
  intros Hk. split; [| split].
  - intros now ls.
    destruct (renders (fst (loadEffect initialState (freshEnv ls)))) eqn:Hr.
    + rewrite (mount_shown now ls Hr). cbn [mountEnv]. rewrite storage_mount. cbn zeta.
      destruct (saveDepsSame _ _); [reflexivity |].
      destruct (_ || _); [| reflexivity].
      now rewrite lookup_insert_ne by congruence.
    + rewrite (mount_thrown now ls Hr). cbn [mountEnv].
      destruct (loadEffect_frame initialState (freshEnv ls)) as (_ & _ & -> & _).
      reflexivity.
  - intros now ev w. now apply storage_fire_other.
  - induction evs as [| [now ev] evs IH]; intros w; [reflexivity |].
    cbn [run]. rewrite IH. now apply storage_fire_other.
Qed.

(** X16. An unreadable record. When the stored text is empty, or is not
    JSON, the component comes on screen in its initial state, on the
    energy buttons, and leaves the storage as it found it: the record is
    neither repaired nor removed. For a text that is not JSON the failure
    is logged as an error. *)
Theorem mount_keeps_unreadable_record now ls payload :
  ls !! SESSION_KEY = Some payload ->
  payload = "" \/ JSON_parse payload = None ->
  exists w,
    mount now ls = Shown w
    /\ app w = initialState
    /\ phase (app w) = Idle
    /\ localStorage (env w) = ls
    /\ (payload <> "" -> console (env w) = [ConsoleError "Failed to load session"]).
Proof.
  intros Hsome Hbad.
  assert (Hload : loadEffect initialState (freshEnv ls)
                  = (initialState,
                     if String.eqb payload "" then freshEnv ls
                     else log (ConsoleError "Failed to load session") (freshEnv ls))).
  { unfold loadEffect. cbn [localStorage freshEnv]. rewrite Hsome.
    destruct (String.eqb_spec payload "") as [-> | Hne]; [reflexivity |].
    cbn [negb]. destruct Hbad as [-> | ->]; [contradiction | reflexivity]. }
  destruct (mount_initial now ls) as [Hshown Happ]; [now rewrite Hload |].
  exists (mounted now ls).
  split; [exact Hshown |]. split; [exact Happ |]. split; [now rewrite Happ |]. split.
  - rewrite storage_mount, Hload. reflexivity.
  - intros Hne. rewrite console_mount, Hload. cbn [snd].
    apply String.eqb_neq in Hne. now rewrite Hne.
Qed.

(** X17. A readable record is stamped anew, if it can be shown. When the
    stored text parses to a value other than null, the render of the two
    fields read off it throws exactly when the energy level is truthy
    and is an object (or an array holding one) and the activity is
    falsy: the energy level is then to be shown above the activity
    buttons. If the render returns and one of the two fields is truthy,
    the component comes on screen with them and writes the record back
    with these two fields and the time of the mount: the stored
    timestamp, and any further field, is dropped. If the render throws,
    the component is removed and the storage stays as it was found. *)
Theorem mount_restamps_record now ls payload v :
  ls !! SESSION_KEY = Some payload -> payload <> "" ->
  JSON_parse payload = Some v -> v <> JNull -> v <> JUndefined ->
  let level := member v "energyLevel" in
  let act := member v "currentActivity" in
  let loaded := setCurrentActivity act (setEnergyLevel level initialState) in
  (renders loaded = false
   <-> truthy level = true /\ truthy act = false /\ renderable level = false)
  /\ (renders loaded = true ->
      exists w,
        mount now ls = Shown w /\ app w = loaded
        /\ localStorage (env w)
           = if truthy level || truthy act
             then <[SESSION_KEY := JSON_stringify (sessionData level act now)]> ls
             else ls)
  /\ (renders loaded = false -> mount now ls = Unmounted (freshEnv ls)).
Proof.
  intros Hsome Hne Hparse Hnull Hundef level act loaded.
  destruct (mount_with_record now ls payload v Hsome Hne Hparse Hnull Hundef)
    as [Happ _].
  fold level act loaded in Happ.
  assert (Hload : loadEffect initialState (freshEnv ls) = (loaded, freshEnv ls)).
  { unfold loadEffect. cbn [localStorage freshEnv]. rewrite Hsome.
    apply String.eqb_neq in Hne. rewrite Hne. cbn [negb]. rewrite Hparse.
    destruct v; try congruence; reflexivity. }
  split; [| split].
  - rewrite renders_spec. cbn [loaded energyLevel currentActivity
                               setCurrentActivity setEnergyLevel].
    destruct (truthy level), (truthy act), (renderable level); cbn;
      intuition congruence.
  - intros Hr. exists (mounted now ls).
    split; [apply mount_shown; now rewrite Hload |]. split; [exact Happ |].
    rewrite storage_mount. cbn zeta. rewrite Hload. cbn [fst].
    cbn [loaded energyLevel currentActivity setCurrentActivity setEnergyLevel].
    destruct (truthy level || truthy act) eqn:Htruthy.
    + assert (Hdiff : saveDepsSame initialState loaded = false).
      { unfold saveDepsSame.
        cbn [loaded energyLevel currentActivity setCurrentActivity
             setEnergyLevel initialState].
        apply orb_true_iff in Htruthy as [H | H]; apply truthy_not_null in H;
          rewrite H; [reflexivity | apply andb_false_r]. }
      now rewrite Hdiff.
    + destruct (saveDepsSame initialState loaded); reflexivity.
  - intros Hr. rewrite (mount_thrown now ls); rewrite Hload; [reflexivity | exact Hr].
Qed.

End MoreClaims.

Section Journeys.
Context `{J : JSON}.

Lemma syncCalls_mount now ls : syncCalls (env (mounted now ls)) = [].
Proof.
  unfold mounted.
  pose proof (loadEffect_frame initialState (freshEnv ls)) as Hload.
  destruct (loadEffect initialState (freshEnv ls)) as [loaded e].
  cbn [fst snd] in Hload. destruct Hload as (_ & _ & _ & _ & _ & _ & Hsync).
  unfold render. cbn [app env].
  destruct (commit_log now initialState loaded
              (timerEffect initialState (saveEffect now initialState e))) as [_ ->].
  destruct (timerEffect_frame initialState (saveEffect now initialState e))
    as (_ & _ & ->).
  destruct (saveEffect_frame now initialState e) as (_ & _ & _ & _ & ->).
  exact Hsync.
Qed.

Lemma reachable_run evs : forall w,
  reachable w -> runnable evs w = true -> reachable (run evs w).
Proof.
  induction evs as [| [now ev] evs IH]; intros w Hreach Hrun; [exact Hreach |].
  cbn [runnable] in Hrun. apply andb_true_iff in Hrun as [Hen Hrest].
  cbn [run]. apply IH; [now constructor | exact Hrest].
Qed.

(** X18. Reflecting has no timer. In every reachable world whose activity
    is reflect, the timer is hidden, stopped, at 0 and not complete, no
    feedback is asked and no interval is active. The screen is that of
    the chosen activity (or, were the energy level falsy, the energy
    buttons), and nothing but a new check-in, an energy button or the
    sign-in can be pressed: no timer can be set up or started. *)
Theorem reflect_has_no_timer w :
  reachable w -> currentActivity (app w) = JStr "reflect" ->
  (showTimer (app w) = false /\ isTimerRunning (app w) = false
   /\ timeRemaining (app w) = 0 /\ sessionComplete (app w) = false
   /\ showFeedback (app w) = false /\ intervals (env w) = [])
  /\ (phase (app w) = Idle \/ phase (app w) = ActivityChosen)
  /\ (forall ev, enabled w ev = true ->
      match ev with
      | SelectEnergy _ => phase (app w) = Idle
      | NewCheckIn => phase (app w) = ActivityChosen
      | AuthChange _ => True
      | _ => False
      end).
Proof.
  intros Hreach Hca.
  pose proof (reachable_Inv w Hreach) as [Ht Hi].
  pose proof (ok_reflect _ (reachable_ReflectOk w Hreach) Hca) as Hst.
  destruct (ok_hidden _ Ht Hst) as (Hrun & Htr & Hsc & Hsf).
  destruct (ok_no_interval _ _ Hi Hrun) as [_ Hivs].
  assert (Hphase : phase (app w) = if truthy (energyLevel (app w))
                                   then ActivityChosen else Idle).
  { unfold phase. rewrite Hca, Hsc, Hsf, Hst.
    destruct (truthy (energyLevel (app w))); reflexivity. }
  split; [repeat split; assumption |].
  split; [rewrite Hphase; destruct (truthy _); auto |].
  intros ev Hen. unfold enabled, timerSetupShown, differs_from_string in Hen.
  rewrite ?Hca, ?Hivs in Hen.
  destruct ev;
    try (apply bool_decide_eq_true in Hen; rewrite Hphase in Hen;
         destruct (truthy (energyLevel (app w))); congruence);
    try exact I; try discriminate Hen;
    try (rewrite andb_false_r in Hen; discriminate Hen);
    try (rewrite andb_false_r in Hen; cbn in Hen; discriminate Hen).
  rewrite Hphase in *.
  destruct (truthy (energyLevel (app w))); [reflexivity | discriminate Hen].
Qed.

(** X19. What is handed to [syncSession]. In every reachable world each
    record given to [syncSession] so far has a truthy energy level and
    activity, an activity other than reflect, and a duration the set-up
    offers. *)
Theorem synced_records_are_sessions w :
  reachable w -> Forall syncable (syncCalls (env w)).
Proof.
  induction 1 as [now ls w Hm | now ev w Hreach IH Hen].
  - apply mount_Shown in Hm as [-> _]. rewrite syncCalls_mount. constructor.
  - rewrite syncCalls_fire. apply Forall_app. split; [exact IH |].
    destruct ev; try constructor.
    cbn [syncStarted].
    destruct (isAuthenticated (app w) && truthy (energyLevel (app w))
              && truthy (currentActivity (app w))) eqn:Hcond; constructor;
      [| constructor].
    apply andb_true_iff in Hcond as [Hcond Hca].
    apply andb_true_iff in Hcond as [_ Hel].
    pose proof (reachable_Inv w Hreach) as [Ht _].
    unfold enabled in Hen. apply bool_decide_eq_true in Hen.
    repeat split; cbn [sessionRecord energy_level activity duration_minutes];
      [exact Hel | exact Hca | |].
    + intros Hreflect.
      pose proof (ok_reflect _ (reachable_ReflectOk w Hreach) Hreflect) as Hst.
      destruct (ok_hidden _ Ht Hst) as (_ & _ & _ & Hsf).
      unfold phase in Hen. rewrite Hsf, Hst in Hen.
      destruct (negb _); [discriminate |].
      destruct (negb _); [discriminate |].
      destruct (_ && _); discriminate.
    + exists (timerDuration (app w)). split; [reflexivity |].
      now apply reachable_duration.
Qed.

(** X20. Only the feedback prompt syncs. A step leaves the calls of
    [syncSession] as they were, unless it is an answer to the feedback
    prompt by a signed-in user, which adds one call, for the session on
    screen, after those made before. *)
Theorem sync_only_on_feedback now ev w :
  syncCalls (env (fire now ev w)) = syncCalls (env w)
  \/ exists f,
       ev = SubmitFeedback f /\ isAuthenticated (app w) = true
       /\ syncCalls (env (fire now ev w))
          = (syncCalls (env w)
             ++ [sessionRecord (app w) (feedback_string <$> f)])%list.
Proof.
  rewrite syncCalls_fire.
  destruct ev; try (left; apply app_nil_r).
  cbn [syncStarted].
  destruct (isAuthenticated (app w)) eqn:Hauth; [| left; apply app_nil_r].
  destruct (_ && _); [| left; apply app_nil_r].
  right. exists f. auto.
Qed.

(** X21. The screens along a step. In a reachable world each event is
    offered only on its own screen: the energy buttons on the first, the
    activity buttons after an energy level, the set-up and the start with
    the chosen activity, play/pause, reset and the ticks with the
    countdown, the request for feedback when the session is complete, the
    answer at the prompt, a new check-in anywhere but on the first screen
    and the prompt. The step leads to the screen the event names; a tick
    leaves the countdown exactly when one second was left. *)
Theorem phase_diagram now ev w :
  reachable w -> enabled w ev = true ->
  startsIn ev (phase (app w))
  /\ phase (app (fire now ev w))
     = nextPhase (phase (app w)) ev (timeRemaining (app w) =? 1).
Proof.
  intros Hreach Hen. destruct (reachable_Inv w Hreach) as [Ht Hi].
  rewrite app_fire. now apply phase_step.
Qed.

End Journeys.

(** ** The further properties on the sample runs *)

Lemma reachable_prompting : reachable (J := RefJSON.codec) prompting.
Proof.
  apply (reachable_run (J := RefJSON.codec)); [exact reachable_atStudy |].
  vm_compute. reflexivity.
Defined.

Lemma reachable_reflecting : reachable (J := RefJSON.codec) reflecting.
Proof. do 2 (apply reach_fire; [| reflexivity]). exact reachable_firstVisit. Defined.

(** While the sample countdown runs there is one interval, the one the
    ref holds. *)
Lemma single_interval_witness :
  isTimerRunning (app counting) = true
  /\ (length (intervals (env counting)) <= 1)%nat
  /\ exists h, timerRef (env counting) = Some (S h) /\ intervals (env counting) = [S h].
Proof.
  destruct (single_interval (J := RefJSON.codec) counting reachable_counting)
    as (Hlen & Hrun & _).
  split; [reflexivity |]. split; [exact Hlen |]. apply Hrun. reflexivity.
Defined.

(** Pausing the sample countdown at once and resuming it. *)
Lemma pause_resume_witness :
  enabled counting PlayPause = true
  /\ timeRemaining (app (fire (J := RefJSON.codec) "09:04" PlayPause counting)) = 1500
  /\ intervals (env (fire (J := RefJSON.codec) "09:04" PlayPause counting)) = []
  /\ app (fire (J := RefJSON.codec) "09:05" PlayPause
            (fire (J := RefJSON.codec) "09:04" PlayPause counting))
     = app counting.
Proof.
  destruct (pause_resume (J := RefJSON.codec) "09:04" "09:05" counting
              reachable_counting eq_refl eq_refl)
    as ((_ & Htr & _ & Hivs & _) & (Happ & _)).
  split; [reflexivity |]. split; [rewrite Htr; reflexivity |].
  split; [exact Hivs | exact Happ].
Defined.

(** Resetting the sample countdown. *)
Lemma resetTimer_witness :
  enabled counting ResetTimer = true
  /\ timeRemaining (app (fire (J := RefJSON.codec) "09:04" ResetTimer counting)) = 1500
  /\ isTimerRunning (app (fire (J := RefJSON.codec) "09:04" ResetTimer counting)) = false
  /\ intervals (env (fire (J := RefJSON.codec) "09:04" ResetTimer counting)) = [].
Proof.
  destruct (resetTimer_behaviour (J := RefJSON.codec) "09:04" counting
              reachable_counting eq_refl)
    as (Htr & _ & _ & Hrun & _ & _ & _ & Hivs & _).
  split; [reflexivity |]. split; [rewrite Htr; reflexivity |].
  split; [exact Hrun | exact Hivs].
Defined.

(** The 45 minutes of the sample configuration. *)
Lemma duration_witness :
  timerDuration (app configured) = 45
  /\ durationOffered (timerDuration (app configured)) = true
  /\ enabled configured (SetDuration (timerDuration (app configured) + 1)) = false.
Proof.
  destruct (duration_is_offered (J := RefJSON.codec) configured reachable_configured)
    as (Hd & _ & _ & Hnext).
  split; [reflexivity |]. split; [exact Hd | exact Hnext].
Defined.

(** A theme stored by some other script survives a visit. *)
Lemma other_keys_witness :
  "theme" <> SESSION_KEY
  /\ (exists w,
        mount (J := RefJSON.codec) "08:59" sharedStorage = Shown w
        /\ localStorage
             (env (run (J := RefJSON.codec)
                     [("09:00", SelectEnergy low); ("09:01", SelectActivity rest);
                      ("09:02", NewCheckIn)] w)) !! "theme"
           = Some "dark").
Proof.
  assert (Hk : "theme" <> SESSION_KEY) by discriminate.
  destruct (other_keys_untouched (J := RefJSON.codec) "theme" Hk) as (Hmount & _ & Hrun).
  split; [exact Hk |]. eexists. split; [reflexivity |].
  rewrite Hrun. exact (Hmount "08:59" sharedStorage).
Defined.

(** A truncated record. *)
Lemma mount_unreadable_witness :
  JSON_parse (JSON := RefJSON.codec) "{energyLevel" = None
  /\ (exists w,
        mount (J := RefJSON.codec) "08:59" garbageStorage = Shown w
        /\ app w = initialState
        /\ localStorage (env w) = garbageStorage
        /\ console (env w) = [ConsoleError "Failed to load session"]).
Proof.
  assert (Hparse : JSON_parse (JSON := RefJSON.codec) "{energyLevel" = None)
    by (vm_compute; reflexivity).
  destruct (mount_keeps_unreadable_record (J := RefJSON.codec) "08:59" garbageStorage
              "{energyLevel" eq_refl (or_intror Hparse))
    as (w & Hshown & Happ & _ & Hls & Hlog).
  split; [exact Hparse |]. exists w.
  split; [exact Hshown |]. split; [exact Happ |]. split; [exact Hls |].
  apply Hlog. discriminate.
Defined.

(** The odd record is written back with the time of the visit; the
    record React cannot show stays as it is, and the component is gone. *)
Lemma mount_restamps_witness :
  (exists w,
     mount (J := RefJSON.codec) "08:59" oddStorage = Shown w
     /\ localStorage (env w)
        = {[ SESSION_KEY :=
               RefJSON.stringify (sessionData (JStr "banana") (JNum (num 7)) "08:59") ]})
  /\ mount (J := RefJSON.codec) "08:59" brokenStorage = Unmounted (freshEnv brokenStorage).
Proof.
  assert (Hodd : JSON_parse (JSON := RefJSON.codec) (RefJSON.stringify oddRecord)
                 = Some oddRecord) by (vm_compute; reflexivity).
  assert (Hbroken : JSON_parse (JSON := RefJSON.codec) (RefJSON.stringify brokenRecord)
                    = Some brokenRecord) by (vm_compute; reflexivity).
  assert (Hne : RefJSON.stringify oddRecord <> "") by (vm_compute; discriminate).
  assert (Hne' : RefJSON.stringify brokenRecord <> "") by (vm_compute; discriminate).
  split.
  - destruct (mount_restamps_record (J := RefJSON.codec) "08:59" oddStorage
                (RefJSON.stringify oddRecord) oddRecord eq_refl Hne Hodd
                ltac:(discriminate) ltac:(discriminate)) as (_ & Hshown & _).
    destruct (Hshown eq_refl) as (w & Hm & _ & Hls).
    exists w. split; [exact Hm |]. rewrite Hls.
    unfold oddStorage. cbn [truthy orb oddRecord member lookup_member String.eqb].
    rewrite insert_singleton. reflexivity.
  - destruct (mount_restamps_record (J := RefJSON.codec) "08:59" brokenStorage
                (RefJSON.stringify brokenRecord) brokenRecord eq_refl Hne' Hbroken
                ltac:(discriminate) ltac:(discriminate)) as (_ & _ & Hthrown).
    apply Hthrown. reflexivity.
Defined.

(** After choosing to reflect only a new check-in and the sign-in are on
    offer. *)
Lemma reflect_witness :
  currentActivity (app reflecting) = JStr "reflect"
  /\ showReflection (app reflecting) = true
  /\ showTimer (app reflecting) = false
  /\ enabled reflecting StartTimer = false
  /\ enabled reflecting NewCheckIn = true.
Proof.
  destruct (reflect_has_no_timer (J := RefJSON.codec) reflecting
              reachable_reflecting eq_refl) as ((Hst & _) & _ & Hoffered).
  split; [reflexivity |]. split; [reflexivity |]. split; [exact Hst |].
  split; [| reflexivity].
  destruct (enabled reflecting StartTimer) eqn:Hen; [| reflexivity].
  destruct (Hoffered StartTimer Hen).
Defined.

(** The one record of the rated session. *)
Lemma synced_records_witness :
  syncCalls (env rated)
  = [ {| record_id := None; user_id := None;
         energy_level := JStr "high"; activity := JStr "study";
         duration_minutes := Some 5; feedback := Some "good";
         created_at := None |} ]
  /\ Forall syncable (syncCalls (env rated)).
Proof.
  split; [vm_compute; reflexivity |].
  apply (synced_records_are_sessions (J := RefJSON.codec)).
  apply reach_fire; [exact reachable_prompting | vm_compute; reflexivity].
Defined.

(** One second of the sample countdown. *)
Lemma phase_diagram_witness :
  enabled counting Tick = true
  /\ phase (app counting) = TimerRunning
  /\ phase (app (fire (J := RefJSON.codec) "09:04" Tick counting)) = TimerRunning.
Proof.
  destruct (phase_diagram (J := RefJSON.codec) "09:04" Tick counting
              reachable_counting eq_refl) as [Hstart Hnext].
  split; [reflexivity |]. split; [exact Hstart |]. rewrite Hnext. reflexivity.
Defined.
